(** * SmartX-Backend: signal fusion, signal lifecycle and the trade queue

    A shallow embedding of the decision path of the backend:

    - [src/models/tradingSignal.model.js]: the [TradingSignal] model;
    - the TWITTER_MONITOR module ([analyzeTweets]);
    - the GROK_ENGINE module ([analyzeMarket], [executeTrade]);
    - the CYBER_METRICS module ([executeTrade], [analyzeMarket]);
    - the HIVE_MATRIX module ([queueTrade]);
    - the DEEPSEEK_AI module ([analyzePatterns], [predictPrice]);
    - the routes [GET /sentiment] and [GET /signals].

    JavaScript numbers are IEEE 754 binary64 values: they are modelled by
    Rocq's primitive floats, whose operations are the same ones, so that
    [0 / 0] is [NaN] and every comparison with [NaN] is false.  The database
    table behind the model is a list of rows, threaded through every
    operation; an asynchronous method that may throw returns the new table
    together with either the error or its result.  What the libraries do
    is modelled where the code depends on it: the validators of the model
    layer and the two decimals of a DECIMAL(5,2) column, the own and the
    inherited properties of a plain object and the order of its entries,
    and a TensorFlow call that throws. *)

From Stdlib Require Import Floats ZArith List Ascii String Bool Lia Permutation.
From Stdlib Require Uint63.
Import ListNotations.

Set Warnings "-inexact-float,-register-all".
Local Open Scope string_scope.
Local Open Scope list_scope.

(** ** JavaScript values *)

Module JS.

Definition number := float.
#[global] Bind Scope float_scope with number.

(** [Math.abs(x)] *)
Definition Math_abs (x : number) : number := abs x.

(** [Math.min(x, y)]: [NaN] if one argument is [NaN], and [-0] is
    smaller than [+0]. *)
Definition Math_min (x y : number) : number :=
  if is_nan x || is_nan y then nan
  else if (x <? y)%float then x
  else if (y <? x)%float then y
  else match classify x with NZero => x | _ => y end.

(** The [length] of an array, as a number. *)
Definition of_length (n : nat) : number := of_uint63 (Uint63.of_Z (Z.of_nat n)).

(** A small integer, as a number. *)
Definition of_int (k : Z) : number := of_uint63 (Uint63.of_Z k).

(** What [throw] carries.  [ValidationError] is the rejection raised by
    the model layer, of which only the attribute at fault is kept;
    [JsError] is an [Error], of whatever kind, with this message. *)
Inductive Error :=
| ValidationError (attribute : string)
| JsError (message : string).

(** [error.message] *)
Definition message (e : Error) : string :=
  match e with
  | ValidationError attribute => ("Validation error: " ++ attribute)%string
  | JsError m => m
  end.

(** [try { ... } catch (error) { throw new Error(`${prefix}: ${error.message}`) }] *)
Definition rethrow {S A : Type} (prefix : string) (r : S * (Error + A)) : S * (Error + A) :=
  match r with
  | (st, inl e) => (st, inl (JsError (prefix ++ ": " ++ message e)%string))
  | (st, inr a) => (st, inr a)
  end.

End JS.
Import JS.

(** Primary keys are UUIDs, which are never empty strings; only their
    identity matters. *)
Definition Id := nat.

(** JSON payloads ([JSONB] columns). [JUuid] is the string of a primary key. *)
Inductive Json :=
| JNull
| JNumber (x : number)
| JString (s : string)
| JUuid (i : Id)
| JArray (l : list Json)
| JObject (l : list (string * Json)).

(** An object literal: its own properties, in insertion order. *)
Definition JsObject := list (string * Json).

Fixpoint obj_get (k : string) (o : JsObject) : option Json :=
  match o with
  | [] => None
  | (k', v) :: o' => if String.eqb k k' then Some v else obj_get k o'
  end.

(** [o[k] = v]: an existing property keeps its place. *)
Fixpoint obj_set (k : string) (v : Json) (o : JsObject) : JsObject :=
  match o with
  | [] => [(k, v)]
  | (k', v') :: o' =>
      if String.eqb k k' then (k, v) :: o' else (k', v') :: obj_set k v o'
  end.

(** [{ ...m }], where [m] is an object, [null] or [undefined]. *)
Definition spread (m : option JsObject) : JsObject :=
  match m with Some o => o | None => [] end.

(** ** The TradingSignal model *)

(** [DataTypes.ENUM('buy', 'sell', 'hold')] *)
Inductive Action := buy | sell | hold.

(** [DataTypes.ENUM('CYBER_METRICS', 'TWITTER_MONITOR', 'DEEPSEEK_AI', 'GROK_ENGINE')] *)
Inductive Source := CYBER_METRICS | TWITTER_MONITOR | DEEPSEEK_AI | GROK_ENGINE.

(** [DataTypes.ENUM('pending', 'executed', 'expired', 'cancelled')] *)
Inductive Status := pending | executed | expired | cancelled.

Definition Action_to_string (a : Action) : string :=
  match a with buy => "buy" | sell => "sell" | hold => "hold" end.

Definition Source_to_string (s : Source) : string :=
  match s with
  | CYBER_METRICS => "CYBER_METRICS"
  | TWITTER_MONITOR => "TWITTER_MONITOR"
  | DEEPSEEK_AI => "DEEPSEEK_AI"
  | GROK_ENGINE => "GROK_ENGINE"
  end.

Definition Status_to_string (s : Status) : string :=
  match s with
  | pending => "pending"
  | executed => "executed"
  | expired => "expired"
  | cancelled => "cancelled"
  end.

(** The value of an ENUM column given as a string: one of the declared
    labels, or nothing. *)
Definition enum_of_string {A : Type} (labels : list A) (name : A -> string)
    (s : string) : option A :=
  find (fun a => String.eqb s (name a)) labels.

Definition Action_of_string : string -> option Action :=
  enum_of_string [buy; sell; hold] Action_to_string.

Definition Source_of_string : string -> option Source :=
  enum_of_string [CYBER_METRICS; TWITTER_MONITOR; DEEPSEEK_AI; GROK_ENGINE]
    Source_to_string.

Definition Status_of_string : string -> option Status :=
  enum_of_string [pending; executed; expired; cancelled] Status_to_string.

Definition Source_eqb (a b : Source) : bool :=
  String.eqb (Source_to_string a) (Source_to_string b).

Definition Status_eqb (a b : Status) : bool :=
  String.eqb (Status_to_string a) (Status_to_string b).

Module TradingSignal.

(** A row of the table.  Timestamps are epoch milliseconds.  The
    bookkeeping columns [createdAt] and [updatedAt] are left out.
    [confidence] is the number that the DECIMAL(5,2) column holds; the
    three prices are the numbers that were given, their rounding to the
    eight decimals of DECIMAL(18,8) being left out. *)
Record t := mk {
  id : Id;
  symbol : string;
  action : Action;
  confidence : number;
  price : option number;
  targetPrice : option number;
  stopLoss : option number;
  timeframe : option string;
  source : Source;
  status : Status;
  expiresAt : option Z;
  metadata : option JsObject
}.

(** The argument of [TradingSignal.create]: plain JavaScript values. *)
Record Attributes := {
  a_symbol : string;
  a_action : string;
  a_confidence : number;
  a_price : option number;
  a_targetPrice : option number;
  a_stopLoss : option number;
  a_timeframe : option string;
  a_source : string;
  a_status : option string;
  a_expiresAt : option Z;
  a_metadata : option JsObject
}.

Definition Store := list t.

(** The validators [min] and [max] of the model layer:
    [isNaN(number) || number >= val] and [isNaN(number) || number <= val].
    [NaN] passes both. *)
Definition validate_min (val c : number) : bool := is_nan c || (val <=? c)%float.

Definition validate_max (val c : number) : bool := is_nan c || (c <=? val)%float.

(** [validate: { min: 0, max: 100 }] on [confidence]. *)
Definition validate_confidence (c : number) : bool :=
  validate_min 0 c && validate_max 100 c.

(** One step of the count of the half hundredths 0.005, 0.015, ... that
    are not above [c]. *)
Definition next_hundredth (c : number) (k : Z) : Z :=
  if (c <? of_int (2 * k + 1) / 200)%float then k else (k + 1)%Z.

(** [DataTypes.DECIMAL(5, 2)], for a value that the validators let pass:
    the database rounds the decimal digits of the number to two places,
    half away from zero, and the row and the instance that [create]
    returns carry the rounded value.  A number from 0 to 100 becomes
    [k / 100], where [k] counts the half hundredths that are not above
    it (74.996 becomes 75, and so does 74.995, which is written with
    these digits); [NaN] is kept. *)
Definition DECIMAL_5_2 (c : number) : number :=
  if is_nan c then nan
  else (of_int (N.iter 10000 (next_hundredth c) 0%Z) / 100)%float.

(** A primary key that no row has. *)
Definition fresh (st : Store) : Id := S (list_max (map id st)).

(** [TradingSignal.create(attributes)]: the attributes are checked
    against the declaration of the model ([status] defaults to
    ['pending']); a rejected signal is not inserted.  What is returned is
    the row as the table holds it. *)
Definition create (st : Store) (a : Attributes) : Store * (Error + t) :=
  match Action_of_string (a_action a) with
  | None => (st, inl (ValidationError "action"))
  | Some act =>
    match Source_of_string (a_source a) with
    | None => (st, inl (ValidationError "source"))
    | Some src =>
      match
        match a_status a with
        | Some s => Status_of_string s
        | None => Some pending
        end
      with
      | None => (st, inl (ValidationError "status"))
      | Some sta =>
        if validate_confidence (a_confidence a) then
          let signal :=
            {| id := fresh st;
               symbol := a_symbol a;
               action := act;
               confidence := DECIMAL_5_2 (a_confidence a);
               price := a_price a;
               targetPrice := a_targetPrice a;
               stopLoss := a_stopLoss a;
               timeframe := a_timeframe a;
               source := src;
               status := sta;
               expiresAt := a_expiresAt a;
               metadata := a_metadata a |} in
          (st ++ [signal], inr signal)
        else (st, inl (ValidationError "confidence"))
      end
    end
  end.

(** [TradingSignal.findByPk(id)] *)
Definition findByPk (st : Store) (i : Id) : option t :=
  find (fun s => Nat.eqb (id s) i) st.

Definition set_status (sta : Status) (s : t) : t :=
  mk (id s) (symbol s) (action s) (confidence s) (price s) (targetPrice s)
     (stopLoss s) (timeframe s) (source s) sta (expiresAt s) (metadata s).

Definition set_metadata (m : option JsObject) (s : t) : t :=
  mk (id s) (symbol s) (action s) (confidence s) (price s) (targetPrice s)
     (stopLoss s) (timeframe s) (source s) (status s) (expiresAt s) m.

(** [signal.update(changes)]: the row of [signal] takes the changes. *)
Definition update (st : Store) (i : Id) (changes : t -> t) : Store :=
  map (fun s => if Nat.eqb (id s) i then changes s else s) st.

End TradingSignal.

Import TradingSignal.

(** ** TWITTER_MONITOR: [analyzeTweets] *)

Module TwitterMonitorModule.

(** What [analyzeTweets] reads of a fetched tweet. *)
Record Tweet := {
  username : string;
  sentiment : string;
  sentimentScore : number;
  symbols : list string
}.

(** [symbolTweets], a plain object whose values are arrays of tweets:
    its own properties, in the order in which they were created. *)
Definition SymbolTweets := list (string * list Tweet).

(** The properties that a plain object inherits from [Object.prototype].
    Under these names [symbolTweets[symbol]] is a function (the prototype
    itself under [__proto__]) and not [undefined], although no tweet was
    grouped there. *)
Definition inherited : list string :=
  ["constructor"; "hasOwnProperty"; "isPrototypeOf"; "propertyIsEnumerable";
   "toLocaleString"; "toString"; "valueOf"; "__defineGetter__";
   "__defineSetter__"; "__lookupGetter__"; "__lookupSetter__"; "__proto__"].

(** [Object.hasOwn(symbolTweets, symbol)] *)
Definition hasOwn (symbolTweets : SymbolTweets) (symbol : string) : bool :=
  existsb (fun entry => String.eqb symbol (fst entry)) symbolTweets.

(** [symbolTweets[symbol].push(tweet)] on an own property; a missing one
    is created at the end. *)
Fixpoint append (symbolTweets : SymbolTweets) (symbol : string)
    (tweet : Tweet) : SymbolTweets :=
  match symbolTweets with
  | [] => [(symbol, [tweet])]
  | (k, l) :: rest =>
      if String.eqb symbol k then (k, l ++ [tweet]) :: rest
      else (k, l) :: append rest symbol tweet
  end.

(** [if (!symbolTweets[symbol]) symbolTweets[symbol] = [];
     symbolTweets[symbol].push(tweet)].  Under an inherited name nothing
    is created, and what is found there has no [push]: a [TypeError]. *)
Definition push (symbolTweets : SymbolTweets) (symbol : string)
    (tweet : Tweet) : Error + SymbolTweets :=
  if hasOwn symbolTweets symbol then inr (append symbolTweets symbol tweet)
  else if existsb (String.eqb symbol) inherited then
    inl (JsError "symbolTweets[symbol].push is not a function")
  else inr (append symbolTweets symbol tweet).

(** [tweet.symbols.forEach(symbol => ...)]; an exception ends the loop. *)
Definition pushAll (symbolTweets : Error + SymbolTweets) (tweet : Tweet)
    : Error + SymbolTweets :=
  fold_left
    (fun acc symbol =>
       match acc with
       | inl e => inl e
       | inr o => push o symbol tweet
       end)
    (symbols tweet) symbolTweets.

(** Group tweets by symbol. *)
Definition groupBySymbol (tweets : list Tweet) : Error + SymbolTweets :=
  fold_left pushAll tweets (inr []).

(** The value of a decimal digit. *)
Definition digit (c : Ascii.ascii) : option N :=
  let n := Ascii.N_of_ascii c in
  if ((48 <=? n) && (n <=? 57))%N then Some (n - 48)%N else None.

(** The integer that a string of decimal digits writes. *)
Fixpoint digits (s : string) (acc : N) : option N :=
  match s with
  | EmptyString => Some acc
  | String c r =>
      match digit c with
      | Some d => digits r (10 * acc + d)%N
      | None => None
      end
  end.

(** A key that is an array index: the decimal digits, without a leading
    zero, of an integer below [2^32 - 1]. *)
Definition array_index (key : string) : option N :=
  match key with
  | EmptyString => None
  | String "0"%char EmptyString => Some 0%N
  | String "0"%char _ => None
  | _ =>
      match digits key 0 with
      | Some n => if (n <? 4294967295)%N then Some n else None
      | None => None
      end
  end.

(** An entry takes its place among the entries with smaller indices. *)
Fixpoint insert_index (n : N) (entry : string * list Tweet)
    (l : list (N * (string * list Tweet))) : list (N * (string * list Tweet)) :=
  match l with
  | [] => [(n, entry)]
  | (m, e) :: r =>
      if (n <? m)%N then (n, entry) :: l else (m, e) :: insert_index n entry r
  end.

(** [Object.entries(symbolTweets)]: the keys that are array indices
    first, in ascending order, then the other keys in the order in which
    they were created. *)
Definition Object_entries (symbolTweets : SymbolTweets)
    : list (string * list Tweet) :=
  map snd
    (fold_right
       (fun entry acc =>
          match array_index (fst entry) with
          | Some n => insert_index n entry acc
          | None => acc
          end)
       [] symbolTweets)
  ++ filter (fun entry =>
               match array_index (fst entry) with
               | Some _ => false
               | None => true
               end)
       symbolTweets.

(** The [reduce] over the tweets of one symbol. *)
Definition sentimentSum (symbolTweetList : list Tweet) : number :=
  fold_left
    (fun sum tweet =>
       (sum + (if String.eqb (sentiment tweet) "positive" then sentimentScore tweet
               else if String.eqb (sentiment tweet) "negative"
                    then - sentimentScore tweet
                    else 0))%float)
    symbolTweetList 0%float.

Definition avgSentiment (symbolTweetList : list Tweet) : number :=
  (sentimentSum symbolTweetList / of_length (List.length symbolTweetList))%float.

(** Determine action based on sentiment. *)
Definition sentimentAction (avg : number) : Action :=
  if (0.3 <? avg)%float then buy
  else if (avg <? - 0.3)%float then sell
  else hold.

(** The attributes of the signal of one symbol. *)
Definition signalAttributes (now : Z) (symbol : string)
    (symbolTweetList : list Tweet) : Attributes :=
  let avg := avgSentiment symbolTweetList in
  let confidence := (Math_abs avg * 100)%float in
  {| a_symbol := symbol;
     a_action := Action_to_string (sentimentAction avg);
     a_confidence := Math_min confidence 95%float;
     a_price := Some 0%float;
     a_targetPrice := None;
     a_stopLoss := None;
     a_timeframe := Some "24h";
     a_source := "TWITTER_MONITOR";
     a_status := Some "pending";
     a_expiresAt := Some (now + 24 * 60 * 60 * 1000)%Z;
     a_metadata :=
       Some [("tweetCount", JNumber (of_length (List.length symbolTweetList)));
             ("avgSentiment", JNumber avg);
             ("influencers", JArray (map (fun t => JString (username t))
                                        symbolTweetList))] |}.

(** The loop over [Object.entries(symbolTweets)]: a symbol with at
    least three tweets and a sentiment that is not [hold] gets a
    signal.  A rejected [create] ends the loop; what was created before
    stays in the table. *)
Fixpoint generate (now : Z) (st : Store)
    (entries : list (string * list Tweet)) (signals : list t)
    : Store * (Error + list t) :=
  match entries with
  | [] => (st, inr signals)
  | (symbol, symbolTweetList) :: rest =>
      if (3 <=? List.length symbolTweetList)%nat then
        match sentimentAction (avgSentiment symbolTweetList) with
        | hold => generate now st rest signals
        | _ =>
            match create st (signalAttributes now symbol symbolTweetList) with
            | (st', inr signal) => generate now st' rest (signals ++ [signal])
            | (st', inl e) => (st', inl e)
            end
        end
      else generate now st rest signals
  end.

(** [analyzeTweets()], from the tweets that [fetchRecentTweets]
    returned. *)
Definition analyzeTweets (now : Z) (st : Store) (tweets : list Tweet)
    : Store * (Error + list t) :=
  rethrow "Tweet analysis failed"
    match groupBySymbol tweets with
    | inl e => (st, inl e)
    | inr symbolTweets => generate now st (Object_entries symbolTweets) []
    end.

End TwitterMonitorModule.

(** ** GROK_ENGINE: [analyzeMarket] and [executeTrade] *)

Module GrokEngine.

Definition to_list {A : Type} (o : option A) : list A :=
  match o with Some a => [a] | None => [] end.

(** Collect all valid signals.  [cyberMetricsSignal] is [None] when the
    CYBER_METRICS answer has no [id]; [patternSignalId] is
    [patternAnalysis.signalId]. *)
Definition collectSignals (st : Store) (symbol : string)
    (cyberMetricsSignal : option t) (twitterSignals : list t)
    (patternSignalId : option Id) : list t :=
  let twitterSignal :=
    find (fun signal => String.eqb (TradingSignal.symbol signal) symbol)
      twitterSignals in
  to_list cyberMetricsSignal ++ to_list twitterSignal
    ++ match patternSignalId with
       | Some i => to_list (findByPk st i)
       | None => []
       end.

Record Weights := {
  buyWeight : number;
  sellWeight : number;
  totalWeight : number
}.

(** One turn of the loop that calculates the weighted decision. *)
Definition accumulate (w : Weights) (signal : t) : Weights :=
  let weight := (confidence signal / 100)%float in
  let total := (totalWeight w + weight)%float in
  match action signal with
  | buy => {| buyWeight := (buyWeight w + weight)%float;
              sellWeight := sellWeight w;
              totalWeight := total |}
  | sell => {| buyWeight := buyWeight w;
               sellWeight := (sellWeight w + weight)%float;
               totalWeight := total |}
  | hold => {| buyWeight := buyWeight w;
               sellWeight := sellWeight w;
               totalWeight := total |}
  end.

Definition weigh (signals : list t) : Weights :=
  fold_left accumulate signals
    {| buyWeight := 0%float; sellWeight := 0%float; totalWeight := 0%float |}.

(** The normalized weights. *)
Definition normBuy (signals : list t) : number :=
  (buyWeight (weigh signals) / totalWeight (weigh signals))%float.

Definition normSell (signals : list t) : number :=
  (sellWeight (weigh signals) / totalWeight (weigh signals))%float.

Definition normHold (signals : list t) : number :=
  (1 - normBuy signals - normSell signals)%float.

Record Fusion := {
  f_action : Action;
  f_confidence : number
}.

(** Determine the final action. *)
Definition fuse (signals : list t) : Fusion :=
  let buyWeight := normBuy signals in
  let sellWeight := normSell signals in
  let holdWeight := normHold signals in
  if (sellWeight <? buyWeight)%float && (holdWeight <? buyWeight)%float then
    {| f_action := buy; f_confidence := (buyWeight * 100)%float |}
  else if (buyWeight <? sellWeight)%float && (holdWeight <? sellWeight)%float then
    {| f_action := sell; f_confidence := (sellWeight * 100)%float |}
  else
    {| f_action := hold; f_confidence := (holdWeight * 100)%float |}.

(** The attributes of the Grok Engine signal. *)
Definition grokAttributes (now : Z) (symbol : string) (first : t)
    (signals : list t) : Attributes :=
  {| a_symbol := symbol;
     a_action := Action_to_string (f_action (fuse signals));
     a_confidence := f_confidence (fuse signals);
     a_price := price first;
     a_targetPrice := None;
     a_stopLoss := None;
     a_timeframe := Some "12h";
     a_source := "GROK_ENGINE";
     a_status := Some "pending";
     a_expiresAt := Some (now + 12 * 60 * 60 * 1000)%Z;
     a_metadata :=
       Some [("signalSources",
              JArray (map (fun s => JString (Source_to_string (source s))) signals));
             ("signalIds", JArray (map (fun s => JUuid (id s)) signals));
             ("buyWeight", JNumber (normBuy signals));
             ("sellWeight", JNumber (normSell signals));
             ("holdWeight", JNumber (normHold signals))] |}.

(** What [analyzeMarket] returns. *)
Inductive Analysis :=
| NoValidSignals
    (* { success: false, message: 'No valid signals found' } *)
| Decision (action : Action) (confidence : number) (signalId : Id)
    (sourceSignals : nat).
    (* { success: true, action, confidence, signalId, sourceSignals } *)

(** [analyzeMarket(symbol)], from the answers of the three sources and
    the table as they left it. *)
Definition analyzeMarket (now : Z) (st : Store) (symbol : string)
    (cyberMetricsSignal : option t) (twitterSignals : list t)
    (patternSignalId : option Id) : Store * (Error + Analysis) :=
  let signals :=
    collectSignals st symbol cyberMetricsSignal twitterSignals patternSignalId in
  match signals with
  | [] => (st, inr NoValidSignals)
  | first :: _ =>
      rethrow "Market analysis failed"
        match create st (grokAttributes now symbol first signals) with
        | (st', inr grokSignal) =>
            (st', inr (Decision (f_action (fuse signals))
                         (f_confidence (fuse signals)) (id grokSignal)
                         (List.length signals)))
        | (st', inl e) => (st', inl e)
        end
  end.

(** What [executeTrade] returns. *)
Inductive Execution :=
| TooLow
    (* { success: false, message: 'Signal confidence too low for execution' } *)
| Executed (signalId : Id) (action : Action) (symbol : string)
    (price : option number) (confidence : number) (executedAt : Z).

Definition cancel (signal : t) : t :=
  set_metadata
    (Some (obj_set "reason" (JString "Low confidence") (spread (metadata signal))))
    (set_status cancelled signal).

(** [executeTrade(signalId)] *)
Definition executeTrade (now : Z) (st : Store) (signalId : Id)
    : Store * (Error + Execution) :=
  rethrow "Trade execution failed"
    match findByPk st signalId with
    | None => (st, inl (JsError "Trading signal not found"))
    | Some signal =>
        if negb (Source_eqb (source signal) GROK_ENGINE) then
          (st, inl (JsError "Signal is not from Grok Engine"))
        else if negb (Status_eqb (status signal) pending) then
          (st, inl (JsError ("Signal is already "
                               ++ Status_to_string (status signal))%string))
        else if (confidence signal <? 75)%float then
          (update st (id signal) cancel, inr TooLow)
        else
          (update st (id signal) (set_status executed),
           inr (Executed signalId (action signal) (TradingSignal.symbol signal)
                  (price signal) (confidence signal) now))
    end.

End GrokEngine.

(** ** CYBER_METRICS: [executeTrade] *)

Module CyberMetrics.

(** What [executeTrade] returns. *)
Record Execution := {
  signalId : Id;
  action : Action;
  symbol : string;
  price : option number;
  executedAt : Z
}.

(** [executeTrade(signalId)] *)
Definition executeTrade (now : Z) (st : Store) (signalId : Id)
    : Store * (Error + Execution) :=
  rethrow "Trade execution failed"
    match findByPk st signalId with
    | None => (st, inl (JsError "Trading signal not found"))
    | Some signal =>
        if negb (Status_eqb (status signal) pending) then
          (st, inl (JsError ("Signal is already "
                               ++ Status_to_string (status signal))%string))
        else
          (update st (id signal) (set_status executed),
           inr {| signalId := signalId;
                  action := TradingSignal.action signal;
                  symbol := TradingSignal.symbol signal;
                  price := TradingSignal.price signal;
                  executedAt := now |})
    end.

End CyberMetrics.

(** ** HIVE_MATRIX: [queueTrade] *)

Module HiveMatrix.

Inductive BackoffType := fixed | exponential.

(** [backoff: { type, delay }] *)
Record Backoff := {
  type : BackoffType;
  delay : Z
}.

(** The options that [queue.add(data, options)] takes. *)
Record JobOptions := {
  priority : Z;
  attempts : nat;
  backoff : Backoff
}.

(** Modelled from the spec: the lanes and the states of a job (section 3);
    the code has one Bull queue per lane. *)
Inductive Lane := trade | analysis | monitor.

Inductive JobState := queued | running | succeeded | failed | exhausted.

(** Modelled from the spec: the Job of the data model (section 3).  The
    queues are instances of the Bull library, whose code is not part of
    the repository; a job keeps the options it was added with. *)
Record Job := {
  jobId : nat;
  lane : Lane;
  payload : JsObject;
  jobPriority : Z;
  attempt : nat;
  maxAttempts : nat;
  backoffPolicy : Backoff;
  state : JobState
}.

(** Modelled from the spec: [enqueue(lane, payload, priority,
    maxAttempts, backoffPolicy)], the [add] of a Bull queue.  A new
    job is queued with no attempt made. *)
Definition add (l : Lane) (queue : list Job) (data : JsObject)
    (options : JobOptions) : list Job * Job :=
  let job :=
    {| jobId := S (List.length queue);
       lane := l;
       payload := data;
       jobPriority := priority options;
       attempt := 0;
       maxAttempts := attempts options;
       backoffPolicy := backoff options;
       state := queued |} in
  (queue ++ [job], job).

(** What [queueTrade] returns: [{ success: true, jobId, status }]. *)
Record Queued := {
  queuedJobId : nat;
  queuedStatus : string
}.

(** [queueTrade(tradeData)].  [tradeQueue] is [None] until
    [initialize] has run; [initialize] makes the queue, empty.  (A
    connection that fails is not modelled.) *)
Definition queueTrade (tradeQueue : option (list Job)) (tradeData : JsObject)
    : list Job * Queued :=
  let queue := match tradeQueue with Some q => q | None => [] end in
  let (queue', job) :=
    add trade queue tradeData
      {| priority := 1;
         attempts := 3;
         backoff := {| type := exponential; delay := 1000 |} |} in
  (queue', {| queuedJobId := jobId job; queuedStatus := "queued" |}).

(** Modelled from the spec: what the handler reports
    ([reportJobOutcome], section 6). *)
Inductive Outcome := success | failure.

(** Modelled from the spec: what happens to a job.  A worker takes it, or
    the handler reports. *)
Inductive Event := Deliver | Report (o : Outcome).

Definition with_state (s : JobState) (a : nat) (j : Job) : Job :=
  {| jobId := jobId j;
     lane := lane j;
     payload := payload j;
     jobPriority := jobPriority j;
     attempt := a;
     maxAttempts := maxAttempts j;
     backoffPolicy := backoffPolicy j;
     state := s |}.

(** Modelled from the spec: the life of a job (sections 3, 4.3 and 8),
    which the code leaves to the Bull library.  A queued job is
    delivered to one worker; success ends it; a failure counts the
    attempt and queues the job again while attempts remain, and
    exhausts it otherwise, so that a job with [maxAttempts = 3] that
    always fails goes queued, queued (attempt 1), queued (attempt 2),
    exhausted.  Nothing leaves [succeeded] or [exhausted].  Delays are
    not modelled. *)
Definition handle (e : Event) (j : Job) : option Job :=
  match e, state j with
  | Deliver, queued => Some (with_state running (attempt j) j)
  | Report success, running => Some (with_state succeeded (attempt j) j)
  | Report failure, running =>
      if (S (attempt j) <? maxAttempts j)%nat
      then Some (with_state queued (S (attempt j)) j)
      else Some (with_state exhausted (S (attempt j)) j)
  | _, _ => None
  end.

(** Modelled from the spec: the job after a sequence of events, if each
    of them applies. *)
Fixpoint run (events : list Event) (j : Job) : option Job :=
  match events with
  | [] => Some j
  | e :: rest =>
      match handle e j with
      | Some j' => run rest j'
      | None => None
      end
  end.

(** Modelled from the spec: how many times the job was handed to a
    worker. *)
Fixpoint deliveries (events : list Event) : nat :=
  match events with
  | [] => 0
  | Deliver :: rest => S (deliveries rest)
  | Report _ :: rest => deliveries rest
  end.

(** Modelled from the spec: the history of a job that fails each time it
    is delivered, for [n] rounds.  The state and the attempt count after
    each failure. *)
Fixpoint failing (n : nat) (j : Job) : list (JobState * nat) :=
  match n with
  | 0 => []
  | S n' =>
      match run [Deliver; Report failure] j with
      | Some j' => (state j', attempt j') :: failing n' j'
      | None => []
      end
  end.

End HiveMatrix.

(** ** Worked inputs *)

(** A pending signal that carries the given opinion. *)
Definition opinion (i : Id) (src : Source) (a : Action) (c : number) : t :=
  {| id := i;
     symbol := "BTC";
     action := a;
     confidence := c;
     price := Some 50000%float;
     targetPrice := None;
     stopLoss := None;
     timeframe := Some "4h";
     source := src;
     status := pending;
     expiresAt := Some 14400000%Z;
     metadata := None |}.

(** [{buy,90}, {buy,80}, {sell,50}] *)
Definition threeOpinions : list t :=
  [opinion 1 CYBER_METRICS buy 90; opinion 2 TWITTER_MONITOR buy 80;
   opinion 3 DEEPSEEK_AI sell 50].

(** [{buy,50}, {sell,50}] *)
Definition tiedOpinions : list t :=
  [opinion 1 CYBER_METRICS buy 50; opinion 2 TWITTER_MONITOR sell 50].



(** Grok Engine signals: one confident enough to trade, one not, and one
    that the table marks expired. *)
Definition confidentSignal : t := opinion 1 GROK_ENGINE buy 80.

Definition hesitantSignal : t := opinion 1 GROK_ENGINE buy 74.99.

Definition expiredSignal : t := set_status expired confidentSignal.

(** Attributes submitted to [TradingSignal.create]. *)
Definition submitted (action source : string) (c : number) : Attributes :=
  {| a_symbol := "BTC";
     a_action := action;
     a_confidence := c;
     a_price := None;
     a_targetPrice := None;
     a_stopLoss := None;
     a_timeframe := None;
     a_source := source;
     a_status := None;
     a_expiresAt := None;
     a_metadata := None |}.

(** A tweet whose second symbol names a method of every object. *)
Definition inheritedTweets : list TwitterMonitorModule.Tweet :=
  [TwitterMonitorModule.Build_Tweet "elonmusk" "positive" 0.9
     ["BTC"; "constructor"]].

(** Three tweets on one symbol, all of them positive. *)
Definition bullishTweets : list TwitterMonitorModule.Tweet :=
  [TwitterMonitorModule.Build_Tweet "elonmusk" "positive" 1.9 ["BTC"];
   TwitterMonitorModule.Build_Tweet "cz_binance" "positive" 0.8 ["BTC"];
   TwitterMonitorModule.Build_Tweet "aantonop" "positive" 0.99 ["BTC"; "ETH"]].

(** ** Invariants *)

(** What a signal of the TWITTER_MONITOR module looks like. *)
Definition sentimentSignal (s : t) : Prop :=
  source s = TWITTER_MONITOR
  /\ status s = pending
  /\ (action s = buy \/ action s = sell)
  /\ (confidence s <=? 95)%float = true.

(** What holds of a job that was delivered [d] times. *)
Definition counted (j : HiveMatrix.Job) (d : nat) : Prop :=
  match HiveMatrix.state j with
  | HiveMatrix.queued =>
      HiveMatrix.attempt j < HiveMatrix.maxAttempts j /\ d = HiveMatrix.attempt j
  | HiveMatrix.running | HiveMatrix.succeeded =>
      HiveMatrix.attempt j < HiveMatrix.maxAttempts j /\ d = S (HiveMatrix.attempt j)
  | HiveMatrix.exhausted =>
      HiveMatrix.attempt j = HiveMatrix.maxAttempts j /\ d = HiveMatrix.attempt j
  | HiveMatrix.failed => False
  end.

(** The error with which both [executeTrade] methods refuse a signal
    whose status is [s], not pending. *)
Definition InvalidTransition (s : Status) : Error :=
  JsError ("Trade execution failed: Signal is already " ++ Status_to_string s)%string.

(** A binary64 value that is not negative: a zero, a positive number or
    plus infinity. *)
Definition nneg (x : spec_float) : bool :=
  match x with
  | S754_zero _ | S754_infinity false | S754_finite false _ _ => true
  | _ => false
  end.

(** The same without [-0]: what a sum that starts at [+0] can be. *)
Definition snneg (x : spec_float) : bool :=
  match x with
  | S754_zero false | S754_infinity false | S754_finite false _ _ => true
  | _ => false
  end.

(** What [executeTrade] never touches: the opinion a signal carries. *)
Definition opinionOf (s : t)
    : Id * string * Action * number * option number * Source * option Z :=
  (id s, symbol s, action s, confidence s, price s, source s, expiresAt s).

(** [{hold,60}, {hold,40}] *)
Definition holdOpinions : list t :=
  [opinion 1 CYBER_METRICS hold 60; opinion 2 DEEPSEEK_AI hold 40].

(** [symbolTweets[symbol]] for an own property, or no tweet when the
    entry is missing. *)
Fixpoint groupOf (symbol : string)
    (symbolTweets : list (string * list TwitterMonitorModule.Tweet))
    : list TwitterMonitorModule.Tweet :=
  match symbolTweets with
  | [] => []
  | (k, l) :: rest => if String.eqb symbol k then l else groupOf symbol rest
  end.

(** A symbol under which a plain object inherits nothing. *)
Definition plainSymbol (symbol : string) : bool :=
  negb (existsb (String.eqb symbol) TwitterMonitorModule.inherited).

(** Tweets whose symbols are all of this kind. *)
Definition plainTweets (tweets : list TwitterMonitorModule.Tweet) : bool :=
  forallb (fun tweet => forallb plainSymbol (TwitterMonitorModule.symbols tweet))
    tweets.

(** The tweet, once for every time it lists the symbol. *)
Definition mentionsOf (symbol : string) (tweet : TwitterMonitorModule.Tweet)
    : list TwitterMonitorModule.Tweet :=
  map (fun _ => tweet)
    (filter (String.eqb symbol) (TwitterMonitorModule.symbols tweet)).

(** What the two loops of the grouping make of an object when nothing
    is thrown. *)
Definition appendAll (symbolTweets : TwitterMonitorModule.SymbolTweets)
    (tweet : TwitterMonitorModule.Tweet) : TwitterMonitorModule.SymbolTweets :=
  fold_left (fun acc symbol => TwitterMonitorModule.append acc symbol tweet)
    (TwitterMonitorModule.symbols tweet) symbolTweets.

Definition groupInto (symbolTweets : TwitterMonitorModule.SymbolTweets)
    (tweets : list TwitterMonitorModule.Tweet)
    : TwitterMonitorModule.SymbolTweets :=
  fold_left appendAll tweets symbolTweets.

(** [tweet.symbols.includes(symbol)] *)
Definition mentions (symbol : string) (tweet : TwitterMonitorModule.Tweet) : bool :=
  existsb (String.eqb symbol) (TwitterMonitorModule.symbols tweet).

(** The entries of [symbolTweets] that get a signal: at least three
    tweets, and a sentiment that is not [hold]. *)
Definition qualifies (entry : string * list TwitterMonitorModule.Tweet) : bool :=
  (3 <=? List.length (snd entry))%nat
  && match TwitterMonitorModule.sentimentAction
             (TwitterMonitorModule.avgSentiment (snd entry)) with
     | hold => false
     | _ => true
     end.

(** The signal that [analyzeTweets] makes of an entry of [symbolTweets]. *)
Definition signalOfEntry (now : Z) (s : t)
    (entry : string * list TwitterMonitorModule.Tweet) : Prop :=
  symbol s = fst entry
  /\ action s
     = TwitterMonitorModule.sentimentAction
         (TwitterMonitorModule.avgSentiment (snd entry))
  /\ confidence s
     = DECIMAL_5_2
         (Math_min
            (Math_abs (TwitterMonitorModule.avgSentiment (snd entry)) * 100) 95)
  /\ expiresAt s = Some (now + 24 * 60 * 60 * 1000)%Z
  /\ source s = TWITTER_MONITOR
  /\ status s = pending.

(** ** TWITTER_MONITOR: the monitored accounts and the fetched tweets *)

Module TwitterFeed.

(** [this.keywords] *)
Definition keywords : list string :=
  ["crypto"; "bitcoin"; "ethereum"; "solana"; "altcoin"; "defi"; "nft";
   "bullish"; "bearish"; "moon"; "dump"].

(** Default list of crypto influencers. *)
Definition defaultInfluencers : list string :=
  ["elonmusk"; "cz_binance"; "SBF_FTX"; "VitalikButerin"; "aantonop";
   "cryptoYoda1338"; "PeterLBrandt"; "CryptoHayes"; "APompliano"; "CryptoCred"].

(** The module and the Redis key ['twitter_influencers'].  The key holds
    the JSON text of a list of names, or nothing; the text that
    [JSON.stringify] makes of such a list is identified with the list
    that [JSON.parse] reads back. *)
Record State := {
  influencers : list string;
  cached : option (list string)
}.

(** What [initialize] returns: [{ success: true, influencersCount,
    keywordsCount }]. *)
Record Initialized := {
  influencersCount : nat;
  keywordsCount : nat
}.

(** [initialize()] *)
Definition initialize (s : State) : State * Initialized :=
  let s' :=
    match cached s with
    | Some l => {| influencers := l; cached := cached s |}
    | None => {| influencers := defaultInfluencers;
                 cached := Some defaultInfluencers |}
    end in
  (s', {| influencersCount := List.length (influencers s');
          keywordsCount := List.length keywords |}).

(** What [addInfluencer] returns. *)
Inductive Added :=
| AlreadyMonitored
    (* { success: false, message: 'Influencer already being monitored' } *)
| NowMonitored (count : nat).
    (* { success: true, message, influencersCount } *)

(** [addInfluencer(username)] *)
Definition addInfluencer (s : State) (username : string) : State * Added :=
  if existsb (String.eqb username) (influencers s) then (s, AlreadyMonitored)
  else
    let l := influencers s ++ [username] in
    ({| influencers := l; cached := Some l |}, NowMonitored (List.length l)).

(** A tweet as [simulateTweets] makes it; [body] holds the fields that
    [analyzeTweets] reads. *)
Record FetchedTweet := {
  tweetId : string;
  body : TwitterMonitorModule.Tweet;
  text : string;
  relevanceScore : number;
  tweetKeywords : list string;
  followers : number;
  retweets : number;
  likes : number
}.

(** A row of the [TwitterMonitor] table. *)
Record Row := {
  r_tweetId : string;
  r_username : string;
  r_content : string;
  r_sentiment : string;
  r_sentimentScore : number;
  r_relevanceScore : number;
  r_detectedSymbols : list string;
  r_detectedKeywords : list string;
  r_metadata : JsObject
}.

(** The row that [fetchRecentTweets] stores for a tweet. *)
Definition rowOf (tweet : FetchedTweet) : Row :=
  {| r_tweetId := tweetId tweet;
     r_username := TwitterMonitorModule.username (body tweet);
     r_content := text tweet;
     r_sentiment := TwitterMonitorModule.sentiment (body tweet);
     r_sentimentScore := TwitterMonitorModule.sentimentScore (body tweet);
     r_relevanceScore := relevanceScore tweet;
     r_detectedSymbols := TwitterMonitorModule.symbols (body tweet);
     r_detectedKeywords := tweetKeywords tweet;
     r_metadata := [("followers", JNumber (followers tweet));
                    ("retweets", JNumber (retweets tweet));
                    ("likes", JNumber (likes tweet))] |}.

(** [TwitterMonitor.create(row)]: [sentiment] is
    [ENUM('positive', 'negative', 'neutral')] and [tweetId] is unique. *)
Definition createRow (table : list Row) (row : Row) : list Row * (Error + Row) :=
  if negb (existsb (String.eqb (r_sentiment row)) ["positive"; "negative"; "neutral"])
  then (table, inl (ValidationError "sentiment"))
  else if existsb (fun r => String.eqb (r_tweetId r) (r_tweetId row)) table
  then (table, inl (ValidationError "tweetId"))
  else (table ++ [row], inr row).

(** Store tweets in database. *)
Fixpoint store (table : list Row) (tweets : list FetchedTweet)
    : list Row * (Error + unit) :=
  match tweets with
  | [] => (table, inr tt)
  | tweet :: rest =>
      match createRow table (rowOf tweet) with
      | (table', inr _) => store table' rest
      | (table', inl e) => (table', inl e)
      end
  end.

(** The tweets of the first five influencers; [simulateTweets n username]
    is what the [n]-th call of [simulateTweets] returned. *)
Fixpoint simulated (simulateTweets : nat -> string -> list FetchedTweet)
    (n : nat) (polled : list string) : list FetchedTweet :=
  match polled with
  | [] => []
  | influencer :: rest =>
      simulateTweets n influencer ++ simulated simulateTweets (S n) rest
  end.

(** [fetchRecentTweets()].  [token] is [process.env.TWITTER_BEARER_TOKEN]. *)
Definition fetchRecentTweets (token : option string)
    (simulateTweets : nat -> string -> list FetchedTweet)
    (s : State) (table : list Row) : list Row * (Error + list FetchedTweet) :=
  rethrow "Failed to fetch tweets"
    match token with
    | None | Some "" => (table, inl (JsError "Twitter API token not configured"))
    | Some _ =>
        let tweets := simulated simulateTweets 0 (firstn 5 (influencers s)) in
        match store table tweets with
        | (table', inr _) => (table', inr tweets)
        | (table', inl e) => (table', inl e)
        end
    end.

End TwitterFeed.

(** A module as its constructor leaves it, before [initialize], with
    nothing cached. *)
Definition newModule : TwitterFeed.State :=
  {| TwitterFeed.influencers := []; TwitterFeed.cached := None |}.

(** One positive tweet by the named account. *)
Definition tweetBy (n : nat) (username : string) : list TwitterFeed.FetchedTweet :=
  [{| TwitterFeed.tweetId := username;
      TwitterFeed.body :=
        {| TwitterMonitorModule.username := username;
           TwitterMonitorModule.sentiment := "positive";
           TwitterMonitorModule.sentimentScore := 0.75;
           TwitterMonitorModule.symbols := ["BTC"] |};
      TwitterFeed.text := "This is a simulated tweet about crypto BTC";
      TwitterFeed.relevanceScore := 0.5;
      TwitterFeed.tweetKeywords := [];
      TwitterFeed.followers := 1000;
      TwitterFeed.retweets := 10;
      TwitterFeed.likes := 50 |}].

(** ** The routes that call the modules *)

(** What a handler answers: [res.status(code).json(body)]. *)
Inductive Response (A : Type) :=
| Status200 (body : A)
| Status400 (error : string)
| Status404 (message : string)
| Status500 (error : string).

Arguments Status200 {A} body.
Arguments Status400 {A} error.
Arguments Status404 {A} message.
Arguments Status500 {A} error.

Module AiPredict.

(** [new Set(names)], spread into an array: each name once, at the place
    of its first occurrence. *)
Fixpoint uniq_into (seen names : list string) : list string :=
  match names with
  | [] => seen
  | name :: rest =>
      if existsb (String.eqb name) seen then uniq_into seen rest
      else uniq_into (seen ++ [name]) rest
  end.

Definition uniq (names : list string) : list string := uniq_into [] names.

(** The body of the answer of [GET /sentiment] (without its timestamp). *)
Record SentimentReport := {
  symbol : string;
  tweetCount : nat;
  avgSentiment : number;
  positive : nat;
  negative : nat;
  neutral : nat;
  topInfluencers : list string
}.

Definition countSentiment (label : string)
    (tweets : list TwitterMonitorModule.Tweet) : nat :=
  List.length
    (filter (fun t => String.eqb (TwitterMonitorModule.sentiment t) label) tweets).

(** From the tweets to the report; nothing when no tweet mentions the
    symbol.  The aggregate sentiment is computed by the same [reduce] as
    in [analyzeTweets]. *)
Definition sentimentReport (symbol : string)
    (tweets : list TwitterMonitorModule.Tweet) : option SentimentReport :=
  match filter (mentions symbol) tweets with
  | [] => None
  | symbolTweets =>
      Some {| symbol := symbol;
              tweetCount := List.length symbolTweets;
              avgSentiment :=
                (TwitterMonitorModule.sentimentSum symbolTweets
                 / of_length (List.length symbolTweets))%float;
              positive := countSentiment "positive" symbolTweets;
              negative := countSentiment "negative" symbolTweets;
              neutral := countSentiment "neutral" symbolTweets;
              topInfluencers :=
                firstn 5 (uniq (map TwitterMonitorModule.username symbolTweets)) |}
  end.

(** The handler of [GET /sentiment], once the request is authenticated
    and within its rate limit.  [query] is [req.query.symbol]. *)
Definition sentiment (query : option string) (token : option string)
    (simulateTweets : nat -> string -> list TwitterFeed.FetchedTweet)
    (s : TwitterFeed.State) (table : list TwitterFeed.Row)
    : TwitterFeed.State * list TwitterFeed.Row * Response SentimentReport :=
  match query with
  | None | Some "" => (s, table, Status400 "Symbol parameter is required")
  | Some symbol =>
      let s' := fst (TwitterFeed.initialize s) in
      match TwitterFeed.fetchRecentTweets token simulateTweets s' table with
      | (table', inl _) => (s', table', Status500 "Failed to analyze sentiment")
      | (table', inr tweets) =>
          match sentimentReport symbol (map TwitterFeed.body tweets) with
          | None => (s', table', Status404 "No recent tweets found for this symbol")
          | Some report => (s', table', Status200 report)
          end
      end
  end.

End AiPredict.

(** ** Arrays of numbers *)

(** [Math.max(x, y)]: [NaN] if one argument is [NaN], and [+0] is
    larger than [-0]. *)
Definition Math_max (x y : number) : number :=
  if is_nan x || is_nan y then nan
  else if (x <? y)%float then y
  else if (y <? x)%float then x
  else match classify x with NZero => y | _ => x end.

(** [Math.max(...a)] *)
Definition Math_max_of (a : list number) : number :=
  fold_left Math_max a neg_infinity.

(** [Math.min(...a)] *)
Definition Math_min_of (a : list number) : number :=
  fold_left Math_min a infinity.

(** [a.indexOf(x)], [None] standing for [-1]: the first index whose
    element is [=== x]. *)
Fixpoint indexOf (a : list number) (x : number) : option nat :=
  match a with
  | [] => None
  | y :: rest =>
      if (y =? x)%float then Some 0%nat else option_map S (indexOf rest x)
  end.

(** [a[i]], where [i] is what [indexOf] answered: [undefined] is [None]. *)
Definition at_index {A : Type} (a : list A) (i : option nat) : option A :=
  match i with
  | Some n => nth_error a n
  | None => None
  end.

(** [x * y], where [x] may be [undefined]. *)
Definition times (x : option number) (y : number) : number :=
  match x with
  | Some x => (x * y)%float
  | None => nan
  end.

(** A number that is not [NaN] has a place on a line: the infinities at
    the ends, the zeros together in the middle, and the finite numbers by
    sign, exponent and mantissa. *)
Definition rank (x : spec_float) : Z * Z * Z :=
  match x with
  | S754_infinity true => (-2, 0, 0)
  | S754_finite true m e => (-1, - e, - Z.pos m)
  | S754_zero _ | S754_nan => (0, 0, 0)
  | S754_finite false m e => (1, e, Z.pos m)
  | S754_infinity false => (2, 0, 0)
  end%Z.

Definition lex (p q : Z * Z * Z) : comparison :=
  let '(a, b, c) := p in
  let '(a', b', c') := q in
  match (a ?= a')%Z with
  | Eq => match (b ?= b')%Z with Eq => (c ?= c')%Z | o => o end
  | o => o
  end.

(** ** The MarketData model *)

Module MarketData.

(** A row of the table, in the numbers that its DECIMAL columns denote.
    [timestamp] and [additionalData], which nothing reads, are left
    out. *)
Record t := mk {
  id : Id;
  symbol : string;
  price : number;
  volume24h : option number;
  marketCap : option number;
  high24h : option number;
  low24h : option number;
  change24h : option number;
  source : string
}.

(** A primary key that no row has. *)
Definition fresh (table : list t) : Id := S (list_max (map id table)).

Definition of_symbol (sym : string) (table : list t) : list t :=
  filter (fun data => String.eqb (symbol data) sym) table.

(** [findAll({ where: { symbol }, order: [['createdAt', 'ASC']], limit })];
    the table is in the order of creation. *)
Definition oldest (limit : nat) (table : list t) (sym : string) : list t :=
  firstn limit (of_symbol sym table).

(** [findAll({ where: { symbol }, order: [['createdAt', 'DESC']], limit })] *)
Definition latest (limit : nat) (table : list t) (sym : string) : list t :=
  firstn limit (rev (of_symbol sym table)).

End MarketData.

(** ** DEEPSEEK_AI: [analyzePatterns] *)

Module DeepseekAI.

(** A row of the [AIModel] table. *)
Record AIModel := {
  name : string;
  type : string;
  version : string;
  accuracy : number;
  parameters : JsObject;
  lastTrainedAt : Z;
  status : string
}.

(** The module: [isInitialized], and the [AIModel] table beside it. *)
Record State := {
  isInitialized : bool;
  aiModels : list AIModel
}.

(** [initialize()]: the two networks are built and registered.  (The
    networks themselves belong to the TensorFlow library.) *)
Definition initialize (now : Z) (s : State) : State :=
  {| isInitialized := true;
     aiModels :=
       aiModels s
       ++ [{| name := "DeepseekPricePredictor";
              type := "DEEPSEEK_AI";
              version := "1.0.0";
              accuracy := 87.5;
              parameters :=
                [("layers", JNumber 4);
                 ("units", JArray [JNumber 50; JNumber 50; JNumber 1]);
                 ("dropout", JNumber 0.2)];
              lastTrainedAt := now;
              status := "active" |};
           {| name := "DeepseekPatternRecognizer";
              type := "DEEPSEEK_AI";
              version := "1.0.0";
              accuracy := 92.3;
              parameters :=
                [("layers", JNumber 5);
                 ("filters", JNumber 64);
                 ("kernelSize", JNumber 3);
                 ("patternTypes", JNumber 10)];
              lastTrainedAt := now;
              status := "active" |}] |}.

Definition patternNames : list string :=
  ["Double Top"; "Double Bottom"; "Head and Shoulders";
   "Inverse Head and Shoulders"; "Triangle"; "Flag"; "Pennant";
   "Cup and Handle"; "Wedge"; "Channel"].

Definition bullishPatterns : list string :=
  ["Double Bottom"; "Inverse Head and Shoulders"; "Cup and Handle"].

Definition bearishPatterns : list string :=
  ["Double Top"; "Head and Shoulders"; "Wedge"].

(** [names.includes(x)], where [x] may be [undefined]. *)
Definition includes (names : list string) (x : option string) : bool :=
  match x with
  | Some s => existsb (String.eqb s) names
  | None => false
  end.

(** Normalize prices. *)
Definition normalize (prices : list number) : list number :=
  let minPrice := Math_min_of prices in
  let maxPrice := Math_max_of prices in
  map (fun price => ((price - minPrice) / (maxPrice - minPrice))%float) prices.

(** What is read off the prediction. *)
Record Reading := {
  patternIndex : option nat;
  patternName : option string;
  confidence : number;
  action : Action
}.

Definition interpret (patternData : list number) : Reading :=
  let patternIndex := indexOf patternData (Math_max_of patternData) in
  let patternName := at_index patternNames patternIndex in
  {| patternIndex := patternIndex;
     patternName := patternName;
     confidence := times (at_index patternData patternIndex) 100;
     action :=
       if includes bullishPatterns patternName then buy
       else if includes bearishPatterns patternName then sell
       else hold |}.

(** The attributes of the signal of a pattern; [last] is the last of the
    rows that were read. *)
Definition patternAttributes (now : Z) (symbol : string)
    (last : option MarketData.t) (r : Reading) : Attributes :=
  {| a_symbol := symbol;
     a_action := Action_to_string (action r);
     a_confidence := confidence r;
     a_price := option_map MarketData.price last;
     a_targetPrice := None;
     a_stopLoss := None;
     a_timeframe := Some "1d";
     a_source := "DEEPSEEK_AI";
     a_status := Some "pending";
     a_expiresAt := Some (now + 24 * 60 * 60 * 1000)%Z;
     a_metadata :=
       Some (match patternName r with
             | Some n => [("patternName", JString n)]
             | None => []
             end
             ++ [("patternIndex",
                  JNumber match patternIndex r with
                          | Some i => of_length i
                          | None => (-1)%float
                          end);
                 ("confidence", JNumber (confidence r))]) |}.

(** What [analyzePatterns] returns. *)
Inductive PatternAnalysis :=
| Insufficient
    (* { success: false, message: 'Insufficient historical data for pattern analysis' } *)
| Detected (patternName : option string) (confidence : number)
    (action : Action) (signalId : Id)
    (* { success: true, patternName, confidence, action, signalId } *)
| TooLow (patternName : option string) (confidence : number).
    (* { success: true, patternName, confidence, action: 'hold', message } *)

(** [analyzePatterns(symbol)].  [patternModel] stands for the TensorFlow
    library between the normalized prices and the prediction:
    [tf.tensor3d(values, [1, 60, 1])] on the array
    [values = [normalizedPrices]], one row of 60 numbers, then [predict] on
    the pattern network and [prediction.data()].  The library throws or
    gives the prediction. *)
Definition analyzePatterns (now : Z)
    (patternModel : list (list number) -> Error + list number)
    (s : State) (market : list MarketData.t) (st : Store) (symbol : string)
    : State * Store * (Error + PatternAnalysis) :=
  let s' := if isInitialized s then s else initialize now s in
  let historicalData := MarketData.oldest 60 market symbol in
  if (List.length historicalData <? 60)%nat then (s', st, inr Insufficient)
  else
    let prices := map MarketData.price historicalData in
    rethrow "Pattern analysis failed"
      match patternModel [normalize prices] with
      | inl e => (s', st, inl e)
      | inr patternData =>
          let r := interpret patternData in
          if (70 <? confidence r)%float then
            match
              create st
                (patternAttributes now symbol
                   (nth_error historicalData (List.length historicalData - 1)) r)
            with
            | (st', inr signal) =>
                (s', st',
                 inr (Detected (patternName r) (confidence r) (action r)
                        (id signal)))
            | (st', inl e) => (s', st', inl e)
            end
          else (s', st, inr (TooLow (patternName r) (confidence r)))
      end.

(** A number of the table in arithmetic: [null] counts as 0. *)
Definition to_number (x : option number) : number :=
  match x with
  | Some v => v
  | None => 0%float
  end.

(** [features.map(row => row[colIndex])], as [Math.min] and [Math.max]
    take it; a missing entry is [undefined] and counts as [NaN]. *)
Definition column (features : list (list (option number))) (colIndex : nat)
    : list number :=
  map (fun row =>
         match nth_error row colIndex with
         | Some x => to_number x
         | None => nan
         end)
    features.

(** [normalizeFeatures(features)], for an array that is not empty. *)
Definition normalizeFeatures (features : list (list (option number)))
    : list (list number) :=
  let transposed :=
    map (column features) (seq 0 (List.length (hd [] features))) in
  let mins := map Math_min_of transposed in
  let maxs := map Math_max_of transposed in
  map (fun row =>
         map (fun jx =>
                ((to_number (snd jx) - nth (fst jx) mins nan)
                 / (nth (fst jx) maxs nan - nth (fst jx) mins nan))%float)
           (combine (seq 0 (List.length row)) row))
    features.

(** What [predictPrice] returns. *)
Inductive PricePrediction :=
| TooShort
    (* { success: false, message: 'Insufficient historical data for price prediction' } *)
| Predicted (symbol : string) (currentPrice predictedPrice days accuracy : number)
    (timestamp : Z).

(** The features of a row. *)
Definition features_of (data : MarketData.t) : list (option number) :=
  [Some (MarketData.price data);
   MarketData.volume24h data;
   MarketData.high24h data;
   MarketData.low24h data;
   MarketData.change24h data].

(** [predictPrice(symbol, days)].  [model] is the price network: from
    the normalized features to [prediction.data()]. *)
Definition predictPrice (now : Z) (model : list (list number) -> list number)
    (s : State) (market : list MarketData.t) (symbol : string) (days : number)
    : State * PricePrediction :=
  let s' := if isInitialized s then s else initialize now s in
  let historicalData := MarketData.oldest 30 market symbol in
  if (List.length historicalData <? 30)%nat then (s', TooShort)
  else
    let features := map features_of historicalData in
    let predictionData := model (normalizeFeatures features) in
    let currentPrice :=
      match nth_error historicalData (List.length historicalData - 1) with
      | Some data => MarketData.price data
      | None => nan
      end in
    let predictedPrice := times (nth_error predictionData 0) currentPrice in
    let accuracy :=
      (100 - Math_abs (predictedPrice - currentPrice) / currentPrice * 100)%float in
    (s', Predicted symbol currentPrice predictedPrice days accuracy now).

End DeepseekAI.

(** What [analyzePatterns] hands to [tf.tensor3d]: one row, the
    normalized prices of the 60 oldest rows of the symbol. *)
Definition patternInput (market : list MarketData.t) (symbol : string)
    : list (list number) :=
  [DeepseekAI.normalize
     (map MarketData.price (MarketData.oldest 60 market symbol))].

(** A market that does not move: [n] rows of one symbol at one price. *)
Definition steadyMarket (n : nat) : list MarketData.t :=
  map (fun i => MarketData.mk i "BTC" 100 None None None None None "CYBER_METRICS")
    (seq 1 n).

(** A pattern network that always sees a double bottom. *)
Definition doubleBottom (prices : list number) : list number :=
  [0.01; 0.9; 0.01; 0.01; 0.01; 0.02; 0.01; 0.01; 0.01; 0.01]%float.

(** [tf.tensor3d] as the library has it for an array nested two levels
    deep: it takes a flat array or one nested three levels deep, and
    throws on any other. *)
Definition tensor3d_refuses (values : list (list number)) : Error + list number :=
  inl (JsError "tensor3d() requires values to be number[][][] or flat/TypedArray").

(** A price network that expects no change. *)
Definition noChange (features : list (list number)) : list number := [1%float].

(** A module as its constructor leaves it, on an empty [AIModel] table. *)
Definition newDeepseek : DeepseekAI.State :=
  {| DeepseekAI.isInitialized := false; DeepseekAI.aiModels := [] |}.

(** ** CYBER_METRICS: [analyzeMarket] *)

Module CyberMetricsMarket.

(** What is read of the two answers that [fetchMarketData] gets: the
    numbers that [parseFloat] gives for the 24 hour ticker of Binance, and
    the market capitalization of CoinGecko, if present. *)
Record Ticker := {
  lastPrice : number;
  volume : number;
  highPrice : number;
  lowPrice : number;
  priceChangePercent : number;
  market_cap_usd : option number
}.

(** [fetchMarketData(symbol)].  [answer] is what the two requests
    brought: an error, or the ticker. *)
Definition fetchMarketData (answer : Error + Ticker)
    (market : list MarketData.t) (symbol : string)
    : list MarketData.t * (Error + MarketData.t) :=
  rethrow "Market data fetch failed"
    match answer with
    | inl e => (market, inl e)
    | inr ticker =>
        let marketData :=
          {| MarketData.id := MarketData.fresh market;
             MarketData.symbol := symbol;
             MarketData.price := lastPrice ticker;
             MarketData.volume24h := Some (volume ticker);
             MarketData.marketCap := market_cap_usd ticker;
             MarketData.high24h := Some (highPrice ticker);
             MarketData.low24h := Some (lowPrice ticker);
             MarketData.change24h := Some (priceChangePercent ticker);
             MarketData.source := "CYBER_METRICS" |} in
        (market ++ [marketData], inr marketData)
    end.

(** [prepareFeatures(historicalData)]: the flat array that the tensor is
    made of; [None] is [null]. *)
Definition prepareFeatures (historicalData : list MarketData.t)
    : list (option number) :=
  flat_map
    (fun data =>
       [Some (MarketData.price data);
        MarketData.volume24h data;
        MarketData.high24h data;
        MarketData.low24h data;
        MarketData.change24h data])
    historicalData.

Definition actions : list string := ["buy"; "sell"; "hold"].

(** The attributes of the signal, for an action that is defined. *)
Definition signalAttributes (now : Z) (symbol action : string)
    (confidence : number) (marketData : MarketData.t)
    (predictionData : list number) : Attributes :=
  {| a_symbol := symbol;
     a_action := action;
     a_confidence := confidence;
     a_price := Some (MarketData.price marketData);
     a_targetPrice :=
       Some (if String.eqb action "buy"
             then (MarketData.price marketData * 1.05)%float
             else (MarketData.price marketData * 0.95)%float);
     a_stopLoss :=
       Some (if String.eqb action "buy"
             then (MarketData.price marketData * 0.98)%float
             else (MarketData.price marketData * 1.02)%float);
     a_timeframe := Some "4h";
     a_source := "CYBER_METRICS";
     a_status := Some "pending";
     a_expiresAt := Some (now + 4 * 60 * 60 * 1000)%Z;
     a_metadata :=
       Some [("predictionData", JArray (map JNumber predictionData));
             ("marketDataId", JUuid (MarketData.id marketData))] |}.

(** What [analyzeMarket] returns. *)
Inductive Analysis :=
| Insufficient
    (* { success: false, message: 'Insufficient historical data for analysis' } *)
| Generated (tradingSignal : t).

(** The module and the two tables. *)
Record World := {
  isModelLoaded : bool;
  market : list MarketData.t;
  signals : Store
}.

(** [analyzeMarket(symbol)].  [initModel] is what building the network
    gave when the model is not loaded, and [predict] is
    [model.predict(features).data()]; both belong to the TensorFlow
    library and may throw.  An action that is [undefined] is refused by
    the model of the signals, where [action] is not null. *)
Definition analyzeMarket (now : Z) (initModel : Error + unit)
    (answer : Error + Ticker)
    (predict : list (option number) -> Error + list number)
    (w : World) (symbol : string) : World * (Error + Analysis) :=
  rethrow "Market analysis failed"
    match
      (if isModelLoaded w then inr tt
       else match initModel with
            | inl e =>
                inl (JsError ("Model initialization failed: " ++ message e)%string)
            | inr u => inr u
            end)
    with
    | inl e =>
        ({| isModelLoaded := false; market := market w; signals := signals w |},
         inl e)
    | inr _ =>
        match fetchMarketData answer (market w) symbol with
        | (market', inl e) =>
            ({| isModelLoaded := true; market := market'; signals := signals w |},
             inl e)
        | (market', inr marketData) =>
            let w' :=
              {| isModelLoaded := true; market := market';
                 signals := signals w |} in
            let historicalData := MarketData.latest 20 market' symbol in
            if (List.length historicalData <? 10)%nat then (w', inr Insufficient)
            else
              match predict (prepareFeatures historicalData) with
              | inl e => (w', inl e)
              | inr predictionData =>
                  let actionIndex :=
                    indexOf predictionData (Math_max_of predictionData) in
                  let confidence :=
                    times (at_index predictionData actionIndex) 100 in
                  match at_index actions actionIndex with
                  | None => (w', inl (ValidationError "action"))
                  | Some action =>
                      match
                        create (signals w)
                          (signalAttributes now symbol action confidence
                             marketData predictionData)
                      with
                      | (st', inr tradingSignal) =>
                          ({| isModelLoaded := true; market := market';
                              signals := st' |},
                           inr (Generated tradingSignal))
                      | (st', inl e) =>
                          ({| isModelLoaded := true; market := market';
                              signals := st' |},
                           inl e)
                      end
                  end
              end
        end
    end.

End CyberMetricsMarket.

(** A ticker. *)
Definition quietTicker : CyberMetricsMarket.Ticker :=
  {| CyberMetricsMarket.lastPrice := 100;
     CyberMetricsMarket.volume := 5000;
     CyberMetricsMarket.highPrice := 101;
     CyberMetricsMarket.lowPrice := 99;
     CyberMetricsMarket.priceChangePercent := 0.5;
     CyberMetricsMarket.market_cap_usd := Some 1000000%float |}.

(** A network that takes any number of features and is sure to sell. *)
Definition bearish (features : list (option number)) : Error + list number :=
  inr [0.125; 0.75; 0.125]%float.

(** A network with the input shape of [initModel]: 20 features. *)
Definition twentyFeatures (features : list (option number)) : Error + list number :=
  if (List.length features =? 20)%nat then inr [0.125; 0.75; 0.125]%float
  else inl (JsError "shape mismatch").

Definition newCyberMetrics (market : list MarketData.t) : CyberMetricsMarket.World :=
  {| CyberMetricsMarket.isModelLoaded := false;
     CyberMetricsMarket.market := market;
     CyberMetricsMarket.signals := [] |}.

(** ** The execution log: [GET /signals] *)

Module ExecLog.

(** The body of the answer. *)
Record Listing := {
  signals : list t;
  count : nat;
  status : string
}.

(** [where: query]: every signal for ['all'], and otherwise those of the
    status asked for. *)
Definition selected (status : string) (signal : t) : bool :=
  String.eqb status "all"
  || String.eqb (Status_to_string (TradingSignal.status signal)) status.

(** The handler of [GET /signals], once the request is authenticated and
    within its rate limit.  [query] is [req.query.status]; the table is in
    the order of creation.  A status that is no label of the model is
    refused by the database. *)
Definition signals_route (query : option string) (st : Store) : Response Listing :=
  let status := match query with Some s => s | None => "pending" end in
  if String.eqb status "all" || existsb (String.eqb status)
                                   ["pending"; "executed"; "expired"; "cancelled"]
  then
    let signals := firstn 50 (rev (filter (selected status) st)) in
    Status200 {| signals := signals;
                 count := List.length signals;
                 status := status |}
  else Status500 "Failed to retrieve trading signals".

End ExecLog.

(** A signal that waits to be dispatched. *)
Definition is_pending (s : t) : Prop := TradingSignal.status s = pending.

(** ** GROK_ENGINE with its sources *)

Module GrokSources.

(** [analyzeTweets()] of the TWITTER_MONITOR module, with the
    [fetchRecentTweets] that it starts with. *)
Definition analyzeTweets (now : Z) (token : option string)
    (simulateTweets : nat -> string -> list TwitterFeed.FetchedTweet)
    (s : TwitterFeed.State) (table : list TwitterFeed.Row) (st : Store)
    : list TwitterFeed.Row * Store * (Error + list t) :=
  match TwitterFeed.fetchRecentTweets token simulateTweets s table with
  | (table', inl e) =>
      (table', st, inl (JsError ("Tweet analysis failed: " ++ message e)%string))
  | (table', inr tweets) =>
      let (st', r) :=
        TwitterMonitorModule.analyzeTweets now st (map TwitterFeed.body tweets) in
      (table', st', r)
  end.

(** The three modules that the Grok Engine asks, and the tables. *)
Record World := {
  isModelLoaded : bool;
  market : list MarketData.t;
  twitter : TwitterFeed.State;
  tweets : list TwitterFeed.Row;
  deepseek : DeepseekAI.State;
  signals : Store
}.

(** What the three sources are given from outside: the clock at each of
    the four steps, the networks, the market ticker, and the tweets. *)
Record Outside := {
  clock : nat -> Z;
  initModel : Error + unit;
  answer : Error + CyberMetricsMarket.Ticker;
  predict : list (option number) -> Error + list number;
  token : option string;
  simulateTweets : nat -> string -> list TwitterFeed.FetchedTweet;
  patternModel : list (list number) -> Error + list number
}.

(** [try { ... } catch (error) { throw ... }] around a source that threw. *)
Definition failed {A : Type} (w : World) (e : Error) : World * (Error + A) :=
  (w, inl (JsError ("Market analysis failed: " ++ message e)%string)).

(** [analyzeMarket(symbol)] of the Grok Engine: the three sources are
    asked in turn, and what they answer is fused. *)
Definition analyzeMarket (o : Outside) (w : World) (symbol : string)
    : World * (Error + GrokEngine.Analysis) :=
  match
    CyberMetricsMarket.analyzeMarket (clock o 0) (initModel o) (answer o)
      (predict o)
      {| CyberMetricsMarket.isModelLoaded := isModelLoaded w;
         CyberMetricsMarket.market := market w;
         CyberMetricsMarket.signals := signals w |}
      symbol
  with
  | (c, r1) =>
      let w1 :=
        {| isModelLoaded := CyberMetricsMarket.isModelLoaded c;
           market := CyberMetricsMarket.market c;
           twitter := twitter w;
           tweets := tweets w;
           deepseek := deepseek w;
           signals := CyberMetricsMarket.signals c |} in
      match r1 with
      | inl e => failed w1 e
      | inr cyberMetricsSignal =>
          match
            analyzeTweets (clock o 1) (token o) (simulateTweets o) (twitter w1)
              (tweets w1) (signals w1)
          with
          | (table', st2, r2) =>
              let w2 :=
                {| isModelLoaded := isModelLoaded w1;
                   market := market w1;
                   twitter := twitter w1;
                   tweets := table';
                   deepseek := deepseek w1;
                   signals := st2 |} in
              match r2 with
              | inl e => failed w2 e
              | inr twitterSignals =>
                  match
                    DeepseekAI.analyzePatterns (clock o 2) (patternModel o)
                      (deepseek w2) (market w2) (signals w2) symbol
                  with
                  | (d, st3, r3) =>
                      let w3 :=
                        {| isModelLoaded := isModelLoaded w2;
                           market := market w2;
                           twitter := twitter w2;
                           tweets := tweets w2;
                           deepseek := d;
                           signals := st3 |} in
                      match r3 with
                      | inl e => failed w3 e
                      | inr patternAnalysis =>
                          let (st4, r4) :=
                            GrokEngine.analyzeMarket (clock o 3) (signals w3)
                              symbol
                              match cyberMetricsSignal with
                              | CyberMetricsMarket.Generated signal => Some signal
                              | CyberMetricsMarket.Insufficient => None
                              end
                              twitterSignals
                              match patternAnalysis with
                              | DeepseekAI.Detected _ _ _ signalId => Some signalId
                              | _ => None
                              end in
                          ({| isModelLoaded := isModelLoaded w3;
                              market := market w3;
                              twitter := twitter w3;
                              tweets := tweets w3;
                              deepseek := deepseek w3;
                              signals := st4 |}, r4)
                      end
                  end
              end
          end
      end
  end.

End GrokSources.

(** The world without: nothing loaded, nothing monitored, empty tables but
    for the market data. *)
Definition newWorld (market : list MarketData.t) : GrokSources.World :=
  {| GrokSources.isModelLoaded := false;
     GrokSources.market := market;
     GrokSources.twitter := newModule;
     GrokSources.tweets := [];
     GrokSources.deepseek := newDeepseek;
     GrokSources.signals := [] |}.

(** Three accounts that praise BTC. *)
Definition threeFans : TwitterFeed.State :=
  {| TwitterFeed.influencers := ["elonmusk"; "cz_binance"; "aantonop"];
     TwitterFeed.cached := Some ["elonmusk"; "cz_binance"; "aantonop"] |}.

(** A world where three accounts that praise BTC are monitored and the
    symbol has three rows of market data. *)
Definition fans : GrokSources.World :=
  {| GrokSources.isModelLoaded := false;
     GrokSources.market := steadyMarket 3;
     GrokSources.twitter := threeFans;
     GrokSources.tweets := [];
     GrokSources.deepseek := newDeepseek;
     GrokSources.signals := [] |}.

(** An outside with a network of the input shape of [initModel]. *)
Definition shapedOutside : GrokSources.Outside :=
  {| GrokSources.clock := fun n => Z.of_nat n;
     GrokSources.initModel := inr tt;
     GrokSources.answer := inr quietTicker;
     GrokSources.predict := twentyFeatures;
     GrokSources.token := Some "token";
     GrokSources.simulateTweets := tweetBy;
     GrokSources.patternModel := tensor3d_refuses |}.

(** * Properties *)

(** ** JavaScript numbers

    The comparisons of binary64 numbers, from the specification of the
    primitive floats. *)

Section Numbers.

Local Open Scope float_scope.

Lemma SFcompare_antisym (x y : spec_float) :
  SFcompare y x = option_map CompOpp (SFcompare x y).
Proof.
  destruct x as [sx|sx| |sx mx ex], y as [sy|sy| |sy my ey]; simpl;
    try destruct sx; try destruct sy; try reflexivity;
    rewrite (Z.compare_antisym ex ey);
    destruct (ex ?= ey)%Z; simpl; try reflexivity;
    rewrite (Pos.compare_cont_antisym mx my Eq); reflexivity.
Qed.

Lemma SFcompare_refl (x : spec_float) :
  x <> S754_nan -> SFcompare x x = Some Eq.
Proof.
  destruct x as [s|s| |s m e]; simpl; intros H; try congruence;
    destruct s; try reflexivity;
    rewrite Z.compare_refl, Pos.compare_cont_refl; reflexivity.
Qed.

Lemma SFcompare_nan (x y : spec_float) :
  SFcompare x y = None <-> x = S754_nan \/ y = S754_nan.
Proof.
  destruct x as [sx|sx| |sx mx ex], y as [sy|sy| |sy my ey]; simpl;
    split; intros H; try discriminate; auto;
    destruct H; discriminate.
Qed.

Lemma is_nan_spec (x : float) : is_nan x = true <-> Prim2SF x = S754_nan.
Proof.
  unfold is_nan. rewrite FloatAxioms.eqb_spec. unfold SFeqb.
  split.
  - intros H. destruct (Prim2SF x) eqn:E; try reflexivity;
      rewrite SFcompare_refl in H by discriminate; discriminate.
  - intros ->. reflexivity.
Qed.

Lemma is_nan_false (x : float) : is_nan x = false <-> Prim2SF x <> S754_nan.
Proof.
  rewrite <- is_nan_spec. destruct (is_nan x); split; congruence.
Qed.

Lemma ltb_asym (x y : float) : (x <? y) = true -> (y <? x) = false.
Proof.
  rewrite !FloatAxioms.ltb_spec. unfold SFltb.
  rewrite (SFcompare_antisym (Prim2SF x) (Prim2SF y)).
  destruct (SFcompare (Prim2SF x) (Prim2SF y)) as [[]|]; simpl; congruence.
Qed.

Lemma leb_not_ltb (x y : float) : (x <=? y) = true -> (y <? x) = false.
Proof.
  rewrite FloatAxioms.leb_spec, FloatAxioms.ltb_spec. unfold SFleb, SFltb.
  rewrite (SFcompare_antisym (Prim2SF x) (Prim2SF y)).
  destruct (SFcompare (Prim2SF x) (Prim2SF y)) as [[]|]; simpl; congruence.
Qed.

Lemma eqb_not_ltb (x y : float) :
  (x =? y) = true -> (x <? y) = false /\ (y <? x) = false.
Proof.
  rewrite FloatAxioms.eqb_spec, !FloatAxioms.ltb_spec. unfold SFeqb, SFltb.
  rewrite (SFcompare_antisym (Prim2SF x) (Prim2SF y)).
  destruct (SFcompare (Prim2SF x) (Prim2SF y)) as [[]|]; simpl;
    split; congruence.
Qed.

Lemma ltb_leb (x y : float) : (x <? y) = true -> (x <=? y) = true.
Proof.
  rewrite FloatAxioms.leb_spec, FloatAxioms.ltb_spec. unfold SFleb, SFltb.
  destruct (SFcompare (Prim2SF x) (Prim2SF y)) as [[]|]; simpl; congruence.
Qed.

Lemma ltb_not_nan (x y : float) :
  (x <? y) = true -> is_nan x = false /\ is_nan y = false.
Proof.
  rewrite FloatAxioms.ltb_spec, !is_nan_false. unfold SFltb. intros H.
  split; intros E; rewrite E in H; simpl in H;
    try discriminate; destruct (Prim2SF x); discriminate.
Qed.

Lemma not_ltb_leb (x y : float) :
  is_nan x = false -> is_nan y = false -> (y <? x) = false -> (x <=? y) = true.
Proof.
  rewrite FloatAxioms.leb_spec, FloatAxioms.ltb_spec, !is_nan_false. unfold SFleb, SFltb.
  intros Hx Hy.
  rewrite (SFcompare_antisym (Prim2SF x) (Prim2SF y)).
  destruct (SFcompare (Prim2SF x) (Prim2SF y)) as [[]|] eqn:E; simpl;
    try congruence.
  apply SFcompare_nan in E. tauto.
Qed.

(** Rounding never makes a [NaN]. *)
Lemma shr_1_nonneg (mrs : shr_record) :
  (0 <= shr_m mrs)%Z -> (0 <= shr_m (shr_1 mrs))%Z.
Proof.
  destruct mrs as [m r s]; simpl.
  destruct m as [|[p|p|]|p]; simpl; lia.
Qed.

Lemma iter_shr_1_nonneg (p : positive) :
  forall mrs, (0 <= shr_m mrs)%Z -> (0 <= shr_m (SpecFloat.iter_pos shr_1 p mrs))%Z.
Proof.
  induction p as [p IH|p IH|]; simpl; intros mrs H.
  - apply IH, IH, shr_1_nonneg, H.
  - apply IH, IH, H.
  - apply shr_1_nonneg, H.
Qed.

Lemma shr_fexp_nonneg (m e : Z) (l : location) :
  (0 <= m)%Z -> (0 <= shr_m (fst (shr_fexp prec emax m e l)))%Z.
Proof.
  intros H. unfold shr_fexp, shr.
  assert (H0 : (0 <= shr_m (shr_record_of_loc m l))%Z)
    by (destruct l as [|[]]; exact H).
  destruct (fexp prec emax (Zdigits2 m + e) - e)%Z; simpl; auto.
  apply iter_shr_1_nonneg, H0.
Qed.

Lemma round_nearest_even_nonneg (m : Z) (l : location) :
  (0 <= m)%Z -> (0 <= round_nearest_even m l)%Z.
Proof.
  intros H. destruct l as [|[]]; simpl; try lia.
  destruct (Z.even m); lia.
Qed.

Lemma binary_round_aux_not_nan (s : bool) (m e : Z) (l : location) :
  (0 <= m)%Z -> binary_round_aux prec emax s m e l <> S754_nan.
Proof.
  intros H. unfold binary_round_aux.
  pose proof (shr_fexp_nonneg m e l H) as H1.
  destruct (shr_fexp prec emax m e l) as [mrs' e']. simpl in H1.
  pose proof (shr_fexp_nonneg _ e' loc_Exact
                (round_nearest_even_nonneg _ (loc_of_shr_record mrs') H1)) as H2.
  destruct (shr_fexp prec emax _ e' loc_Exact) as [mrs'' e'']. simpl in H2.
  destruct (shr_m mrs'') as [|p|p]; try discriminate; try lia.
  destruct (e'' <=? emax - prec)%Z; discriminate.
Qed.

(** [x * 100] is a number when [x] is. *)
Lemma mul_100_not_nan (x : float) : is_nan x = false -> is_nan (x * 100) = false.
Proof.
  rewrite !is_nan_false, FloatAxioms.mul_spec.
  replace (Prim2SF 100) with (S754_finite false 7036874417766400 (-46))
    by (vm_compute; reflexivity).
  destruct (Prim2SF x) as [s|s| |s m e]; simpl; try congruence.
  intros _. apply binary_round_aux_not_nan. lia.
Qed.

Lemma abs_not_nan (x : float) : is_nan x = false -> is_nan (abs x) = false.
Proof.
  rewrite !is_nan_false, FloatAxioms.abs_spec.
  destruct (Prim2SF x); simpl; congruence.
Qed.

End Numbers.

(** ** The order of numbers *)

Section Order.

Local Open Scope float_scope.

Lemma SFcompare_rank (x y : spec_float) :
  x <> S754_nan -> y <> S754_nan ->
  SFcompare x y = Some (lex (rank x) (rank y)).
Proof.
  destruct x as [sx|sx| |sx mx ex], y as [sy|sy| |sy my ey]; simpl;
    intros Hx Hy; try congruence;
    try destruct sx; try destruct sy; try reflexivity.
  unfold lex. rewrite Z.compare_opp, (Z.compare_antisym ey ex).
  destruct (ey ?= ex)%Z; reflexivity.
Qed.

Lemma lex_le_trans (p q r : Z * Z * Z) :
  lex p q <> Gt -> lex q r <> Gt -> lex p r <> Gt.
Proof.
  destruct p as [[a b] c], q as [[a' b'] c'], r as [[a'' b''] c'']. simpl.
  destruct (Z.compare_spec a a'), (Z.compare_spec a' a''),
    (Z.compare_spec a a''); try lia; try congruence;
    destruct (Z.compare_spec b b'), (Z.compare_spec b' b''),
      (Z.compare_spec b b''); try lia; try congruence;
    destruct (Z.compare_spec c c'), (Z.compare_spec c' c''),
      (Z.compare_spec c c''); try lia; congruence.
Qed.

Lemma leb_rank (x y : float) :
  is_nan x = false -> is_nan y = false ->
  (x <=? y) = true <-> lex (rank (Prim2SF x)) (rank (Prim2SF y)) <> Gt.
Proof.
  rewrite !is_nan_false, FloatAxioms.leb_spec. unfold SFleb. intros Hx Hy.
  rewrite (SFcompare_rank _ _ Hx Hy).
  destruct (lex _ _); split; congruence.
Qed.

Lemma leb_not_nan (x y : float) :
  (x <=? y) = true -> is_nan x = false /\ is_nan y = false.
Proof.
  rewrite FloatAxioms.leb_spec, !is_nan_false. unfold SFleb. intros H.
  split; intros E; rewrite E in H; simpl in H;
    try discriminate; destruct (Prim2SF x); discriminate.
Qed.

Lemma leb_trans (x y z : float) :
  (x <=? y) = true -> (y <=? z) = true -> (x <=? z) = true.
Proof.
  intros H1 H2.
  destruct (leb_not_nan _ _ H1) as [Hx Hy].
  destruct (leb_not_nan _ _ H2) as [_ Hz].
  rewrite leb_rank in * by assumption.
  apply (lex_le_trans _ _ _ H1 H2).
Qed.

Lemma leb_refl (x : float) : is_nan x = false -> (x <=? x) = true.
Proof.
  intros H. rewrite FloatAxioms.leb_spec. unfold SFleb.
  rewrite SFcompare_refl by (apply is_nan_false, H). reflexivity.
Qed.

Lemma lex_eq (p q : Z * Z * Z) : lex p q = Eq -> p = q.
Proof.
  destruct p as [[a b] c], q as [[a' b'] c']. simpl.
  destruct (Z.compare_spec a a'); try discriminate.
  destruct (Z.compare_spec b b'); try discriminate.
  destruct (Z.compare_spec c c'); try discriminate.
  congruence.
Qed.

Lemma eqb_not_nan (x y : float) :
  (x =? y) = true -> is_nan x = false /\ is_nan y = false.
Proof.
  rewrite FloatAxioms.eqb_spec, !is_nan_false. unfold SFeqb. intros H.
  split; intros E; rewrite E in H; simpl in H;
    try discriminate; destruct (Prim2SF x); discriminate.
Qed.

Lemma eqb_rank (x y : float) :
  (x =? y) = true -> rank (Prim2SF x) = rank (Prim2SF y).
Proof.
  intros H. destruct (eqb_not_nan _ _ H) as [Hx Hy]. revert H.
  rewrite is_nan_false in Hx, Hy.
  rewrite FloatAxioms.eqb_spec. unfold SFeqb.
  rewrite (SFcompare_rank _ _ Hx Hy).
  destruct (lex _ _) eqn:E; try discriminate. intros _. apply lex_eq, E.
Qed.

Lemma ltb_rank (x y : float) :
  is_nan x = false -> is_nan y = false ->
  (x <? y) = true <-> lex (rank (Prim2SF x)) (rank (Prim2SF y)) = Lt.
Proof.
  rewrite !is_nan_false, FloatAxioms.ltb_spec. unfold SFltb. intros Hx Hy.
  rewrite (SFcompare_rank _ _ Hx Hy).
  destruct (lex _ _); split; congruence.
Qed.

Lemma eqb_refl (x : float) : is_nan x = false -> (x =? x) = true.
Proof.
  intros H. rewrite FloatAxioms.eqb_spec. unfold SFeqb.
  rewrite SFcompare_refl by (apply is_nan_false, H). reflexivity.
Qed.

Lemma leb_antisym (x y : float) :
  (x <=? y) = true -> (y <=? x) = true -> (x =? y) = true.
Proof.
  rewrite !FloatAxioms.leb_spec, FloatAxioms.eqb_spec. unfold SFleb, SFeqb.
  rewrite (SFcompare_antisym (Prim2SF x) (Prim2SF y)).
  destruct (SFcompare (Prim2SF x) (Prim2SF y)) as [[]|]; simpl; congruence.
Qed.

(** Below the maximum and not equal to it is strictly below. *)
Lemma leb_neq_ltb (x y : float) :
  (x <=? y) = true -> (x =? y) = false -> (x <? y) = true.
Proof.
  rewrite FloatAxioms.leb_spec, FloatAxioms.eqb_spec, FloatAxioms.ltb_spec.
  unfold SFleb, SFeqb, SFltb.
  destruct (SFcompare (Prim2SF x) (Prim2SF y)) as [[]|]; simpl; congruence.
Qed.

(** Numbers that are [===] compare alike with every other number. *)
Lemma leb_eqb_r (x y z : float) :
  (x <=? y) = true -> (z =? y) = true -> (x <=? z) = true.
Proof.
  intros H E. destruct (leb_not_nan _ _ H) as [Hx Hy].
  destruct (eqb_not_nan _ _ E) as [Hz _].
  rewrite leb_rank in * by assumption.
  rewrite (eqb_rank _ _ E). exact H.
Qed.

Lemma ltb_eqb_r (x y z : float) :
  (x <? y) = true -> (z =? y) = true -> (x <? z) = true.
Proof.
  intros H E. destruct (ltb_not_nan _ _ H) as [Hx Hy].
  destruct (eqb_not_nan _ _ E) as [Hz _].
  rewrite ltb_rank in * by assumption.
  rewrite (eqb_rank _ _ E). exact H.
Qed.

Lemma neg_infinity_leb (x : float) :
  is_nan x = false -> (neg_infinity <=? x) = true.
Proof.
  rewrite is_nan_false, FloatAxioms.leb_spec. unfold SFleb.
  replace (Prim2SF neg_infinity) with (S754_infinity true)
    by (vm_compute; reflexivity).
  destruct (Prim2SF x) as [[]|[]| |[] m e]; simpl; congruence.
Qed.

End Order.

(** ** The DECIMAL(5,2) column *)

Section Decimal.

Local Open Scope float_scope.

Lemma lex_le_lt_trans (p q r : Z * Z * Z) :
  lex p q <> Gt -> lex q r = Lt -> lex p r = Lt.
Proof.
  destruct p as [[a b] c], q as [[a' b'] c'], r as [[a'' b''] c'']. simpl.
  destruct (Z.compare_spec a a'), (Z.compare_spec a' a''),
    (Z.compare_spec a a''); try lia; try congruence;
    destruct (Z.compare_spec b b'), (Z.compare_spec b' b''),
      (Z.compare_spec b b''); try lia; try congruence;
    destruct (Z.compare_spec c c'), (Z.compare_spec c' c''),
      (Z.compare_spec c c''); try lia; congruence.
Qed.

Lemma leb_ltb_trans (x y z : float) :
  (x <=? y) = true -> (y <? z) = true -> (x <? z) = true.
Proof.
  intros H1 H2.
  destruct (leb_not_nan _ _ H1) as [Hx Hy].
  destruct (ltb_not_nan _ _ H2) as [_ Hz].
  rewrite leb_rank in H1 by assumption.
  rewrite ltb_rank in * by assumption.
  apply (lex_le_lt_trans _ _ _ H1 H2).
Qed.

(** What the validators let pass: [NaN], and the numbers from 0 to 100. *)
Lemma validate_confidence_spec (c : number) :
  validate_confidence c = true <->
  is_nan c = true \/ ((0 <=? c) = true /\ (c <=? 100) = true).
Proof.
  unfold validate_confidence, validate_min, validate_max.
  destruct (is_nan c) eqn:N; simpl.
  - tauto.
  - rewrite andb_true_iff. split; [auto|]. intros [H | H]; [discriminate|exact H].
Qed.

(** A property of the integers from 0 to [n], checked on each of them. *)
Lemma checked_up_to (P : Z -> bool) (n : Z) :
  forallb P (map Z.of_nat (seq 0 (S (Z.to_nat n)))) = true ->
  forall k, (0 <= k <= n)%Z -> P k = true.
Proof.
  intros H k Hk. rewrite forallb_forall in H. apply H.
  apply in_map_iff. exists (Z.to_nat k). split; [lia|].
  apply in_seq. lia.
Qed.

(** The count stops at the first half hundredth above the number. *)
Lemma hundredths_le (c : number) (K : Z) :
  (0 <= K)%Z ->
  (c <? of_int (2 * K + 1) / 200) = true ->
  (0 <= N.iter 10000 (next_hundredth c) 0%Z <= K)%Z.
Proof.
  intros HK Hc. apply N.iter_invariant; [|lia].
  intros k Hk. unfold next_hundredth.
  destruct (c <? of_int (2 * k + 1) / 200) eqn:E; [exact Hk|].
  assert (k <> K) by (intros ->; congruence). lia.
Qed.

Lemma hundredths_range :
  forall k, (0 <= k <= 10000)%Z ->
  (is_nan (of_int k / 100) = false)
  /\ (0 <=? of_int k / 100) = true /\ (of_int k / 100 <=? 100) = true.
Proof.
  intros k Hk.
  pose (P := fun k : Z => negb (is_nan (of_int k / 100))
                          && (0 <=? of_int k / 100)
                          && (of_int k / 100 <=? 100)).
  assert (H : P k = true).
  { apply (checked_up_to P 10000); [vm_compute; reflexivity|exact Hk]. }
  unfold P in H. apply andb_prop in H. destruct H as [H H3].
  apply andb_prop in H. destruct H as [H1 H2].
  apply negb_true_iff in H1. auto.
Qed.

Lemma hundredths_cap :
  forall k, (0 <= k <= 9500)%Z -> (of_int k / 100 <=? 95) = true.
Proof.
  intros k Hk.
  pose (P := fun k : Z => of_int k / 100 <=? 95).
  change (P k = true).
  apply (checked_up_to P 9500); [vm_compute; reflexivity|exact Hk].
Qed.

Lemma DECIMAL_5_2_nan (c : number) :
  is_nan c = true -> DECIMAL_5_2 c = nan.
Proof. unfold DECIMAL_5_2. intros ->. reflexivity. Qed.

(** A number from 0 to 100 stays a number from 0 to 100. *)
Lemma DECIMAL_5_2_range (c : number) :
  (c <=? 100) = true ->
  is_nan (DECIMAL_5_2 c) = false
  /\ (0 <=? DECIMAL_5_2 c) = true /\ (DECIMAL_5_2 c <=? 100) = true.
Proof.
  intros H. destruct (leb_not_nan _ _ H) as [N _].
  unfold DECIMAL_5_2. rewrite N.
  apply hundredths_range.
  apply (hundredths_le c 10000); [lia|].
  apply (leb_ltb_trans _ _ _ H). reflexivity.
Qed.

(** A number that is at most 95 is at most 95 in the table. *)
Lemma DECIMAL_5_2_cap (c : number) :
  (c <=? 95) = true -> (DECIMAL_5_2 c <=? 95) = true.
Proof.
  intros H. destruct (leb_not_nan _ _ H) as [N _].
  unfold DECIMAL_5_2. rewrite N.
  apply hundredths_cap.
  apply (hundredths_le c 9500); [lia|].
  apply (leb_ltb_trans _ _ _ H). reflexivity.
Qed.

(** What passed the validators passes them as it is stored, and is
    [NaN] in the table exactly when it was [NaN]. *)
Lemma DECIMAL_5_2_valid (c : number) :
  validate_confidence c = true ->
  validate_confidence (DECIMAL_5_2 c) = true
  /\ is_nan (DECIMAL_5_2 c) = is_nan c.
Proof.
  intros H. apply validate_confidence_spec in H. destruct H as [N | [_ H]].
  - rewrite (DECIMAL_5_2_nan c N), N. split; reflexivity.
  - destruct (DECIMAL_5_2_range c H) as (N & H0 & H1).
    destruct (leb_not_nan _ _ H) as [Nc _]. rewrite N, Nc.
    split; [|reflexivity]. apply validate_confidence_spec. auto.
Qed.

(** 74.996 and 74.995 are stored as 75, 74.994 as 74.99; 100 and the
    zeros are stored as they are. *)
Example DECIMAL_5_2_examples :
  DECIMAL_5_2 74.996 = 75 /\ DECIMAL_5_2 74.995 = 75
  /\ DECIMAL_5_2 74.994 = 74.99 /\ DECIMAL_5_2 100 = 100
  /\ DECIMAL_5_2 0 = 0 /\ DECIMAL_5_2 (-0) = 0 /\ DECIMAL_5_2 0.004 = 0.
Proof. repeat split; vm_compute; reflexivity. Qed.

End Decimal.

(** ** The model: enumerations and the table *)

Section Model.

Lemma enum_of_string_name {A : Type} (labels : list A) (name : A -> string)
    (s : string) (a : A) :
  enum_of_string labels name s = Some a -> In a labels /\ s = name a.
Proof.
  unfold enum_of_string. intros H. apply find_some in H.
  destruct H as [Hin Heq]. apply String.eqb_eq in Heq. auto.
Qed.

Lemma Action_of_to_string (a : Action) :
  Action_of_string (Action_to_string a) = Some a.
Proof. destruct a; reflexivity. Qed.

Lemma Action_of_string_inv (s : string) (a : Action) :
  Action_of_string s = Some a -> s = Action_to_string a.
Proof. intros H. apply enum_of_string_name in H. tauto. Qed.

Lemma Source_of_string_inv (s : string) (a : Source) :
  Source_of_string s = Some a -> s = Source_to_string a.
Proof. intros H. apply enum_of_string_name in H. tauto. Qed.

Lemma Status_of_string_inv (s : string) (a : Status) :
  Status_of_string s = Some a -> s = Status_to_string a.
Proof. intros H. apply enum_of_string_name in H. tauto. Qed.

Lemma Status_eqb_eq (a b : Status) : Status_eqb a b = true <-> a = b.
Proof. destruct a, b; vm_compute; split; congruence. Qed.

Lemma Source_eqb_eq (a b : Source) : Source_eqb a b = true <-> a = b.
Proof. destruct a, b; vm_compute; split; congruence. Qed.

(** What an accepted [create] did, and what a rejected one did not. *)
Lemma create_accepted (st st' : Store) (a : Attributes) (s : t) :
  create st a = (st', inr s) ->
  st' = st ++ [s]
  /\ id s = fresh st
  /\ symbol s = a_symbol a
  /\ Action_of_string (a_action a) = Some (action s)
  /\ Source_of_string (a_source a) = Some (source s)
  /\ match a_status a with
     | Some l => Status_of_string l = Some (status s)
     | None => status s = pending
     end
  /\ confidence s = DECIMAL_5_2 (a_confidence a)
  /\ metadata s = a_metadata a
  /\ validate_confidence (confidence s) = true.
Proof.
  unfold create. intros H.
  destruct (Action_of_string (a_action a)) as [act|]; [|discriminate].
  destruct (Source_of_string (a_source a)) as [src|]; [|discriminate].
  destruct (a_status a) as [l|].
  - destruct (Status_of_string l) as [sta|]; [|discriminate].
    destruct (validate_confidence (a_confidence a)) eqn:V; [|discriminate].
    injection H as <- <-. cbn [id symbol action source status confidence metadata].
    repeat split; auto. apply DECIMAL_5_2_valid, V.
  - destruct (validate_confidence (a_confidence a)) eqn:V; [|discriminate].
    injection H as <- <-. cbn [id symbol action source status confidence metadata].
    repeat split; auto. apply DECIMAL_5_2_valid, V.
Qed.

(** What [create] accepted had passed the validators. *)
Lemma create_accepted_valid (st st' : Store) (a : Attributes) (s : t) :
  create st a = (st', inr s) -> validate_confidence (a_confidence a) = true.
Proof.
  unfold create. intros H.
  destruct (Action_of_string (a_action a)) as [act|]; [|discriminate].
  destruct (Source_of_string (a_source a)) as [src|]; [|discriminate].
  destruct (match a_status a with
            | Some l => Status_of_string l
            | None => Some pending
            end); [|discriminate].
  destruct (validate_confidence (a_confidence a)); [reflexivity|discriminate].
Qed.

Lemma create_rejected (st st' : Store) (a : Attributes) (e : Error) :
  create st a = (st', inl e) -> st' = st.
Proof.
  unfold create. intros H.
  destruct (Action_of_string (a_action a)); [|congruence].
  destruct (Source_of_string (a_source a)); [|congruence].
  destruct (match a_status a with
            | Some s => Status_of_string s
            | None => Some pending
            end); [|congruence].
  destruct (validate_confidence (a_confidence a)); congruence.
Qed.

(** The key of a new row is the key of no row. *)
Lemma fresh_not_found (st : Store) : findByPk st (fresh st) = None.
Proof.
  unfold findByPk. destruct (find _ st) as [s|] eqn:E; [|reflexivity].
  apply find_some in E. destruct E as [Hin Heq].
  apply Nat.eqb_eq in Heq. unfold fresh in Heq.
  assert (H : Forall (fun k => (k <= list_max (map id st))%nat) (map id st))
    by (apply list_max_le; lia).
  rewrite Forall_forall in H.
  specialize (H (id s) (in_map id st s Hin)). lia.
Qed.

Lemma findByPk_app (st more : Store) (i : Id) :
  findByPk (st ++ more) i
  = match findByPk st i with Some s => Some s | None => findByPk more i end.
Proof.
  unfold findByPk. induction st as [|s st IH]; simpl; [reflexivity|].
  destruct (Nat.eqb (id s) i); auto.
Qed.

Lemma findByPk_id (st : Store) (i : Id) (s : t) :
  findByPk st i = Some s -> id s = i.
Proof.
  unfold findByPk. intros H. apply find_some in H.
  apply Nat.eqb_eq, H.
Qed.

(** The row that [findByPk] gives is the one [update] changes. *)
Lemma findByPk_update (st : Store) (i : Id) (s : t) (changes : t -> t) :
  (forall x, id (changes x) = id x) ->
  findByPk st i = Some s ->
  findByPk (update st i changes) i = Some (changes s).
Proof.
  unfold findByPk, update. intros Hid.
  induction st as [|x st IH]; simpl; [discriminate|].
  destruct (Nat.eqb (id x) i) eqn:E.
  - intros [= <-]. simpl. rewrite Hid, E. reflexivity.
  - simpl. rewrite E. exact IH.
Qed.

Lemma obj_get_set (k : string) (v : Json) (o : JsObject) :
  obj_get k (obj_set k v o) = Some v.
Proof.
  induction o as [|[k' v'] o IH]; simpl.
  - rewrite String.eqb_refl. reflexivity.
  - destruct (String.eqb k k') eqn:E; simpl.
    + rewrite String.eqb_refl. reflexivity.
    + rewrite E. exact IH.
Qed.

End Model.

(** ** GROK_ENGINE: the weighted decision *)

Section Fusion.

Import GrokEngine.
Local Open Scope float_scope.

(** The total weight is the sum of [confidence / 100], in the order of
    the signals. *)
Lemma totalWeight_sum (signals : list t) :
  totalWeight (weigh signals)
  = fold_left (fun total s => total + confidence s / 100) signals 0.
Proof.
  assert (G : forall w,
             totalWeight (fold_left accumulate signals w)
             = fold_left (fun total s => total + confidence s / 100) signals
                 (totalWeight w)).
  { induction signals as [|s signals IH]; intros w; simpl; [reflexivity|].
    rewrite IH. unfold accumulate. destruct (action s); reflexivity. }
  apply G.
Qed.

(** The buy and the sell weight are the sums over the buy and over the
    sell signals. *)
Lemma buyWeight_sum (signals : list t) :
  buyWeight (weigh signals)
  = fold_left (fun sum s => match action s with
                            | buy => sum + confidence s / 100
                            | _ => sum
                            end) signals 0.
Proof.
  assert (G : forall w,
             buyWeight (fold_left accumulate signals w)
             = fold_left (fun sum s => match action s with
                                       | buy => sum + confidence s / 100
                                       | _ => sum
                                       end) signals (buyWeight w)).
  { induction signals as [|s signals IH]; intros w; simpl; [reflexivity|].
    rewrite IH. unfold accumulate. destruct (action s); reflexivity. }
  apply G.
Qed.

Lemma sellWeight_sum (signals : list t) :
  sellWeight (weigh signals)
  = fold_left (fun sum s => match action s with
                            | sell => sum + confidence s / 100
                            | _ => sum
                            end) signals 0.
Proof.
  assert (G : forall w,
             sellWeight (fold_left accumulate signals w)
             = fold_left (fun sum s => match action s with
                                       | sell => sum + confidence s / 100
                                       | _ => sum
                                       end) signals (sellWeight w)).
  { induction signals as [|s signals IH]; intros w; simpl; [reflexivity|].
    rewrite IH. unfold accumulate. destruct (action s); reflexivity. }
  apply G.
Qed.

(** What [analyzeMarket] answers, when it answers with a decision, is
    the fusion of the collected signals. *)
Lemma analyzeMarket_decision (now : Z) (st st' : Store) (symbol : string)
    (cyber : option t) (twitter : list t) (pattern : option Id)
    (a : Action) (c : number) (i : Id) (n : nat) :
  analyzeMarket now st symbol cyber twitter pattern
  = (st', inr (Decision a c i n)) ->
  let signals := collectSignals st symbol cyber twitter pattern in
  a = f_action (fuse signals) /\ c = f_confidence (fuse signals)
  /\ n = List.length signals.
Proof.
  unfold analyzeMarket.
  destruct (collectSignals st symbol cyber twitter pattern) as [|first rest];
    [discriminate|].
  destruct (create st _) as [st1 [e|g]]; simpl; [discriminate|].
  intros [= <- <- <- <- <-]. auto.
Qed.

End Fusion.

(** C1: for a non-empty list of signals whose total weight, the sum of
    [confidence / 100], is positive, the normalized buy and sell weights
    are the sums over the buy and over the sell signals divided by the
    total, the hold weight is the rest, and the fusion decides [buy]
    exactly when the buy weight exceeds both the sell and the hold weight,
    [sell] exactly when the sell weight exceeds both others, and [hold]
    otherwise, so that a tie for the largest weight gives [hold]; the
    confidence is the weight of the decided action times 100.  Fusing
    [{buy,90}, {buy,80}, {sell,50}] gives [buy] with confidence
    [(0.9 + 0.8) / (0.9 + 0.8 + 0.5) * 100], about 77.27, and fusing
    [{buy,50}, {sell,50}] gives [hold] with confidence 0. *)
Theorem fuse_decision_rule (signals : list t) :
  signals <> [] ->
  (0 <? fold_left (fun total s => total + confidence s / 100) signals 0)%float
  = true ->
  let buyWeight := GrokEngine.normBuy signals in
  let sellWeight := GrokEngine.normSell signals in
  let holdWeight := GrokEngine.normHold signals in
  let decision := GrokEngine.fuse signals in
  buyWeight
  = (fold_left (fun sum s => match action s with
                             | buy => sum + confidence s / 100
                             | _ => sum
                             end) signals 0
     / fold_left (fun total s => total + confidence s / 100) signals 0)%float
  /\ sellWeight
     = (fold_left (fun sum s => match action s with
                                | sell => sum + confidence s / 100
                                | _ => sum
                                end) signals 0
        / fold_left (fun total s => total + confidence s / 100) signals 0)%float
  /\ holdWeight = (1 - buyWeight - sellWeight)%float
  /\ (GrokEngine.f_action decision = buy
   <-> (sellWeight <? buyWeight)%float = true
       /\ (holdWeight <? buyWeight)%float = true)
  /\ (GrokEngine.f_action decision = sell
      <-> (buyWeight <? sellWeight)%float = true
          /\ (holdWeight <? sellWeight)%float = true)
  /\ (GrokEngine.f_action decision = hold
      <-> ~ ((sellWeight <? buyWeight)%float = true
             /\ (holdWeight <? buyWeight)%float = true)
          /\ ~ ((buyWeight <? sellWeight)%float = true
                /\ (holdWeight <? sellWeight)%float = true))
  /\ ((buyWeight =? sellWeight)%float = true -> GrokEngine.f_action decision = hold)
  /\ ((buyWeight =? holdWeight)%float = true -> GrokEngine.f_action decision <> buy)
  /\ ((sellWeight =? holdWeight)%float = true -> GrokEngine.f_action decision <> sell)
  /\ GrokEngine.f_confidence decision
     = (match GrokEngine.f_action decision with
        | buy => buyWeight
        | sell => sellWeight
        | hold => holdWeight
        end * 100)%float
  /\ GrokEngine.fuse threeOpinions
     = {| GrokEngine.f_action := buy;
          GrokEngine.f_confidence := ((0.9 + 0.8) / (0.9 + 0.8 + 0.5) * 100)%float |}
  /\ (77.27 <? GrokEngine.f_confidence (GrokEngine.fuse threeOpinions))%float = true
  /\ (GrokEngine.f_confidence (GrokEngine.fuse threeOpinions) <? 77.28)%float = true
  /\ GrokEngine.fuse tiedOpinions
     = {| GrokEngine.f_action := hold; GrokEngine.f_confidence := 0%float |}.
Proof.
  intros _ _ b s h decision.
  assert (Hbuy : (s <? b)%float = true -> (b <? s)%float = false)
    by apply ltb_asym.
  assert (Hbs : (b =? s)%float = true
                -> (b <? s)%float = false /\ (s <? b)%float = false)
    by apply eqb_not_ltb.
  assert (Hbh : (b =? h)%float = true
                -> (b <? h)%float = false /\ (h <? b)%float = false)
    by apply eqb_not_ltb.
  assert (Hsh : (s =? h)%float = true
                -> (s <? h)%float = false /\ (h <? s)%float = false)
    by apply eqb_not_ltb.
  split; [unfold b, GrokEngine.normBuy;
          rewrite buyWeight_sum, totalWeight_sum; reflexivity|].
  split; [unfold s, GrokEngine.normSell;
          rewrite sellWeight_sum, totalWeight_sum; reflexivity|].
  split; [reflexivity|].
  subst decision. unfold GrokEngine.fuse. fold b s h.
  destruct (s <? b)%float eqn:Esb, (h <? b)%float eqn:Ehb,
           (b <? s)%float eqn:Ebs, (h <? s)%float eqn:Ehs; simpl;
    try (specialize (Hbuy eq_refl); discriminate Hbuy);
    repeat match goal with
           | |- _ /\ _ => split
           | |- _ <-> _ => split
           | |- ~ _ => intros [? ?]
           | |- _ <> _ => discriminate
           | |- _ -> _ => intro
           end;
    try reflexivity; try discriminate; try tauto;
    try (vm_compute; reflexivity);
    repeat match goal with
           | H : _ /\ _ |- _ => destruct H
           | H : ?x = true, H' : ?x = true -> _ |- _ => specialize (H' H)
           end;
    try discriminate; try congruence.
Qed.

Lemma fuse_decision_rule_witness :
  threeOpinions <> []
  /\ (0 <? fold_left (fun total s => total + confidence s / 100) threeOpinions 0)%float
     = true
  /\ GrokEngine.f_action (GrokEngine.fuse threeOpinions) = buy.
Proof.
  assert (H1 : threeOpinions <> []) by discriminate.
  assert (H2 : (0 <? fold_left (fun total s => total + confidence s / 100)
                       threeOpinions 0)%float = true)
    by (vm_compute; reflexivity).
  split; [exact H1|]. split; [exact H2|].
  destruct (fuse_decision_rule threeOpinions H1 H2) as (_ & _ & _ & Hbuy & _).
  apply Hbuy. split; vm_compute; reflexivity.
Defined.

Section ZeroWeight.

Import GrokEngine.
Local Open Scope float_scope.



End ZeroWeight.




(** ** The signal lifecycle: [executeTrade] *)

Section Lifecycle.

Local Open Scope float_scope.

Lemma set_status_id (sta : Status) (s : t) : id (set_status sta s) = id s.
Proof. reflexivity. Qed.

Lemma cancel_id (s : t) : id (GrokEngine.cancel s) = id s.
Proof. reflexivity. Qed.

(** A signal that is not pending: the Grok Engine throws and writes
    nothing. *)
Lemma grok_refuses (now : Z) (st : Store) (signalId : Id) (signal : t) :
  findByPk st signalId = Some signal ->
  status signal <> pending ->
  GrokEngine.executeTrade now st signalId
  = (st, inl (if Source_eqb (source signal) GROK_ENGINE
              then InvalidTransition (status signal)
              else JsError "Trade execution failed: Signal is not from Grok Engine")).
Proof.
  intros Hfind Hterm. unfold GrokEngine.executeTrade. rewrite Hfind.
  destruct (Source_eqb (source signal) GROK_ENGINE); simpl; [|reflexivity].
  destruct (Status_eqb (status signal) pending) eqn:E; simpl; [|reflexivity].
  apply Status_eqb_eq in E. contradiction.
Qed.

Lemma cyber_refuses (now : Z) (st : Store) (signalId : Id) (signal : t) :
  findByPk st signalId = Some signal ->
  status signal <> pending ->
  CyberMetrics.executeTrade now st signalId
  = (st, inl (InvalidTransition (status signal))).
Proof.
  intros Hfind Hterm. unfold CyberMetrics.executeTrade. rewrite Hfind.
  destruct (Status_eqb (status signal) pending) eqn:E; simpl; [|reflexivity].
  apply Status_eqb_eq in E. contradiction.
Qed.

(** A pending signal of the Grok Engine: the confidence decides. *)
Lemma grok_dispatch (now : Z) (st : Store) (signalId : Id) (signal : t) :
  findByPk st signalId = Some signal ->
  source signal = GROK_ENGINE ->
  status signal = pending ->
  GrokEngine.executeTrade now st signalId
  = if confidence signal <? 75
    then (update st signalId GrokEngine.cancel, inr GrokEngine.TooLow)
    else (update st signalId (set_status executed),
          inr (GrokEngine.Executed signalId (action signal) (symbol signal)
                 (price signal) (confidence signal) now)).
Proof.
  intros Hfind Hsrc Hsta. unfold GrokEngine.executeTrade.
  rewrite Hfind, Hsrc, Hsta, (findByPk_id _ _ _ Hfind). simpl.
  destruct (confidence signal <? 75); reflexivity.
Qed.

End Lifecycle.

(** C3: a signal whose stored status is not pending cannot be executed.
    Both [executeTrade] methods fail; for a Grok Engine signal, and for
    any signal in the CYBER_METRICS method, the error is the invalid
    transition error "Signal is already ..." (for an expired signal,
    "Signal is already expired").  The failed attempt writes nothing: the
    table is the one before, and the signal is read back unchanged. *)
Theorem executeTrade_refuses_terminal (now : Z) (st : Store) (signalId : Id)
    (signal : t) :
  findByPk st signalId = Some signal ->
  status signal <> pending ->
  (exists e, GrokEngine.executeTrade now st signalId = (st, inl e))
  /\ (source signal = GROK_ENGINE ->
      GrokEngine.executeTrade now st signalId
      = (st, inl (InvalidTransition (status signal))))
  /\ CyberMetrics.executeTrade now st signalId
     = (st, inl (InvalidTransition (status signal)))
  /\ InvalidTransition expired
     = JsError "Trade execution failed: Signal is already expired"
  /\ findByPk (fst (GrokEngine.executeTrade now st signalId)) signalId
     = Some signal
  /\ findByPk (fst (CyberMetrics.executeTrade now st signalId)) signalId
     = Some signal.
Proof.
  intros Hfind Hterm.
  rewrite (grok_refuses now st signalId signal Hfind Hterm).
  rewrite (cyber_refuses now st signalId signal Hfind Hterm). simpl.
  repeat split; auto.
  - eexists. reflexivity.
  - intros ->. reflexivity.
Qed.

Lemma executeTrade_refuses_terminal_witness :
  findByPk [expiredSignal] 1
  = Some (expiredSignal)
  /\ status (expiredSignal) <> pending
  /\ GrokEngine.executeTrade 0 [expiredSignal] 1
     = ([expiredSignal],
        inl (JsError "Trade execution failed: Signal is already expired")).
Proof.
  assert (H1 : findByPk [expiredSignal] 1
               = Some (expiredSignal))
    by reflexivity.
  assert (H2 : status (expiredSignal) <> pending)
    by discriminate.
  split; [exact H1|]. split; [exact H2|].
  destruct (executeTrade_refuses_terminal 0 _ 1 _ H1 H2) as (_ & H & _).
  apply H. reflexivity.
Defined.

(** C4, as stated, fails: a Grok Engine signal that is still pending one
    millisecond after [expiresAt] is executed. *)
Lemma pending_signal_executed_after_expiry :
  expiresAt (confidentSignal) = Some 14400000%Z
  /\ (14400000 < 14400001)%Z
  /\ GrokEngine.executeTrade 14400001 [confidentSignal] 1
     = ([set_status executed (confidentSignal)],
        inr (GrokEngine.Executed 1 buy "BTC" (Some 50000%float) 80%float 14400001))
  /\ status (set_status executed (confidentSignal)) = executed.
Proof. repeat split. Qed.

(** C4, amended: [executeTrade] reads the stored status of the signal
    immediately before acting and fails, writing nothing, when it is not
    pending, so that a signal already marked expired stays expired and is
    never executed.  It does not look at [expiresAt]: the table it leaves
    is the same at every clock value, and a pending Grok Engine signal is
    executed as soon as its confidence is at least 75. *)
Theorem executeTrade_checks_status_only (now : Z) (st : Store) (signalId : Id)
    (signal : t) :
  findByPk st signalId = Some signal ->
  (status signal <> pending ->
   (exists e, GrokEngine.executeTrade now st signalId = (st, inl e))
   /\ findByPk (fst (GrokEngine.executeTrade now st signalId)) signalId
      = Some signal)
  /\ (forall now',
        fst (GrokEngine.executeTrade now' st signalId)
        = fst (GrokEngine.executeTrade now st signalId))
  /\ (status signal = pending -> source signal = GROK_ENGINE ->
      (75 <=? confidence signal)%float = true ->
      findByPk (fst (GrokEngine.executeTrade now st signalId)) signalId
      = Some (set_status executed signal)).
Proof.
  intros Hfind. split; [|split].
  - intros Hterm.
    rewrite (grok_refuses now st signalId signal Hfind Hterm). simpl.
    split; [eexists; reflexivity|exact Hfind].
  - intros now'. unfold GrokEngine.executeTrade. rewrite Hfind.
    destruct (negb (Source_eqb (source signal) GROK_ENGINE)); [reflexivity|].
    destruct (negb (Status_eqb (status signal) pending)); [reflexivity|].
    destruct (confidence signal <? 75)%float; reflexivity.
  - intros Hsta Hsrc Hconf.
    rewrite (grok_dispatch now st signalId signal Hfind Hsrc Hsta).
    rewrite (leb_not_ltb _ _ Hconf). simpl.
    apply findByPk_update; [reflexivity|exact Hfind].
Qed.

Lemma executeTrade_checks_status_only_witness :
  findByPk [confidentSignal] 1 = Some (confidentSignal)
  /\ findByPk (fst (GrokEngine.executeTrade 14400001 [confidentSignal] 1)) 1
     = Some (set_status executed (confidentSignal)).
Proof.
  assert (H : findByPk [confidentSignal] 1
              = Some (confidentSignal)) by reflexivity.
  split; [exact H|].
  destruct (executeTrade_checks_status_only 14400001 _ 1 _ H) as (_ & _ & E).
  apply E; reflexivity.
Defined.

(** C7: at dispatch, a pending Grok Engine signal whose confidence is
    below 75 is cancelled, with the reason recorded in its metadata, and
    no trade is reported; one whose confidence is at least 75 is
    executed. *)
Theorem executeTrade_confidence_gate (now : Z) (st : Store) (signalId : Id)
    (signal : t) :
  findByPk st signalId = Some signal ->
  source signal = GROK_ENGINE ->
  status signal = pending ->
  ((confidence signal <? 75)%float = true ->
   exists st' cancelledSignal,
     GrokEngine.executeTrade now st signalId = (st', inr GrokEngine.TooLow)
     /\ st' = update st signalId GrokEngine.cancel
     /\ findByPk st' signalId = Some cancelledSignal
     /\ status cancelledSignal = cancelled
     /\ (exists m, metadata cancelledSignal = Some m
                   /\ obj_get "reason" m = Some (JString "Low confidence"))
     /\ confidence cancelledSignal = confidence signal
     /\ action cancelledSignal = action signal)
  /\ ((75 <=? confidence signal)%float = true ->
      exists st' executedSignal,
        GrokEngine.executeTrade now st signalId
        = (st', inr (GrokEngine.Executed signalId (action signal) (symbol signal)
                       (price signal) (confidence signal) now))
        /\ st' = update st signalId (set_status executed)
        /\ findByPk st' signalId = Some executedSignal
        /\ status executedSignal = executed
        /\ metadata executedSignal = metadata signal).
Proof.
  intros Hfind Hsrc Hsta.
  rewrite (grok_dispatch now st signalId signal Hfind Hsrc Hsta).
  split.
  - intros Hlow. rewrite Hlow.
    exists (update st signalId GrokEngine.cancel), (GrokEngine.cancel signal).
    repeat split.
    + apply findByPk_update; [reflexivity|exact Hfind].
    + eexists. split; [reflexivity|]. apply obj_get_set.
  - intros Hhigh. rewrite (leb_not_ltb _ _ Hhigh).
    exists (update st signalId (set_status executed)), (set_status executed signal).
    repeat split.
    apply findByPk_update; [reflexivity|exact Hfind].
Qed.

Lemma executeTrade_confidence_gate_witness :
  findByPk [hesitantSignal] 1 = Some (hesitantSignal)
  /\ source (hesitantSignal) = GROK_ENGINE
  /\ status (hesitantSignal) = pending
  /\ (confidence (hesitantSignal) <? 75)%float = true
  /\ exists st' cancelledSignal,
       GrokEngine.executeTrade 0 [hesitantSignal] 1
       = (st', inr GrokEngine.TooLow)
       /\ st' = update [hesitantSignal] 1 GrokEngine.cancel
       /\ findByPk st' 1 = Some cancelledSignal
       /\ status cancelledSignal = cancelled
       /\ (exists m, metadata cancelledSignal = Some m
                     /\ obj_get "reason" m = Some (JString "Low confidence"))
       /\ confidence cancelledSignal = confidence (hesitantSignal)
       /\ action cancelledSignal = action (hesitantSignal).
Proof.
  assert (H1 : findByPk [hesitantSignal] 1
               = Some (hesitantSignal)) by reflexivity.
  assert (H4 : (confidence (hesitantSignal) <? 75)%float = true)
    by reflexivity.
  split; [exact H1|]. split; [reflexivity|]. split; [reflexivity|].
  split; [exact H4|].
  destruct (executeTrade_confidence_gate 0 _ 1 _ H1 eq_refl eq_refl) as [Hlow _].
  exact (Hlow H4).
Defined.

(** ** GROK_ENGINE: the composite signal *)




(** C6, as stated, fails: with no signal collected the answer is
    [{ success: false, message: 'No valid signals found' }], which is not
    a hold decision and carries no confidence. *)
Lemma analyzeMarket_no_signals_is_not_hold :
  GrokEngine.analyzeMarket 0 [] "BTC" None [] None
  = ([], inr GrokEngine.NoValidSignals)
  /\ ~ (exists i n,
          snd (GrokEngine.analyzeMarket 0 [] "BTC" None [] None)
          = inr (GrokEngine.Decision hold 0 i n)).
Proof.
  split; [reflexivity|]. intros (i & n & H). discriminate H.
Qed.

(** C6, amended: when no signal is collected for the symbol,
    [analyzeMarket] does not throw; it answers
    [{ success: false, message: 'No valid signals found' }], with no
    action and no confidence, and stores nothing. *)
Theorem analyzeMarket_no_signals (now : Z) (st : Store) (symbol : string)
    (cyber : option t) (twitter : list t) (pattern : option Id) :
  GrokEngine.collectSignals st symbol cyber twitter pattern = [] ->
  GrokEngine.analyzeMarket now st symbol cyber twitter pattern
  = (st, inr GrokEngine.NoValidSignals).
Proof.
  intros H. unfold GrokEngine.analyzeMarket. rewrite H. reflexivity.
Qed.

Lemma analyzeMarket_no_signals_witness :
  GrokEngine.collectSignals threeOpinions "ETH" None
    [opinion 2 TWITTER_MONITOR buy 80] (Some 7) = []
  /\ GrokEngine.analyzeMarket 0 threeOpinions "ETH" None
       [opinion 2 TWITTER_MONITOR buy 80] (Some 7)
     = (threeOpinions, inr GrokEngine.NoValidSignals).
Proof.
  split; [reflexivity|].
  apply (analyzeMarket_no_signals 0 threeOpinions "ETH" None
           [opinion 2 TWITTER_MONITOR buy 80] (Some 7)).
  reflexivity.
Defined.

(** ** The model: what [create] accepts *)

Section Validation.

Local Open Scope float_scope.

Lemma out_of_range_rejected (c : number) :
  (c <? 0) = true \/ (100 <? c) = true -> validate_confidence c = false.
Proof.
  unfold validate_confidence, validate_min, validate_max. intros [H | H].
  - destruct (ltb_not_nan _ _ H) as [-> _]. simpl.
    destruct (0 <=? c) eqn:E; [|reflexivity].
    apply leb_not_ltb in E. congruence.
  - destruct (ltb_not_nan _ _ H) as [_ ->]. simpl.
    destruct (c <=? 100) eqn:E; [|apply andb_false_r].
    apply leb_not_ltb in E. congruence.
Qed.

Lemma unknown_label {A : Type} (labels : list A) (name : A -> string)
    (s : string) :
  ~ In s (map name labels) -> enum_of_string labels name s = None.
Proof.
  intros H. destruct (enum_of_string labels name s) as [a|] eqn:E;
    [|reflexivity].
  apply enum_of_string_name in E. destruct E as [Hin ->].
  exfalso. apply H, in_map, Hin.
Qed.

Lemma known_label {A : Type} (labels : list A) (name : A -> string)
    (s : string) (a : A) :
  enum_of_string labels name s = Some a -> In s (map name labels).
Proof.
  intros E. apply enum_of_string_name in E. destruct E as [Hin ->].
  apply in_map, Hin.
Qed.

(** [update] changes neither the confidence nor the number of rows,
    when the change leaves the confidence alone. *)
Lemma update_keeps (P : t -> Prop) (st : Store) (i : Id) (changes : t -> t) :
  (forall s, P s -> P (changes s)) ->
  Forall P st -> Forall P (update st i changes).
Proof.
  intros Hc H. unfold update. induction H as [|s st Hs _ IH]; simpl.
  - constructor.
  - constructor; [|exact IH]. destruct (Nat.eqb (id s) i); auto.
Qed.

End Validation.

(** C9, as stated, fails: [create] accepts a confidence that is [NaN],
    which passes both validators, and stores the row; its confidence is
    not between 0 and 100. *)
Lemma create_accepts_NaN :
  exists s,
    create threeOpinions (submitted "buy" "CYBER_METRICS" nan)
    = (threeOpinions ++ [s], inr s)
    /\ In s (fst (create threeOpinions (submitted "buy" "CYBER_METRICS" nan)))
    /\ is_nan (confidence s) = true
    /\ (0 <=? confidence s)%float = false
    /\ (confidence s <=? 100)%float = false.
Proof.
  eexists. split; [vm_compute; reflexivity|].
  split; [|vm_compute; auto].
  vm_compute. auto 6.
Qed.

(** C9, amended: a signal that [create] accepts has a confidence that
    passed the validators of the model, that is a number between 0 and
    100 or [NaN], and its action, source and status are among the labels
    of the model; the check is made by [create], before the row is
    inserted, and the row holds the confidence with two decimals, again
    between 0 and 100 or [NaN].  A confidence below 0 or above 100, an
    action or a source that is not among the labels, is rejected and
    leaves the table as it was.  So every row of a table filled by
    [create], and touched by the two [executeTrade] methods, keeps a
    confidence that passes the validators. *)
Theorem create_enforces_model (st : Store) (a : Attributes) :
  Forall (fun s => validate_confidence (confidence s) = true) st ->
  (forall st' s,
     create st a = (st', inr s) ->
     st' = st ++ [s]
     /\ (is_nan (a_confidence a) = true
         \/ ((0 <=? a_confidence a)%float = true
             /\ (a_confidence a <=? 100)%float = true))
     /\ confidence s = DECIMAL_5_2 (a_confidence a)
     /\ is_nan (confidence s) = is_nan (a_confidence a)
     /\ (is_nan (confidence s) = true
         \/ ((0 <=? confidence s)%float = true
             /\ (confidence s <=? 100)%float = true))
     /\ a_action a = Action_to_string (action s)
     /\ In (a_action a) ["buy"; "sell"; "hold"]
     /\ a_source a = Source_to_string (source s)
     /\ In (a_source a)
          ["CYBER_METRICS"; "TWITTER_MONITOR"; "DEEPSEEK_AI"; "GROK_ENGINE"]
     /\ In (Status_to_string (status s))
          ["pending"; "executed"; "expired"; "cancelled"])
  /\ (forall st' e, create st a = (st', inl e) -> st' = st)
  /\ ((a_confidence a <? 0)%float = true \/ (100 <? a_confidence a)%float = true ->
      exists e, create st a = (st, inl e))
  /\ (~ In (a_action a) ["buy"; "sell"; "hold"] ->
      exists e, create st a = (st, inl e))
  /\ (~ In (a_source a)
          ["CYBER_METRICS"; "TWITTER_MONITOR"; "DEEPSEEK_AI"; "GROK_ENGINE"] ->
      exists e, create st a = (st, inl e))
  /\ Forall (fun s => validate_confidence (confidence s) = true) (fst (create st a))
  /\ (forall now i,
        Forall (fun s => validate_confidence (confidence s) = true)
          (fst (GrokEngine.executeTrade now st i))
        /\ Forall (fun s => validate_confidence (confidence s) = true)
             (fst (CyberMetrics.executeTrade now st i))).
Proof.
  intros Hst.
  assert (Hrej : forall st' e, create st a = (st', inl e) -> st' = st)
    by (intros st' e; apply create_rejected).
  split; [|split; [exact Hrej|split; [|split; [|split; [|split]]]]].
  - intros st' s E.
    pose proof (create_accepted_valid _ _ _ _ E) as Hg.
    destruct (create_accepted _ _ _ _ E) as (-> & _ & _ & Ha & Hs & Hsta & Hc & _ & Hv).
    destruct (DECIMAL_5_2_valid _ Hg) as [_ Hn]. rewrite <- Hc in Hn.
    apply validate_confidence_spec in Hv. apply validate_confidence_spec in Hg.
    repeat split; auto.
    + apply Action_of_string_inv, Ha.
    + apply (known_label _ _ _ _ Ha).
    + apply Source_of_string_inv, Hs.
    + apply (known_label _ _ _ _ Hs).
    + destruct (status s); simpl; auto.
  - intros Hout. apply out_of_range_rejected in Hout.
    unfold create. rewrite Hout.
    destruct (Action_of_string (a_action a)); [|eauto].
    destruct (Source_of_string (a_source a)); [|eauto].
    destruct (match a_status a with
              | Some s => Status_of_string s
              | None => Some pending
              end); eauto.
  - intros Hun. unfold create, Action_of_string.
    rewrite (unknown_label [buy; sell; hold] Action_to_string _ Hun). eauto.
  - intros Hun. unfold create.
    replace (Source_of_string (a_source a)) with (@None Source)
      by (symmetry;
          apply (unknown_label
                   [CYBER_METRICS; TWITTER_MONITOR; DEEPSEEK_AI; GROK_ENGINE]
                   Source_to_string _ Hun)).
    destruct (Action_of_string (a_action a)); eauto.
  - destruct (create st a) as [st' [e|s]] eqn:E; simpl.
    + rewrite (create_rejected _ _ _ _ E). exact Hst.
    + destruct (create_accepted _ _ _ _ E) as (-> & _ & _ & _ & _ & _ & _ & _ & Hv).
      apply Forall_app. split; [exact Hst|]. constructor; [exact Hv|constructor].
  - intros now i. split.
    + unfold GrokEngine.executeTrade.
      destruct (findByPk st i) as [signal|]; [|exact Hst].
      destruct (negb (Source_eqb (source signal) GROK_ENGINE)); [exact Hst|].
      destruct (negb (Status_eqb (status signal) pending)); [exact Hst|].
      destruct (confidence signal <? 75)%float; simpl;
        apply update_keeps; auto.
    + unfold CyberMetrics.executeTrade.
      destruct (findByPk st i) as [signal|]; [|exact Hst].
      destruct (negb (Status_eqb (status signal) pending)); [exact Hst|].
      simpl. apply update_keeps; auto.
Qed.

Lemma create_enforces_model_witness :
  Forall (fun s => validate_confidence (confidence s) = true) threeOpinions
  /\ (exists e, create threeOpinions (submitted "buy" "CYBER_METRICS" 100.5)
                = (threeOpinions, inl e))
  /\ (exists e, create threeOpinions (submitted "short" "CYBER_METRICS" 50)
                = (threeOpinions, inl e))
  /\ Forall (fun s => validate_confidence (confidence s) = true)
       (fst (create threeOpinions (submitted "buy" "CYBER_METRICS" 50)))
  /\ (forall st' s,
        create threeOpinions (submitted "buy" "CYBER_METRICS" 74.996)
        = (st', inr s) -> confidence s = 75%float).
Proof.
  assert (H : Forall (fun s => validate_confidence (confidence s) = true)
                threeOpinions) by (repeat constructor).
  split; [exact H|].
  split; [|split; [|split]].
  - destruct (create_enforces_model threeOpinions
                (submitted "buy" "CYBER_METRICS" 100.5) H) as (_ & _ & R & _).
    apply R. right. reflexivity.
  - destruct (create_enforces_model threeOpinions
                (submitted "short" "CYBER_METRICS" 50) H) as (_ & _ & _ & R & _).
    apply R. simpl. intros [E | [E | [E | []]]]; discriminate E.
  - apply (create_enforces_model threeOpinions
             (submitted "buy" "CYBER_METRICS" 50) H).
  - intros st' s E.
    destruct (create_enforces_model threeOpinions
                (submitted "buy" "CYBER_METRICS" 74.996) H) as (R & _).
    destruct (R st' s E) as (_ & _ & -> & _).
    vm_compute. reflexivity.
Defined.

(** ** TWITTER_MONITOR: the signals of [analyzeTweets] *)

Section Sentiment.

Import TwitterMonitorModule.
Local Open Scope float_scope.

Lemma sentimentAction_decided (avg : number) :
  sentimentAction avg <> hold -> is_nan avg = false.
Proof.
  unfold sentimentAction. intros H.
  destruct (0.3 <? avg) eqn:E1.
  - apply (ltb_not_nan _ _ E1).
  - destruct (avg <? - 0.3) eqn:E2; [|congruence].
    apply (ltb_not_nan _ _ E2).
Qed.

(** Capped at 95. *)
Lemma Math_min_cap (c : number) :
  is_nan c = false -> (Math_min c 95 <=? 95) = true.
Proof.
  intros Hc. unfold Math_min. rewrite Hc. simpl.
  destruct (c <? 95) eqn:E1; [apply ltb_leb, E1|].
  destruct (95 <? c) eqn:E2; [reflexivity|].
  destruct (classify c); try reflexivity.
  apply not_ltb_leb; auto.
Qed.

Lemma confidence_capped (avg : number) :
  sentimentAction avg <> hold ->
  (Math_min (Math_abs avg * 100) 95 <=? 95) = true.
Proof.
  intros H. apply Math_min_cap, mul_100_not_nan, abs_not_nan,
              sentimentAction_decided, H.
Qed.

Lemma generate_cons (now : Z) (st : Store) (symbol : string) (l : list Tweet)
    (rest : list (string * list Tweet)) (signals : list t) :
  generate now st ((symbol, l) :: rest) signals
  = if (3 <=? List.length l)%nat then
      match sentimentAction (avgSentiment l) with
      | hold => generate now st rest signals
      | _ =>
          match create st (signalAttributes now symbol l) with
          | (st', inr signal) => generate now st' rest (signals ++ [signal])
          | (st', inl e) => (st', inl e)
          end
      end
    else generate now st rest signals.
Proof. reflexivity. Qed.

Lemma generate_created (now : Z) (entries : list (string * list Tweet)) :
  forall (st : Store) (signals : list t),
  exists created,
    fst (generate now st entries signals) = st ++ created
    /\ Forall sentimentSignal created
    /\ forall result,
         snd (generate now st entries signals) = inr result ->
         result = signals ++ created.
Proof.
  induction entries as [|[symbol l] rest IH]; intros st signals;
    [simpl|rewrite generate_cons].
  - exists []. rewrite !app_nil_r. repeat split; [constructor|].
    intros result [= <-]. reflexivity.
  - assert (Skip : exists created,
               fst (generate now st rest signals) = st ++ created
               /\ Forall sentimentSignal created
               /\ forall result,
                    snd (generate now st rest signals) = inr result ->
                    result = signals ++ created) by apply IH.
    destruct (3 <=? List.length l)%nat; [|exact Skip].
    destruct (sentimentAction (avgSentiment l)) eqn:A; [| |exact Skip].
    all: destruct (create st (signalAttributes now symbol l))
           as [st' [e|signal]] eqn:C; simpl.
    all: try (exists []; rewrite app_nil_r;
              rewrite (create_rejected _ _ _ _ C);
              repeat split; [constructor|discriminate]).
    all: destruct (create_accepted _ _ _ _ C)
           as (-> & _ & _ & Ha & Hs & Hsta & Hc & _ & _).
    all: destruct (IH (st ++ [signal]) (signals ++ [signal]))
           as (created & E1 & E2 & E3).
    all: exists (signal :: created).
    all: rewrite E1, <- app_assoc; simpl.
    all: split; [reflexivity|]. 
    all: split; [|intros result R; rewrite (E3 result R), <- app_assoc;
                  reflexivity].
    all: constructor; [|exact E2].
    all: simpl in Ha, Hs, Hsta, Hc; rewrite A in Ha.
    all: injection Ha as Ha; injection Hs as Hs; injection Hsta as Hsta.
    all: unfold sentimentSignal; rewrite <- Ha, <- Hs, <- Hsta, Hc.
    all: repeat split; auto.
    all: apply DECIMAL_5_2_cap, confidence_capped; rewrite A; discriminate.
Qed.

End Sentiment.

(** C10: every signal that [analyzeTweets] creates is a TWITTER_MONITOR
    signal whose action is buy or sell, never hold, and whose confidence
    is at most 95: what the call adds to the table consists of such
    signals only, and they are the signals it returns. *)
Theorem analyzeTweets_signals (now : Z) (st : Store)
    (tweets : list TwitterMonitorModule.Tweet) :
  exists created,
    fst (TwitterMonitorModule.analyzeTweets now st tweets) = st ++ created
    /\ Forall (fun s => source s = TWITTER_MONITOR
                        /\ (action s = buy \/ action s = sell)
                        /\ action s <> hold
                        /\ (confidence s <=? 95)%float = true) created
    /\ forall signals,
         snd (TwitterMonitorModule.analyzeTweets now st tweets) = inr signals ->
         signals = created.
Proof.
  unfold TwitterMonitorModule.analyzeTweets.
  destruct (TwitterMonitorModule.groupBySymbol tweets) as [e|symbolTweets].
  { exists []. rewrite app_nil_r. simpl.
    split; [reflexivity|]. split; [constructor|discriminate]. }
  destruct (generate_created now
              (TwitterMonitorModule.Object_entries symbolTweets) st [])
    as (created & E1 & E2 & E3).
  assert (F : Forall (fun s => source s = TWITTER_MONITOR
                               /\ (action s = buy \/ action s = sell)
                               /\ action s <> hold
                               /\ (confidence s <=? 95)%float = true) created).
  { eapply Forall_impl; [|exact E2].
    intros s (Hs & _ & Ha & Hc). repeat split; auto.
    destruct Ha as [-> | ->]; discriminate. }
  exists created.
  destruct (TwitterMonitorModule.generate now st
              (TwitterMonitorModule.Object_entries symbolTweets) [])
    as [st' [e|result]]; simpl in *.
  - split; [exact E1|]. split; [exact F|]. discriminate.
  - split; [exact E1|]. split; [exact F|].
    intros signals [= <-]. apply (E3 result eq_refl).
Qed.

Example analyzeTweets_bullish :
  exists signal,
    TwitterMonitorModule.analyzeTweets 0 [] bullishTweets
    = ([signal], inr [signal])
    /\ TradingSignal.symbol signal = "BTC"
    /\ action signal = buy
    /\ confidence signal = 95%float.
Proof. eexists. split; [vm_compute; reflexivity|]. repeat split. Qed.

(** ** HIVE_MATRIX: the trade lane *)

Section Queue.

Import HiveMatrix.

Lemma handle_counted (e : Event) (j j' : Job) (d : nat) :
  counted j d ->
  handle e j = Some j' ->
  counted j' (d + deliveries [e]) /\ maxAttempts j' = maxAttempts j.
Proof.
  unfold counted, handle. intros C H.
  destruct e as [|[|]], (state j); try discriminate H.
  - injection H as <-. simpl. split; [lia|reflexivity].
  - injection H as <-. simpl. split; [lia|reflexivity].
  - destruct (S (attempt j) <? maxAttempts j)%nat eqn:L;
      injection H as <-; simpl; (split; [|reflexivity]).
    + apply Nat.ltb_lt in L. lia.
    + apply Nat.ltb_ge in L. lia.
Qed.

Lemma deliveries_app (xs ys : list Event) :
  deliveries (xs ++ ys) = deliveries xs + deliveries ys.
Proof.
  induction xs as [|[|o] xs IH]; simpl; lia.
Qed.

(** The invariant holds along every history. *)
Lemma run_counted (events : list Event) :
  forall (j j' : Job) (d : nat),
  counted j d ->
  run events j = Some j' ->
  counted j' (d + deliveries events) /\ maxAttempts j' = maxAttempts j.
Proof.
  induction events as [|e events IH]; intros j j' d C H; simpl in H.
  - injection H as <-. simpl. rewrite Nat.add_0_r. auto.
  - destruct (handle e j) as [j1|] eqn:E; [|discriminate].
    destruct (handle_counted e j j1 d C E) as [C1 M1].
    destruct (IH j1 j' _ C1 H) as [C2 M2].
    change (e :: events) with ([e] ++ events).
    rewrite deliveries_app, Nat.add_assoc. split; [exact C2|congruence].
Qed.

Lemma counted_bound (j : Job) (d : nat) :
  counted j d -> attempt j <= maxAttempts j /\ d <= maxAttempts j.
Proof.
  unfold counted. destruct (state j); lia.
Qed.

(** A job that succeeded or is exhausted takes no event. *)
Lemma terminal_immutable (e : Event) (j : Job) :
  state j = succeeded \/ state j = exhausted -> handle e j = None.
Proof.
  unfold handle. intros [-> | ->]; destruct e as [|[|]]; reflexivity.
Qed.

End Queue.

(** C8: [queueTrade] admits every trade job on the trade lane with
    priority 1, [maxAttempts = 3] and exponential backoff (base delay
    1000), queued with no attempt made.  Along every history of such a
    job [attempt <= maxAttempts] holds and the job is delivered at most 3
    times; if it fails each time it goes queued (attempt 1), queued
    (attempt 2), exhausted, after which no event applies to it. *)
Theorem queueTrade_bounded_retries (tradeQueue : option (list HiveMatrix.Job))
    (tradeData : JsObject) :
  exists job,
    fst (HiveMatrix.queueTrade tradeQueue tradeData)
    = match tradeQueue with Some q => q | None => [] end ++ [job]
    /\ HiveMatrix.queuedJobId (snd (HiveMatrix.queueTrade tradeQueue tradeData))
       = HiveMatrix.jobId job
    /\ HiveMatrix.lane job = HiveMatrix.trade
    /\ HiveMatrix.payload job = tradeData
    /\ HiveMatrix.jobPriority job = 1%Z
    /\ HiveMatrix.maxAttempts job = 3
    /\ HiveMatrix.backoffPolicy job
       = {| HiveMatrix.type := HiveMatrix.exponential; HiveMatrix.delay := 1000 |}
    /\ HiveMatrix.attempt job = 0
    /\ HiveMatrix.state job = HiveMatrix.queued
    /\ (forall events j,
          HiveMatrix.run events job = Some j ->
          HiveMatrix.attempt j <= HiveMatrix.maxAttempts j
          /\ HiveMatrix.maxAttempts j = 3
          /\ HiveMatrix.deliveries events <= 3)
    /\ HiveMatrix.failing 3 job
       = [(HiveMatrix.queued, 1); (HiveMatrix.queued, 2); (HiveMatrix.exhausted, 3)]
    /\ (forall n, List.length (HiveMatrix.failing n job) <= 3)
    /\ (forall j e,
          HiveMatrix.run
            [HiveMatrix.Deliver; HiveMatrix.Report HiveMatrix.failure;
             HiveMatrix.Deliver; HiveMatrix.Report HiveMatrix.failure;
             HiveMatrix.Deliver; HiveMatrix.Report HiveMatrix.failure] job
          = Some j ->
          HiveMatrix.state j = HiveMatrix.exhausted
          /\ HiveMatrix.handle e j = None).
Proof.
  unfold HiveMatrix.queueTrade, HiveMatrix.add. simpl.
  eexists. split; [reflexivity|]. simpl.
  do 8 (split; [reflexivity|]).
  split; [|split; [reflexivity|split]].
  - intros events j H.
    apply (run_counted events _ j 0) in H; [|unfold counted; simpl; lia].
    destruct H as [C M]. simpl in M.
    apply counted_bound in C. rewrite M in C. simpl. lia.
  - intros [|[|[|[|n]]]]; simpl; lia.
  - intros j e [= <-]. split; [reflexivity|].
    apply terminal_immutable. right. reflexivity.
Qed.

(** * Further properties *)

(** ** The table: [create], [findByPk], [update] *)

Section Table.

Lemma update_ids (st : Store) (i : Id) (changes : t -> t) :
  (forall x, id (changes x) = id x) ->
  map id (update st i changes) = map id st.
Proof.
  intros Hid. unfold update. induction st as [|x st IH]; simpl; [reflexivity|].
  rewrite IH. destruct (Nat.eqb (id x) i); [rewrite Hid|]; reflexivity.
Qed.

Lemma findByPk_update_other (st : Store) (i j : Id) (changes : t -> t) :
  (forall x, id (changes x) = id x) ->
  j <> i ->
  findByPk (update st i changes) j = findByPk st j.
Proof.
  intros Hid Hne. unfold findByPk, update.
  induction st as [|x st IH]; simpl; [reflexivity|].
  destruct (Nat.eqb (id x) i) eqn:E.
  - apply Nat.eqb_eq in E. rewrite Hid.
    destruct (Nat.eqb (id x) j) eqn:F; [|exact IH].
    apply Nat.eqb_eq in F. congruence.
  - destruct (Nat.eqb (id x) j); [reflexivity|exact IH].
Qed.

Lemma update_opinions (st : Store) (i : Id) (changes : t -> t) :
  (forall x, opinionOf (changes x) = opinionOf x) ->
  map opinionOf (update st i changes) = map opinionOf st.
Proof.
  intros Hop. unfold update. induction st as [|x st IH]; simpl; [reflexivity|].
  rewrite IH. destruct (Nat.eqb (id x) i); [rewrite Hop|]; reflexivity.
Qed.

Lemma fresh_not_in (st : Store) : ~ In (fresh st) (map id st).
Proof.
  intros Hin. apply in_map_iff in Hin. destruct Hin as (s & Hs & Hin).
  pose proof (fresh_not_found st) as F. unfold findByPk in F.
  apply (find_none _ _ F) in Hin. apply Nat.eqb_neq in Hin. congruence.
Qed.

End Table.

(** X1: a signal that [create] accepts can be read back under its key,
    which was not in use; every other key reads as before; the table grows
    by one row and its keys stay pairwise distinct. *)
Theorem create_findByPk (st st' : Store) (a : Attributes) (s : t) :
  NoDup (map id st) ->
  create st a = (st', inr s) ->
  findByPk st' (id s) = Some s
  /\ findByPk st (id s) = None
  /\ (forall i, i <> id s -> findByPk st' i = findByPk st i)
  /\ NoDup (map id st')
  /\ List.length st' = S (List.length st).
Proof.
  intros Hnd H.
  destruct (create_accepted _ _ _ _ H) as (-> & Hid & _).
  rewrite Hid. repeat split.
  - rewrite findByPk_app, fresh_not_found. simpl.
    rewrite Hid, Nat.eqb_refl. reflexivity.
  - apply fresh_not_found.
  - intros i Hi. rewrite findByPk_app.
    destruct (findByPk st i); [reflexivity|]. simpl.
    rewrite Hid. destruct (Nat.eqb (fresh st) i) eqn:E; [|reflexivity].
    apply Nat.eqb_eq in E. congruence.
  - rewrite map_app. simpl. rewrite Hid.
    apply NoDup_app; [exact Hnd|repeat constructor; auto|].
    intros x Hx [<- | []]. apply (fresh_not_in st Hx).
  - rewrite length_app. simpl. lia.
Qed.

Lemma create_findByPk_witness :
  NoDup (map id threeOpinions)
  /\ (exists s,
        create threeOpinions (submitted "buy" "CYBER_METRICS" 50)
        = (threeOpinions ++ [s], inr s)
        /\ findByPk (threeOpinions ++ [s]) (id s) = Some s).
Proof.
  assert (H : NoDup (map id threeOpinions)).
  { repeat constructor; simpl; intuition discriminate. }
  split; [exact H|].
  eexists. split; [reflexivity|].
  eapply (create_findByPk threeOpinions _ (submitted "buy" "CYBER_METRICS" 50) _ H).
  reflexivity.
Defined.

(** ** [executeTrade]: errors, frame, composition *)

(** X3: whatever [GrokEngine.executeTrade] does, the table keeps its
    rows, in their order and under their keys; the opinion of every signal
    (symbol, action, confidence, price, source, expiry) is untouched; and
    every key other than the one given reads as before. *)
Theorem executeTrade_frame (now : Z) (st : Store) (signalId : Id) :
  map opinionOf (fst (GrokEngine.executeTrade now st signalId)) = map opinionOf st
  /\ List.length (fst (GrokEngine.executeTrade now st signalId)) = List.length st
  /\ forall i, i <> signalId ->
               findByPk (fst (GrokEngine.executeTrade now st signalId)) i
               = findByPk st i.
Proof.
  assert (G : fst (GrokEngine.executeTrade now st signalId) = st
              \/ fst (GrokEngine.executeTrade now st signalId)
                 = update st signalId GrokEngine.cancel
              \/ fst (GrokEngine.executeTrade now st signalId)
                 = update st signalId (set_status executed)).
  { unfold GrokEngine.executeTrade.
    destruct (findByPk st signalId) as [signal|] eqn:F; [|left; reflexivity].
    rewrite (findByPk_id _ _ _ F).
    destruct (negb (Source_eqb (source signal) GROK_ENGINE)); [left; reflexivity|].
    destruct (negb (Status_eqb (status signal) pending)); [left; reflexivity|].
    destruct (confidence signal <? 75)%float; simpl; auto. }
  destruct G as [-> | [-> | ->]].
  - repeat split.
  - split; [apply update_opinions; reflexivity|].
    split; [unfold update; apply length_map|].
    intros i Hi. apply findByPk_update_other; [reflexivity|exact Hi].
  - split; [apply update_opinions; reflexivity|].
    split; [unfold update; apply length_map|].
    intros i Hi. apply findByPk_update_other; [reflexivity|exact Hi].
Qed.

(** X4: a signal is dispatched once.  After [GrokEngine.executeTrade] has
    answered, with an execution or with a cancellation, the signal is no
    longer pending, and a second call of either [executeTrade] on it
    fails with "Signal is already ..." and changes nothing. *)
Theorem executeTrade_once (now now' : Z) (st st' : Store) (signalId : Id)
    (r : GrokEngine.Execution) :
  GrokEngine.executeTrade now st signalId = (st', inr r) ->
  exists signal',
    findByPk st' signalId = Some signal'
    /\ status signal'
       = match r with GrokEngine.TooLow => cancelled | _ => executed end
    /\ GrokEngine.executeTrade now' st' signalId
       = (st', inl (InvalidTransition (status signal')))
    /\ CyberMetrics.executeTrade now' st' signalId
       = (st', inl (InvalidTransition (status signal'))).
Proof.
  unfold GrokEngine.executeTrade at 1.
  destruct (findByPk st signalId) as [signal|] eqn:F; [|discriminate].
  rewrite (findByPk_id _ _ _ F).
  destruct (negb (Source_eqb (source signal) GROK_ENGINE)) eqn:S; [discriminate|].
  destruct (negb (Status_eqb (status signal) pending)); [discriminate|].
  apply negb_false_iff, Source_eqb_eq in S.
  destruct (confidence signal <? 75)%float; simpl; intros [= <- <-].
  - exists (GrokEngine.cancel signal).
    assert (F' : findByPk (update st signalId GrokEngine.cancel) signalId
                 = Some (GrokEngine.cancel signal))
      by (apply findByPk_update; [reflexivity|exact F]).
    split; [exact F'|]. split; [reflexivity|].
    rewrite (grok_refuses now' _ signalId _ F') by discriminate.
    rewrite (cyber_refuses now' _ signalId _ F') by discriminate.
    simpl. rewrite S. split; reflexivity.
  - exists (set_status executed signal).
    assert (F' : findByPk (update st signalId (set_status executed)) signalId
                 = Some (set_status executed signal))
      by (apply findByPk_update; [reflexivity|exact F]).
    split; [exact F'|]. split; [reflexivity|].
    rewrite (grok_refuses now' _ signalId _ F') by discriminate.
    rewrite (cyber_refuses now' _ signalId _ F') by discriminate.
    simpl. rewrite S. split; reflexivity.
Qed.

Lemma executeTrade_once_witness :
  GrokEngine.executeTrade 0 [hesitantSignal] 1
  = ([GrokEngine.cancel hesitantSignal], inr GrokEngine.TooLow)
  /\ exists signal',
       findByPk [GrokEngine.cancel hesitantSignal] 1 = Some signal'
       /\ status signal' = cancelled
       /\ GrokEngine.executeTrade 5 [GrokEngine.cancel hesitantSignal] 1
          = ([GrokEngine.cancel hesitantSignal],
             inl (InvalidTransition (status signal')))
       /\ CyberMetrics.executeTrade 5 [GrokEngine.cancel hesitantSignal] 1
          = ([GrokEngine.cancel hesitantSignal],
             inl (InvalidTransition (status signal'))).
Proof.
  assert (H : GrokEngine.executeTrade 0 [hesitantSignal] 1
              = ([GrokEngine.cancel hesitantSignal], inr GrokEngine.TooLow))
    by reflexivity.
  split; [exact H|].
  exact (executeTrade_once 0 5 _ _ 1 _ H).
Defined.

(** X5: [CyberMetrics.executeTrade] executes every pending signal,
    whatever its source and its confidence: also a Grok Engine signal
    below 75, which [GrokEngine.executeTrade] cancels instead. *)
Theorem cyber_executeTrade_ungated (now : Z) (st : Store) (signalId : Id)
    (signal : t) :
  findByPk st signalId = Some signal ->
  status signal = pending ->
  CyberMetrics.executeTrade now st signalId
  = (update st signalId (set_status executed),
     inr {| CyberMetrics.signalId := signalId;
            CyberMetrics.action := action signal;
            CyberMetrics.symbol := symbol signal;
            CyberMetrics.price := price signal;
            CyberMetrics.executedAt := now |})
  /\ findByPk (fst (CyberMetrics.executeTrade now st signalId)) signalId
     = Some (set_status executed signal)
  /\ (source signal = GROK_ENGINE ->
      (confidence signal <? 75)%float = true ->
      findByPk (fst (GrokEngine.executeTrade now st signalId)) signalId
      = Some (GrokEngine.cancel signal)).
Proof.
  intros F Hsta.
  assert (E : CyberMetrics.executeTrade now st signalId
              = (update st signalId (set_status executed),
                 inr {| CyberMetrics.signalId := signalId;
                        CyberMetrics.action := action signal;
                        CyberMetrics.symbol := symbol signal;
                        CyberMetrics.price := price signal;
                        CyberMetrics.executedAt := now |})).
  { unfold CyberMetrics.executeTrade.
    rewrite F, Hsta, (findByPk_id _ _ _ F). reflexivity. }
  rewrite E. simpl. split; [reflexivity|]. split.
  - apply findByPk_update; [reflexivity|exact F].
  - intros Hsrc Hlow.
    rewrite (grok_dispatch now st signalId signal F Hsrc Hsta), Hlow. simpl.
    apply findByPk_update; [reflexivity|exact F].
Qed.

Lemma cyber_executeTrade_ungated_witness :
  findByPk [hesitantSignal] 1 = Some hesitantSignal
  /\ status hesitantSignal = pending
  /\ findByPk (fst (CyberMetrics.executeTrade 0 [hesitantSignal] 1)) 1
     = Some (set_status executed hesitantSignal)
  /\ findByPk (fst (GrokEngine.executeTrade 0 [hesitantSignal] 1)) 1
     = Some (GrokEngine.cancel hesitantSignal).
Proof.
  assert (H : findByPk [hesitantSignal] 1 = Some hesitantSignal) by reflexivity.
  split; [exact H|]. split; [reflexivity|].
  destruct (cyber_executeTrade_ungated 0 _ 1 _ H eq_refl) as (_ & E1 & E2).
  split; [exact E1|]. apply E2; reflexivity.
Defined.

(** ** [analyzeMarket]: the collected signals *)

Section Collected.

(** [twitterSignals.find(...)] answers the first signal that matches. *)
Lemma find_first {A : Type} (f : A -> bool) (l : list A) (x : A) :
  find f l = Some x ->
  exists before after,
    l = before ++ x :: after /\ f x = true
    /\ Forall (fun y => f y = false) before.
Proof.
  induction l as [|y l IH]; simpl; [discriminate|].
  destruct (f y) eqn:E.
  - intros [= <-]. exists [], l. repeat split; [exact E|constructor].
  - intros H. destruct (IH H) as (before & after & -> & Hx & Hb).
    exists (y :: before), after. repeat split; [exact Hx|].
    constructor; assumption.
Qed.

Lemma find_nowhere {A : Type} (f : A -> bool) (l : list A) :
  find f l = None -> Forall (fun y => f y = false) l.
Proof.
  intros H. apply Forall_forall. intros y Hy. apply (find_none f l H y Hy).
Qed.

End Collected.

(** X6: the signals are collected one per source and in this order: the
    CYBER_METRICS answer, when there is one; then the first of the
    Twitter signals that is for the symbol, and no other; then the signal
    that the table holds under the key of the pattern analysis, when
    there is one.  So at most three signals are collected, and a decision
    counts between one and three source signals. *)
Theorem collectSignals_sources (st : Store) (symbol : string)
    (cyber : option t) (twitter : list t) (pattern : option Id) :
  (exists fromCyber fromTwitter fromPattern,
     GrokEngine.collectSignals st symbol cyber twitter pattern
     = fromCyber ++ fromTwitter ++ fromPattern
     /\ match cyber with
        | Some s => fromCyber = [s]
        | None => fromCyber = []
        end
     /\ ((fromTwitter = []
          /\ Forall (fun s => TradingSignal.symbol s <> symbol) twitter)
         \/ (exists s before after,
               fromTwitter = [s]
               /\ twitter = before ++ s :: after
               /\ TradingSignal.symbol s = symbol
               /\ Forall (fun x => TradingSignal.symbol x <> symbol) before))
     /\ match pattern with
        | Some i =>
            match findByPk st i with
            | Some s => fromPattern = [s] /\ In s st /\ id s = i
            | None => fromPattern = []
            end
        | None => fromPattern = []
        end)
  /\ List.length (GrokEngine.collectSignals st symbol cyber twitter pattern) <= 3
  /\ (forall now st' a c i n,
        GrokEngine.analyzeMarket now st symbol cyber twitter pattern
        = (st', inr (GrokEngine.Decision a c i n)) ->
        1 <= n <= 3).
Proof.
  assert (L : List.length (GrokEngine.collectSignals st symbol cyber twitter pattern)
              <= 3).
  { unfold GrokEngine.collectSignals.
    destruct cyber, (find _ twitter), pattern as [i|];
      try destruct (findByPk st i); simpl; lia. }
  split; [|split; [exact L|]].
  - unfold GrokEngine.collectSignals.
    exists (GrokEngine.to_list cyber),
      (GrokEngine.to_list
         (find (fun signal => String.eqb (TradingSignal.symbol signal) symbol)
            twitter)),
      (match pattern with
       | Some i => GrokEngine.to_list (findByPk st i)
       | None => []
       end).
    split; [reflexivity|]. split; [destruct cyber; reflexivity|]. split.
    + destruct (find _ twitter) as [s|] eqn:F.
      * right. destruct (find_first _ _ _ F) as (before & after & E & Hs & Hb).
        exists s, before, after. split; [reflexivity|]. split; [exact E|].
        split; [apply String.eqb_eq, Hs|].
        apply Forall_impl with (2 := Hb). intros x. apply String.eqb_neq.
      * left. split; [reflexivity|].
        apply Forall_impl with (2 := find_nowhere _ _ F).
        intros x. apply String.eqb_neq.
    + destruct pattern as [i|]; [|reflexivity].
      destruct (findByPk st i) as [s|] eqn:F; [|reflexivity].
      unfold findByPk in F. apply find_some in F. destruct F as [Hin Hid].
      split; [reflexivity|]. split; [exact Hin|]. apply Nat.eqb_eq, Hid.
  - intros now st' a c i n H.
    pose proof (analyzeMarket_decision _ _ _ _ _ _ _ _ _ _ _ H) as D.
    simpl in D. destruct D as (_ & _ & ->).
    split; [|exact L].
    unfold GrokEngine.analyzeMarket in H.
    destruct (GrokEngine.collectSignals st symbol cyber twitter pattern);
      [discriminate H|simpl; lia].
Qed.

(** ** The weighted decision: signs *)

Section Signs.

Import GrokEngine.
Local Open Scope float_scope.

(** Rounding keeps the sign. *)
Lemma binary_round_aux_snneg (m e : Z) (l : location) :
  (0 <= m)%Z -> snneg (binary_round_aux prec emax false m e l) = true.
Proof.
  intros H. unfold binary_round_aux.
  pose proof (shr_fexp_nonneg m e l H) as H1.
  destruct (shr_fexp prec emax m e l) as [mrs' e']. simpl in H1.
  pose proof (shr_fexp_nonneg _ e' loc_Exact
                (round_nearest_even_nonneg _ (loc_of_shr_record mrs') H1)) as H2.
  destruct (shr_fexp prec emax _ e' loc_Exact) as [mrs'' e'']. simpl in H2.
  destruct (shr_m mrs'') as [|p|p]; try reflexivity; try lia.
  destruct (e'' <=? emax - prec)%Z; reflexivity.
Qed.

Lemma snneg_nneg (x : spec_float) : snneg x = true -> nneg x = true.
Proof. destruct x as [[]|[]| |[] m e]; simpl; congruence. Qed.

Lemma leb_zero_nneg (c : float) : (0 <=? c) = true -> nneg (Prim2SF c) = true.
Proof.
  rewrite FloatAxioms.leb_spec.
  replace (Prim2SF 0) with (S754_zero false) by (vm_compute; reflexivity).
  unfold SFleb.
  destruct (Prim2SF c) as [[]|[]| |[] m e]; simpl; congruence.
Qed.

Lemma ltb_zero_pos (c : float) :
  (0 <? c) = true ->
  exists m e, Prim2SF c = S754_infinity false \/ Prim2SF c = S754_finite false m e.
Proof.
  rewrite FloatAxioms.ltb_spec.
  replace (Prim2SF 0) with (S754_zero false) by (vm_compute; reflexivity).
  unfold SFltb.
  destruct (Prim2SF c) as [[]|[]| |[] m e]; simpl; try discriminate; intros _.
  - exists 1%positive, 0%Z. auto.
  - exists m, e. auto.
Qed.

(** The quotient of two positive mantissas is not negative. *)
Lemma SFdiv_core_nonneg (mx my : positive) (ex ey : Z) :
  (0 <= fst (fst (SFdiv_core_binary prec emax (Z.pos mx) ex (Z.pos my) ey)))%Z.
Proof.
  unfold SFdiv_core_binary.
  match goal with
  | |- context [Z.div_eucl ?a ?b] =>
      pose proof (Z.div_pos a b) as P; unfold Z.div in P;
      destruct (Z.div_eucl a b) as [q r]
  end.
  simpl. apply P; [|lia].
  match goal with
  | |- (0 <= match ?d with _ => _ end)%Z => destruct d
  end; try lia.
  apply Z.shiftl_nonneg. lia.
Qed.

Lemma SFdiv_finite_snneg (mx my : positive) (ex ey : Z) :
  snneg (SF64div (S754_finite false mx ex) (S754_finite false my ey)) = true.
Proof.
  unfold SF64div, SFdiv.
  pose proof (SFdiv_core_nonneg mx my ex ey) as P.
  destruct (SFdiv_core_binary prec emax (Z.pos mx) ex (Z.pos my) ey)
    as [[mz ez] lz].
  apply binary_round_aux_snneg, P.
Qed.

Lemma SFdiv_snneg (x y : spec_float) :
  snneg x = true -> snneg y = true ->
  SF64div x y = S754_nan \/ snneg (SF64div x y) = true.
Proof.
  destruct x as [[]|[]| |[] mx ex], y as [[]|[]| |[] my ey]; simpl;
    try discriminate; intros _ _; auto.
  right. apply SFdiv_finite_snneg.
Qed.

Lemma div_100_nneg (c : float) :
  nneg (Prim2SF c) = true -> nneg (Prim2SF (c / 100)) = true.
Proof.
  rewrite FloatAxioms.div_spec.
  replace (Prim2SF 100) with (S754_finite false 7036874417766400 (-46))
    by (vm_compute; reflexivity).
  destruct (Prim2SF c) as [[]|[]| |[] mx ex]; try discriminate; intros _;
    try reflexivity.
  apply snneg_nneg, SFdiv_finite_snneg.
Qed.

Lemma add_snneg (x y : float) :
  snneg (Prim2SF x) = true -> nneg (Prim2SF y) = true ->
  snneg (Prim2SF (x + y)) = true.
Proof.
  rewrite FloatAxioms.add_spec.
  destruct (Prim2SF x) as [[]|[]| |[] mx ex], (Prim2SF y) as [[]|[]| |[] my ey];
    simpl; try discriminate; intros _ _; try reflexivity.
  unfold SF64add, SFadd, binary_normalize. simpl cond_Zopp.
  change (Z.pos ?a + Z.pos ?b)%Z with (Z.pos (a + b)).
  unfold binary_round.
  destruct (shl_align _ _ _) as [mz ez].
  apply binary_round_aux_snneg. lia.
Qed.

(** With confidences that are not negative, the three sums are not
    negative, and none of them is [NaN] or [-0]. *)
Lemma weigh_snneg (signals : list t) :
  Forall (fun s => (0 <=? confidence s) = true) signals ->
  snneg (Prim2SF (buyWeight (weigh signals))) = true
  /\ snneg (Prim2SF (sellWeight (weigh signals))) = true
  /\ snneg (Prim2SF (totalWeight (weigh signals))) = true.
Proof.
  intros H. unfold weigh.
  assert (G : forall w,
             snneg (Prim2SF (buyWeight w)) = true
             /\ snneg (Prim2SF (sellWeight w)) = true
             /\ snneg (Prim2SF (totalWeight w)) = true ->
             snneg (Prim2SF (buyWeight (fold_left accumulate signals w))) = true
             /\ snneg (Prim2SF (sellWeight (fold_left accumulate signals w))) = true
             /\ snneg (Prim2SF (totalWeight (fold_left accumulate signals w))) = true).
  { induction H as [|s signals Hs _ IH]; intros w Hw; simpl; [exact Hw|].
    apply IH. destruct Hw as (Hb & Hs' & Ht).
    pose proof (div_100_nneg _ (leb_zero_nneg _ Hs)) as Hc.
    unfold accumulate. destruct (action s); simpl;
      repeat split; auto using add_snneg. }
  apply G. repeat split; vm_compute; reflexivity.
Qed.

Lemma no_buy_weight (signals : list t) :
  (forall s, In s signals -> action s <> buy) ->
  buyWeight (weigh signals) = 0.
Proof.
  intros H. rewrite buyWeight_sum. generalize 0.
  induction signals as [|s signals IH]; intros z; simpl; [reflexivity|].
  rewrite IH by (intros x Hx; apply H; right; exact Hx).
  destruct (action s) eqn:A; try reflexivity.
  exfalso. apply (H s); [left; reflexivity|exact A].
Qed.

Lemma no_sell_weight (signals : list t) :
  (forall s, In s signals -> action s <> sell) ->
  sellWeight (weigh signals) = 0.
Proof.
  intros H. rewrite sellWeight_sum. generalize 0.
  induction signals as [|s signals IH]; intros z; simpl; [reflexivity|].
  rewrite IH by (intros x Hx; apply H; right; exact Hx).
  destruct (action s) eqn:A; try reflexivity.
  exfalso. apply (H s); [left; reflexivity|exact A].
Qed.

(** Zero divided by a total that is not negative is [+0] or [NaN], and
    nothing that is not negative is below it. *)
Lemma nothing_below_zero_share (w total : float) :
  snneg (Prim2SF w) = true -> snneg (Prim2SF total) = true ->
  (w / total <? 0 / total) = false.
Proof.
  intros Hw Ht. rewrite FloatAxioms.ltb_spec, !FloatAxioms.div_spec.
  replace (Prim2SF 0) with (S754_zero false) by (vm_compute; reflexivity).
  destruct (SFdiv_snneg _ _ Hw Ht) as [-> | N]; [reflexivity|].
  destruct (Prim2SF total) as [[]|[]| |[] mt et]; try discriminate Ht;
    simpl SF64div at 2; unfold SFltb;
    destruct (SF64div (Prim2SF w) _) as [[]|[]| |[] m e];
    try discriminate N; reflexivity.
Qed.

End Signs.

(** X7: the fusion proposes no direction of its own.  When the
    confidences are not negative (as the model requires), the decision is
    [buy] only if some signal says buy, and [sell] only if some signal
    says sell. *)
Theorem fuse_direction_proposed (signals : list t) :
  Forall (fun s => (0 <=? confidence s)%float = true) signals ->
  (GrokEngine.f_action (GrokEngine.fuse signals) = buy ->
   exists s, In s signals /\ action s = buy)
  /\ (GrokEngine.f_action (GrokEngine.fuse signals) = sell ->
      exists s, In s signals /\ action s = sell).
Proof.
  intros H. destruct (weigh_snneg signals H) as (Hb & Hs & Ht).
  split.
  - intros A.
    destruct (existsb (fun s => match action s with buy => true | _ => false end)
                signals) eqn:E.
    + apply existsb_exists in E. destruct E as (s & Hin & Hs').
      exists s. split; [exact Hin|]. destruct (action s); congruence.
    + exfalso.
      assert (Z : GrokEngine.buyWeight (GrokEngine.weigh signals) = 0%float).
      { apply no_buy_weight. intros s Hin Hs'.
        assert (F : existsb (fun s => match action s with buy => true | _ => false end)
                      signals = true)
          by (apply existsb_exists; exists s; rewrite Hs'; auto).
        congruence. }
      revert A. unfold GrokEngine.fuse.
      replace (GrokEngine.normSell signals <? GrokEngine.normBuy signals)%float
        with false; [simpl|].
      * destruct (_ && _); discriminate.
      * symmetry. unfold GrokEngine.normSell, GrokEngine.normBuy. rewrite Z.
        apply nothing_below_zero_share; assumption.
  - intros A.
    destruct (existsb (fun s => match action s with sell => true | _ => false end)
                signals) eqn:E.
    + apply existsb_exists in E. destruct E as (s & Hin & Hs').
      exists s. split; [exact Hin|]. destruct (action s); congruence.
    + exfalso.
      assert (Z : GrokEngine.sellWeight (GrokEngine.weigh signals) = 0%float).
      { apply no_sell_weight. intros s Hin Hs'.
        assert (F : existsb (fun s => match action s with sell => true | _ => false end)
                      signals = true)
          by (apply existsb_exists; exists s; rewrite Hs'; auto).
        congruence. }
      revert A. unfold GrokEngine.fuse.
      replace (GrokEngine.normBuy signals <? GrokEngine.normSell signals)%float
        with false; [simpl|].
      * destruct (_ && _); discriminate.
      * symmetry. unfold GrokEngine.normSell, GrokEngine.normBuy. rewrite Z.
        apply nothing_below_zero_share; assumption.
Qed.

Lemma fuse_direction_proposed_witness :
  Forall (fun s => (0 <=? confidence s)%float = true) threeOpinions
  /\ exists s, In s threeOpinions /\ action s = buy.
Proof.
  assert (H : Forall (fun s => (0 <=? confidence s)%float = true) threeOpinions)
    by (repeat constructor).
  split; [exact H|].
  apply (fuse_direction_proposed threeOpinions H). vm_compute. reflexivity.
Defined.

(** X8: when every signal says hold and the total weight is positive,
    the buy and the sell weight are exactly 0, the hold weight is exactly
    1, and the decision is hold with confidence exactly 100. *)
Theorem fuse_all_hold (signals : list t) :
  (forall s, In s signals -> action s = hold) ->
  (0 <? GrokEngine.totalWeight (GrokEngine.weigh signals))%float = true ->
  GrokEngine.normBuy signals = 0%float
  /\ GrokEngine.normSell signals = 0%float
  /\ GrokEngine.normHold signals = 1%float
  /\ GrokEngine.fuse signals
     = {| GrokEngine.f_action := hold; GrokEngine.f_confidence := 100%float |}.
Proof.
  intros Hall Hpos.
  assert (Zb : GrokEngine.buyWeight (GrokEngine.weigh signals) = 0%float)
    by (apply no_buy_weight; intros s Hin; rewrite (Hall s Hin); discriminate).
  assert (Zs : GrokEngine.sellWeight (GrokEngine.weigh signals) = 0%float)
    by (apply no_sell_weight; intros s Hin; rewrite (Hall s Hin); discriminate).
  assert (Q : (0 / GrokEngine.totalWeight (GrokEngine.weigh signals))%float = 0%float).
  { apply Prim2SF_inj. rewrite FloatAxioms.div_spec.
    destruct (ltb_zero_pos _ Hpos) as (m & e & [-> | ->]); reflexivity. }
  assert (B : GrokEngine.normBuy signals = 0%float)
    by (unfold GrokEngine.normBuy; rewrite Zb; exact Q).
  assert (S : GrokEngine.normSell signals = 0%float)
    by (unfold GrokEngine.normSell; rewrite Zs; exact Q).
  assert (Hd : GrokEngine.normHold signals = 1%float)
    by (unfold GrokEngine.normHold; rewrite B, S; reflexivity).
  repeat split; auto.
  unfold GrokEngine.fuse. rewrite B, S, Hd. reflexivity.
Qed.

Lemma fuse_all_hold_witness :
  (forall s, In s holdOpinions -> action s = hold)
  /\ (0 <? GrokEngine.totalWeight (GrokEngine.weigh holdOpinions))%float = true
  /\ GrokEngine.fuse holdOpinions
     = {| GrokEngine.f_action := hold; GrokEngine.f_confidence := 100%float |}.
Proof.
  assert (H1 : forall s, In s holdOpinions -> action s = hold).
  { intros s [<- | [<- | []]]; reflexivity. }
  assert (H2 : (0 <? GrokEngine.totalWeight (GrokEngine.weigh holdOpinions))%float
               = true) by reflexivity.
  split; [exact H1|]. split; [exact H2|].
  apply (fuse_all_hold holdOpinions H1 H2).
Defined.

(** ** TWITTER_MONITOR: grouping by symbol *)

Section Grouping.

Import TwitterMonitorModule.

Lemma groupOf_append (k symbol : string) (tweet : Tweet) (g : SymbolTweets) :
  groupOf k (append g symbol tweet)
  = if String.eqb k symbol then groupOf k g ++ [tweet] else groupOf k g.
Proof.
  induction g as [|[k' l] g IH]; simpl.
  - destruct (String.eqb k symbol); reflexivity.
  - destruct (String.eqb symbol k') eqn:E; simpl.
    + apply String.eqb_eq in E. subst k'.
      destruct (String.eqb k symbol); reflexivity.
    + destruct (String.eqb k k') eqn:F; [|exact IH].
      apply String.eqb_eq in F. subst k'.
      rewrite String.eqb_sym, E. reflexivity.
Qed.

Lemma In_keys_append (symbol : string) (tweet : Tweet) (g : SymbolTweets)
    (k : string) :
  In k (map fst (append g symbol tweet)) <-> k = symbol \/ In k (map fst g).
Proof.
  induction g as [|[k' l] g IH]; simpl.
  - intuition congruence.
  - destruct (String.eqb symbol k') eqn:E; simpl.
    + apply String.eqb_eq in E. subst k'. intuition congruence.
    + rewrite IH. intuition congruence.
Qed.

Lemma keys_append (symbol : string) (tweet : Tweet) (g : SymbolTweets) :
  NoDup (map fst g) -> NoDup (map fst (append g symbol tweet)).
Proof.
  induction g as [|[k' l] g IH]; simpl; intros H.
  - repeat constructor. intros [].
  - inversion H as [|? ? Hn Hg]; subst.
    destruct (String.eqb symbol k') eqn:E; simpl.
    + constructor; assumption.
    + constructor; [|apply IH, Hg].
      intros Hin. apply In_keys_append in Hin.
      destruct Hin as [-> | Hin']; [|contradiction].
      rewrite String.eqb_refl in E. discriminate.
Qed.

Lemma groupOf_appendAll (k : string) (tweet : Tweet) :
  forall g,
  groupOf k (appendAll g tweet) = groupOf k g ++ mentionsOf k tweet.
Proof.
  unfold appendAll, mentionsOf.
  induction (symbols tweet) as [|s syms IH]; intros g; simpl.
  - rewrite app_nil_r. reflexivity.
  - rewrite IH, groupOf_append.
    destruct (String.eqb k s); simpl; [rewrite <- app_assoc|]; reflexivity.
Qed.

Lemma keys_appendAll (tweet : Tweet) :
  forall g, NoDup (map fst g) -> NoDup (map fst (appendAll g tweet)).
Proof.
  unfold appendAll.
  induction (symbols tweet) as [|s syms IH]; intros g H; simpl; [exact H|].
  apply IH, keys_append, H.
Qed.

Lemma In_keys_appendAll (tweet : Tweet) (k : string) :
  forall g,
  In k (map fst (appendAll g tweet))
  <-> In k (map fst g) \/ In k (symbols tweet).
Proof.
  unfold appendAll.
  induction (symbols tweet) as [|s syms IH]; intros g; simpl.
  - tauto.
  - rewrite IH, In_keys_append. intuition congruence.
Qed.

Lemma groupOf_groupInto (k : string) (tweets : list Tweet) :
  forall g,
  groupOf k (groupInto g tweets)
  = groupOf k g ++ flat_map (mentionsOf k) tweets.
Proof.
  unfold groupInto.
  induction tweets as [|tweet tweets IH]; intros g; simpl.
  - rewrite app_nil_r. reflexivity.
  - rewrite IH, groupOf_appendAll, <- app_assoc. reflexivity.
Qed.

Lemma keys_groupInto (tweets : list Tweet) :
  forall g, NoDup (map fst g) -> NoDup (map fst (groupInto g tweets)).
Proof.
  unfold groupInto.
  induction tweets as [|tweet tweets IH]; intros g H; simpl; [exact H|].
  apply IH, keys_appendAll, H.
Qed.

Lemma In_keys_groupInto (tweets : list Tweet) (k : string) :
  forall g,
  In k (map fst (groupInto g tweets))
  <-> In k (map fst g)
      \/ exists tweet, In tweet tweets /\ In k (symbols tweet).
Proof.
  unfold groupInto.
  induction tweets as [|tweet tweets IH]; intros g; simpl.
  - split; [auto|]. intros [H | (tweet & [] & _)]. exact H.
  - rewrite IH, In_keys_appendAll. split.
    + intros [[H | H] | (t & Ht & Hk)]; eauto 6.
    + intros [H | (t & [<- | Ht] & Hk)]; eauto 6.
Qed.

(** A symbol listed once is found once. *)
Lemma filter_eqb_NoDup (k : string) (syms : list string) :
  NoDup syms ->
  filter (String.eqb k) syms = if existsb (String.eqb k) syms then [k] else [].
Proof.
  induction 1 as [|s syms Hn _ IH]; simpl; [reflexivity|].
  destruct (String.eqb k s) eqn:E; simpl.
  - apply String.eqb_eq in E. subst s. rewrite IH.
    destruct (existsb (String.eqb k) syms) eqn:X; [|reflexivity].
    apply existsb_exists in X. destruct X as (x & Hx & Ex).
    apply String.eqb_eq in Ex. subst x. contradiction.
  - exact IH.
Qed.

Lemma flat_map_mentions (k : string) (tweets : list Tweet) :
  Forall (fun tweet => NoDup (symbols tweet)) tweets ->
  flat_map (mentionsOf k) tweets = filter (mentions k) tweets.
Proof.
  induction 1 as [|tweet tweets Hnd _ IH]; simpl; [reflexivity|].
  rewrite IH. unfold mentionsOf, mentions.
  rewrite (filter_eqb_NoDup _ _ Hnd).
  destruct (existsb (String.eqb k) (symbols tweet)); reflexivity.
Qed.

(** An exception ends the two loops. *)
Lemma pushAll_thrown (e : Error) (tweet : Tweet) :
  pushAll (inl e) tweet = inl e.
Proof.
  unfold pushAll. induction (symbols tweet) as [|s syms IH]; simpl; auto.
Qed.

Lemma groupBySymbol_thrown (e : Error) (tweets : list Tweet) :
  fold_left pushAll tweets (inl e) = inl e.
Proof.
  induction tweets as [|tweet tweets IH]; simpl; [reflexivity|].
  rewrite pushAll_thrown. exact IH.
Qed.

Lemma push_plain (o : SymbolTweets) (symbol : string) (tweet : Tweet) :
  plainSymbol symbol = true ->
  push o symbol tweet = inr (append o symbol tweet).
Proof.
  unfold push, plainSymbol. intros H. apply negb_true_iff in H. rewrite H.
  destruct (hasOwn o symbol); reflexivity.
Qed.

Lemma push_inherited (o : SymbolTweets) (symbol : string) (tweet : Tweet) :
  forallb plainSymbol (map fst o) = true ->
  plainSymbol symbol = false ->
  push o symbol tweet
  = inl (JsError "symbolTweets[symbol].push is not a function").
Proof.
  intros Ho H. unfold push.
  assert (N : hasOwn o symbol = false).
  { destruct (hasOwn o symbol) eqn:E; [|reflexivity].
    unfold hasOwn in E. apply existsb_exists in E.
    destruct E as (entry & Hin & Heq). apply String.eqb_eq in Heq.
    rewrite forallb_forall in Ho.
    rewrite (Ho symbol) in H; [discriminate|].
    rewrite Heq. apply in_map, Hin. }
  rewrite N. unfold plainSymbol in H. apply negb_false_iff in H.
  rewrite H. reflexivity.
Qed.

Lemma plain_append (o : SymbolTweets) (symbol : string) (tweet : Tweet) :
  forallb plainSymbol (map fst o) = true ->
  plainSymbol symbol = true ->
  forallb plainSymbol (map fst (append o symbol tweet)) = true.
Proof.
  intros Ho H. apply forallb_forall. intros k Hk.
  apply In_keys_append in Hk. destruct Hk as [-> | Hk]; [exact H|].
  rewrite forallb_forall in Ho. apply Ho, Hk.
Qed.

Lemma pushAll_cases (tweet : Tweet) (o : SymbolTweets) :
  forallb plainSymbol (map fst o) = true ->
  pushAll (inr o) tweet
  = (if forallb plainSymbol (symbols tweet) then inr (appendAll o tweet)
     else inl (JsError "symbolTweets[symbol].push is not a function"))
  /\ (forallb plainSymbol (symbols tweet) = true ->
      forallb plainSymbol (map fst (appendAll o tweet)) = true).
Proof.
  unfold pushAll, appendAll. revert o.
  induction (symbols tweet) as [|s syms IH]; intros o Ho; simpl.
  - split; [reflexivity|]. intros _. exact Ho.
  - destruct (plainSymbol s) eqn:P; simpl.
    + rewrite (push_plain o s tweet P).
      apply IH, plain_append; assumption.
    + rewrite (push_inherited o s tweet Ho P).
      split; [|discriminate].
      clear. induction syms as [|s' syms IH]; simpl; auto.
Qed.

Lemma groupBySymbol_cases (tweets : list Tweet) :
  forall o : SymbolTweets,
  forallb plainSymbol (map fst o) = true ->
  fold_left pushAll tweets (inr o)
  = if plainTweets tweets then inr (groupInto o tweets)
    else inl (JsError "symbolTweets[symbol].push is not a function").
Proof.
  unfold groupInto.
  induction tweets as [|tweet tweets IH]; intros o Ho; [reflexivity|].
  change (fold_left pushAll (tweet :: tweets) (inr o))
    with (fold_left pushAll tweets (pushAll (inr o) tweet)).
  change (fold_left appendAll (tweet :: tweets) o)
    with (fold_left appendAll tweets (appendAll o tweet)).
  change (plainTweets (tweet :: tweets))
    with (forallb plainSymbol (symbols tweet) && plainTweets tweets).
  destruct (pushAll_cases tweet o Ho) as [E K]. rewrite E.
  destruct (forallb plainSymbol (symbols tweet)); cbn [andb].
  - apply IH, K. reflexivity.
  - apply groupBySymbol_thrown.
Qed.

Lemma groupBySymbol_outcome (tweets : list Tweet) :
  groupBySymbol tweets
  = if plainTweets tweets then inr (groupInto [] tweets)
    else inl (JsError "symbolTweets[symbol].push is not a function").
Proof. apply (groupBySymbol_cases tweets []). reflexivity. Qed.

End Grouping.

(** X9: grouping by symbol.  When no symbol is named like a property
    that a plain object inherits ("constructor", "toString", ...),
    grouping gives an object where no symbol has two entries, where a
    symbol has an entry exactly when some tweet lists it, and where the
    entry of a symbol holds the tweets that list it, in their order, each
    as often as it lists the symbol; so when no tweet lists a symbol
    twice, these are exactly the tweets that mention it.  When some tweet
    lists a symbol with an inherited name, grouping throws, and
    [analyzeTweets] fails with "Tweet analysis failed:
    symbolTweets[symbol].push is not a function" and an unchanged
    table. *)
Theorem groupBySymbol_mentions (tweets : list TwitterMonitorModule.Tweet) :
  (plainTweets tweets = true ->
   exists symbolTweets,
     TwitterMonitorModule.groupBySymbol tweets = inr symbolTweets
     /\ NoDup (map fst symbolTweets)
     /\ (forall symbol,
           In symbol (map fst symbolTweets)
           <-> exists tweet,
                 In tweet tweets
                 /\ In symbol (TwitterMonitorModule.symbols tweet))
     /\ (forall symbol,
           groupOf symbol symbolTweets = flat_map (mentionsOf symbol) tweets)
     /\ (Forall (fun tweet => NoDup (TwitterMonitorModule.symbols tweet)) tweets ->
         forall symbol,
           groupOf symbol symbolTweets = filter (mentions symbol) tweets))
  /\ (plainTweets tweets = false ->
      TwitterMonitorModule.groupBySymbol tweets
      = inl (JsError "symbolTweets[symbol].push is not a function")
      /\ forall now st,
           TwitterMonitorModule.analyzeTweets now st tweets
           = (st,
              inl (JsError "Tweet analysis failed: symbolTweets[symbol].push is not a function"))).
Proof.
  pose proof (groupBySymbol_outcome tweets) as E.
  split; intros P; rewrite P in E.
  - exists (groupInto [] tweets). split; [exact E|].
    split; [apply keys_groupInto; constructor|].
    split; [|split].
    + intros symbol. rewrite In_keys_groupInto. simpl. tauto.
    + intros symbol. rewrite groupOf_groupInto. reflexivity.
    + intros Hnd symbol.
      rewrite groupOf_groupInto, (flat_map_mentions _ _ Hnd). reflexivity.
  - split; [exact E|]. intros now st.
    unfold TwitterMonitorModule.analyzeTweets. rewrite E. reflexivity.
Qed.

Lemma groupBySymbol_mentions_witness :
  (plainTweets bullishTweets = true
   /\ exists symbolTweets,
        TwitterMonitorModule.groupBySymbol bullishTweets = inr symbolTweets
        /\ groupOf "ETH" symbolTweets = filter (mentions "ETH") bullishTweets)
  /\ (plainTweets inheritedTweets = false
      /\ TwitterMonitorModule.analyzeTweets 0 threeOpinions inheritedTweets
         = (threeOpinions,
            inl (JsError "Tweet analysis failed: symbolTweets[symbol].push is not a function"))).
Proof.
  split.
  - split; [reflexivity|].
    destruct (groupBySymbol_mentions bullishTweets) as [G _].
    destruct (G eq_refl) as (symbolTweets & E & _ & _ & _ & F).
    exists symbolTweets. split; [exact E|]. apply F.
    repeat constructor; simpl; intuition discriminate.
  - split; [reflexivity|].
    destruct (groupBySymbol_mentions inheritedTweets) as [_ G].
    apply (G eq_refl).
Defined.

(** ** TWITTER_MONITOR: one signal per symbol *)

Section PerSymbol.

Import TwitterMonitorModule.

Lemma groupOf_In (k : string) (l : list Tweet) (g : list (string * list Tweet)) :
  NoDup (map fst g) -> In (k, l) g -> groupOf k g = l.
Proof.
  induction g as [|[k' l'] g IH]; simpl; intros Hnd Hin; [contradiction|].
  inversion Hnd as [|? ? Hn Hg]; subst.
  destruct Hin as [[= -> ->] | Hin].
  - rewrite String.eqb_refl. reflexivity.
  - destruct (String.eqb k k') eqn:E; [|apply IH; assumption].
    apply String.eqb_eq in E. subst k'.
    exfalso. apply Hn. apply (in_map fst) in Hin. exact Hin.
Qed.

Lemma create_accepted_fields (st st' : Store) (a : Attributes) (s : t) :
  create st a = (st', inr s) ->
  expiresAt s = a_expiresAt a
  /\ price s = a_price a
  /\ targetPrice s = a_targetPrice a
  /\ stopLoss s = a_stopLoss a
  /\ timeframe s = a_timeframe a.
Proof.
  unfold create. intros H.
  destruct (Action_of_string (a_action a)); [|discriminate].
  destruct (Source_of_string (a_source a)); [|discriminate].
  destruct (match a_status a with
            | Some l => Status_of_string l
            | None => Some pending
            end); [|discriminate].
  destruct (validate_confidence (a_confidence a)); [|discriminate].
  injection H as _ <-. repeat split.
Qed.

(** What a successful run of the loop created: one signal per entry that
    qualifies, in the order of the entries. *)
Lemma generate_per_entry (now : Z) (entries : list (string * list Tweet)) :
  forall (st st' : Store) (signals result : list t),
  generate now st entries signals = (st', inr result) ->
  exists created,
    result = signals ++ created
    /\ st' = st ++ created
    /\ Forall2 (signalOfEntry now) created (filter qualifies entries).
Proof.
  induction entries as [|[k l] rest IH]; intros st st' signals result;
    [simpl|rewrite generate_cons].
  - intros [= <- <-]. exists []. rewrite !app_nil_r. repeat split. constructor.
  - simpl filter. unfold qualifies at 1. simpl snd.
    destruct (3 <=? List.length l)%nat; [|apply IH].
    destruct (sentimentAction (avgSentiment l)) eqn:A; simpl andb; cbv iota;
      try apply IH.
    all: destruct (create st (signalAttributes now k l)) as [st1 [e|s]] eqn:C;
      [discriminate|].
    all: intros H; destruct (IH _ _ _ _ H) as (created & -> & -> & F).
    all: destruct (create_accepted_fields _ _ _ _ C) as (Hexp & _).
    all: destruct (create_accepted _ _ _ _ C)
           as (-> & _ & Hsym & Ha & Hs & Hsta & Hc & _ & _).
    all: exists (s :: created); rewrite <- !app_assoc; simpl.
    all: split; [reflexivity|]; split; [reflexivity|].
    all: constructor; [|exact F].
    all: simpl in Ha, Hs, Hsta, Hsym; rewrite A in Ha.
    all: cbn [signalAttributes a_confidence] in Hc.
    all: injection Ha as Ha; injection Hs as Hs; injection Hsta as Hsta.
    all: unfold signalOfEntry; cbn [fst snd]; rewrite A, <- Ha, <- Hs, <- Hsta.
    all: repeat split; auto.
Qed.

Lemma insert_index_Permutation (n : N) (entry : string * list Tweet)
    (l : list (N * (string * list Tweet))) :
  Permutation (insert_index n entry l) ((n, entry) :: l).
Proof.
  induction l as [|[m e] l IH]; simpl; [reflexivity|].
  destruct (n <? m)%N; [reflexivity|].
  rewrite IH. apply perm_swap.
Qed.

(** [Object.entries] lists every own property once. *)
Lemma Object_entries_Permutation (o : SymbolTweets) :
  Permutation (Object_entries o) o.
Proof.
  unfold Object_entries. induction o as [|entry o IH]; simpl; [reflexivity|].
  destruct (array_index (fst entry)) as [n|]; simpl.
  - rewrite (Permutation_map snd (insert_index_Permutation n entry _)).
    simpl. apply perm_skip, IH.
  - rewrite <- Permutation_middle. apply perm_skip, IH.
Qed.

(** When no key is an array index, the order is the one of creation. *)
Lemma Object_entries_creation (o : SymbolTweets) :
  Forall (fun entry => array_index (fst entry) = None) o ->
  Object_entries o = o.
Proof.
  unfold Object_entries. intros H.
  assert (E : fold_right
                (fun entry acc =>
                   match array_index (fst entry) with
                   | Some n => insert_index n entry acc
                   | None => acc
                   end) [] o = []).
  { induction H as [|entry o He _ IH]; simpl; [reflexivity|].
    rewrite He. exact IH. }
  rewrite E. simpl.
  induction H as [|entry o He _ IH]; simpl; [reflexivity|].
  rewrite He. f_equal. apply IH.
  simpl in E. rewrite He in E. exact E.
Qed.

(** The symbols "10" and "2" are listed before "BTC", the smaller one
    first; "007" is no array index. *)
Example Object_entries_order :
  map fst (Object_entries [("BTC", []); ("10", []); ("007", []); ("2", [])])
  = ["2"; "10"; "BTC"; "007"].
Proof. reflexivity. Qed.

End PerSymbol.

(** X10: when [analyzeTweets] succeeds, the tweets were grouped without
    an exception and it has created exactly one signal for each symbol
    that has at least three tweets and a sentiment other than hold, in
    the order of [Object.entries], and none for any other symbol: no two
    signals share a symbol.  When no symbol is an array index, this is the
    order in which the symbols first appear.  Each signal carries the
    action of the tweets grouped under its symbol and their capped
    confidence with two decimals, and expires 24 hours after the
    call. *)
Theorem analyzeTweets_per_symbol (now : Z) (st st' : Store)
    (tweets : list TwitterMonitorModule.Tweet) (signals : list t) :
  TwitterMonitorModule.analyzeTweets now st tweets = (st', inr signals) ->
  exists symbolTweets,
    TwitterMonitorModule.groupBySymbol tweets = inr symbolTweets
    /\ st' = st ++ signals
    /\ map symbol signals
       = map fst (filter qualifies
                    (TwitterMonitorModule.Object_entries symbolTweets))
    /\ (Forall (fun entry => TwitterMonitorModule.array_index (fst entry) = None)
          symbolTweets ->
        map symbol signals = map fst (filter qualifies symbolTweets))
    /\ NoDup (map symbol signals)
    /\ Forall (fun s =>
                 3 <= List.length (groupOf (symbol s) symbolTweets)
                 /\ signalOfEntry now s
                      (symbol s, groupOf (symbol s) symbolTweets))
         signals.
Proof.
  unfold TwitterMonitorModule.analyzeTweets. intros H.
  pose proof (groupBySymbol_outcome tweets) as E.
  destruct (TwitterMonitorModule.groupBySymbol tweets) as [e|symbolTweets] eqn:G0;
    [discriminate H|].
  assert (K : NoDup (map fst symbolTweets)).
  { destruct (plainTweets tweets); [|discriminate E].
    injection E as ->. apply keys_groupInto. constructor. }
  clear E.
  destruct (TwitterMonitorModule.generate now st
              (TwitterMonitorModule.Object_entries symbolTweets) [])
    as [st1 [e|result]] eqn:G; simpl in H; [discriminate|].
  injection H as -> ->.
  destruct (generate_per_entry now _ _ _ _ _ G) as (created & -> & -> & F).
  simpl.
  exists symbolTweets. split; [reflexivity|].
  set (entries := TwitterMonitorModule.Object_entries symbolTweets) in *.
  assert (KE : NoDup (map fst entries)).
  { apply (Permutation_NoDup
             (Permutation_sym
                (Permutation_map fst (Object_entries_Permutation symbolTweets)))).
    exact K. }
  assert (M : map symbol created = map fst (filter qualifies entries)).
  { clear -F. induction F as [|s e created es (Hs & _) _ IH]; simpl;
      [reflexivity|]. rewrite Hs, IH. reflexivity. }
  split; [reflexivity|]. split; [exact M|]. split; [|split].
  - intros Hplain. rewrite M. unfold entries.
    rewrite (Object_entries_creation _ Hplain). reflexivity.
  - rewrite M. generalize entries KE. clear.
    induction entries as [|[k l'] g IH]; simpl; intros K; [constructor|].
    inversion K as [|? ? Hn Hg]; subst.
    destruct (qualifies (k, l')); simpl; [|apply IH, Hg].
    constructor; [|apply IH, Hg].
    intros Hin. apply Hn. apply in_map_iff in Hin.
    destruct Hin as (e & <- & Hin). apply filter_In in Hin.
    apply in_map. tauto.
  - assert (I : forall s e, In (s, e) (combine created (filter qualifies entries)) ->
                            signalOfEntry now s e).
    { clear -F. induction F as [|s e created es Hse _ IH]; simpl;
        intros s' e' Hin; [contradiction|].
      destruct Hin as [[= <- <-] | Hin]; [exact Hse|apply IH, Hin]. }
    apply Forall_forall. intros s Hin.
    assert (L : List.length created = List.length (filter qualifies entries))
      by (clear -F; induction F; simpl; congruence).
    destruct (In_nth _ _ s Hin) as (n & Hn & Hs).
    pose (e := nth n (filter qualifies entries) ("", [])).
    assert (C : In (s, e) (combine created (filter qualifies entries))).
    { rewrite <- Hs. unfold e. rewrite <- combine_nth by exact L.
      apply nth_In. rewrite length_combine, <- L. lia. }
    pose proof (I s e C) as Hse.
    assert (E : In e (filter qualifies entries))
      by (apply in_combine_r in C; exact C).
    apply filter_In in E. destruct E as [Ein Eq].
    apply (Permutation_in _ (Object_entries_Permutation symbolTweets)) in Ein.
    destruct e as [k l]. destruct Hse as (Hsym & Hrest). simpl in Hsym.
    rewrite Hsym, (groupOf_In k l _ K Ein).
    split.
    + unfold qualifies in Eq. cbn [snd] in Eq. apply andb_true_iff in Eq.
      destruct Eq as [Eq _]. apply Nat.leb_le in Eq. exact Eq.
    + unfold signalOfEntry. cbn [fst snd] in *. rewrite Hsym.
      split; [reflexivity|exact Hrest].
Qed.

Lemma analyzeTweets_per_symbol_witness :
  exists signal,
    TwitterMonitorModule.analyzeTweets 0 [] bullishTweets = ([signal], inr [signal])
    /\ exists symbolTweets,
         TwitterMonitorModule.groupBySymbol bullishTweets = inr symbolTweets
         /\ map symbol [signal] = map fst (filter qualifies symbolTweets).
Proof.
  assert (A : exists signal,
             TwitterMonitorModule.analyzeTweets 0 [] bullishTweets
             = ([signal], inr [signal]))
    by (eexists; vm_compute; reflexivity).
  destruct A as (signal & A). exists signal. split; [exact A|].
  destruct (analyzeTweets_per_symbol 0 [] _ bullishTweets _ A)
    as (symbolTweets & E & _ & _ & M & _).
  exists symbolTweets. split; [exact E|]. apply M.
  vm_compute in E. injection E as <-. repeat constructor.
Defined.

(** ** TWITTER_MONITOR: the monitored accounts *)

Section Accounts.

Import TwitterFeed.

Lemma existsb_eqb_In (u : string) (l : list string) :
  existsb (String.eqb u) l = true <-> In u l.
Proof.
  rewrite existsb_exists. split.
  - intros (x & Hx & E). apply String.eqb_eq in E. subst x. exact Hx.
  - intros H. exists u. split; [exact H|apply String.eqb_refl].
Qed.

End Accounts.

(** X11: [addInfluencer] refuses a name that is already monitored and
    changes nothing then; a new name is appended at the end, the cache
    takes the new list, and the count answered is the new length.  Names
    already monitored stay, a list without duplicates stays without
    duplicates, and adding the same name again is refused. *)
Theorem addInfluencer_once (s : TwitterFeed.State) (username : string) :
  NoDup (TwitterFeed.influencers s) ->
  (In username (TwitterFeed.influencers s) ->
   TwitterFeed.addInfluencer s username = (s, TwitterFeed.AlreadyMonitored))
  /\ (~ In username (TwitterFeed.influencers s) ->
      TwitterFeed.addInfluencer s username
      = ({| TwitterFeed.influencers := TwitterFeed.influencers s ++ [username];
            TwitterFeed.cached := Some (TwitterFeed.influencers s ++ [username]) |},
         TwitterFeed.NowMonitored (S (List.length (TwitterFeed.influencers s)))))
  /\ NoDup (TwitterFeed.influencers (fst (TwitterFeed.addInfluencer s username)))
  /\ In username (TwitterFeed.influencers (fst (TwitterFeed.addInfluencer s username)))
  /\ (forall v, In v (TwitterFeed.influencers s) ->
                In v (TwitterFeed.influencers
                        (fst (TwitterFeed.addInfluencer s username))))
  /\ snd (TwitterFeed.addInfluencer
            (fst (TwitterFeed.addInfluencer s username)) username)
     = TwitterFeed.AlreadyMonitored.
Proof.
  intros Hnd. unfold TwitterFeed.addInfluencer.
  destruct (existsb (String.eqb username) (TwitterFeed.influencers s)) eqn:E.
  - pose proof (proj1 (existsb_eqb_In _ _) E) as Hin. simpl. rewrite E. simpl.
    repeat split; auto. intros H. contradiction.
  - assert (Hn : ~ In username (TwitterFeed.influencers s)).
    { intros H. apply existsb_eqb_In in H. congruence. }
    simpl.
    assert (E' : existsb (String.eqb username)
                   (TwitterFeed.influencers s ++ [username]) = true).
    { apply existsb_eqb_In, in_or_app. right. left. reflexivity. }
    rewrite E'. simpl. repeat split.
    + intros H. contradiction.
    + intros _. rewrite length_app, Nat.add_comm. reflexivity.
    + apply NoDup_app; [exact Hnd|repeat constructor; auto|].
      intros x Hx [<- | []]. contradiction.
    + apply in_or_app. right. left. reflexivity.
    + intros v Hv. apply in_or_app. left. exact Hv.
Qed.

Lemma addInfluencer_once_witness :
  NoDup (TwitterFeed.influencers (fst (TwitterFeed.initialize newModule)))
  /\ TwitterFeed.addInfluencer (fst (TwitterFeed.initialize newModule)) "elonmusk"
     = (fst (TwitterFeed.initialize newModule), TwitterFeed.AlreadyMonitored).
Proof.
  assert (H : NoDup (TwitterFeed.influencers
                       (fst (TwitterFeed.initialize newModule)))).
  { repeat constructor; simpl; intuition discriminate. }
  split; [exact H|].
  apply (addInfluencer_once _ "elonmusk" H). simpl. auto.
Defined.

(** X12: [initialize] leaves the cache equal to the list of accounts and
    is idempotent; with nothing cached it takes the ten default accounts
    and caches them, and otherwise it takes exactly what is cached,
    whatever the module held.  It always counts 11 keywords.  A name
    added before the first [initialize] becomes the whole cached list, so
    that [initialize] then monitors that single account and the defaults
    are never loaded. *)
Theorem initialize_cache (s : TwitterFeed.State) :
  TwitterFeed.cached (fst (TwitterFeed.initialize s))
  = Some (TwitterFeed.influencers (fst (TwitterFeed.initialize s)))
  /\ fst (TwitterFeed.initialize (fst (TwitterFeed.initialize s)))
     = fst (TwitterFeed.initialize s)
  /\ TwitterFeed.influencers (fst (TwitterFeed.initialize s))
     = match TwitterFeed.cached s with
       | Some l => l
       | None => TwitterFeed.defaultInfluencers
       end
  /\ TwitterFeed.influencersCount (snd (TwitterFeed.initialize s))
     = match TwitterFeed.cached s with
       | Some l => List.length l
       | None => 10
       end
  /\ TwitterFeed.keywordsCount (snd (TwitterFeed.initialize s)) = 11
  /\ forall username,
       fst (TwitterFeed.initialize
              (fst (TwitterFeed.addInfluencer newModule username)))
       = {| TwitterFeed.influencers := [username];
            TwitterFeed.cached := Some [username] |}.
Proof.
  unfold TwitterFeed.initialize.
  destruct (TwitterFeed.cached s) as [l|] eqn:C; simpl; rewrite ?C;
    repeat split.
Qed.

(** X13: the list of accounts survives a restart.  After [addInfluencer]
    has added a name, the cache holds the new list, and a module started
    anew on that cache, whatever list it holds, monitors after
    [initialize] the same accounts, with the count that [addInfluencer]
    answered. *)
Theorem initialize_restores (s s' : TwitterFeed.State) (username : string)
    (n : nat) (restarted : list string) :
  TwitterFeed.addInfluencer s username = (s', TwitterFeed.NowMonitored n) ->
  TwitterFeed.initialize
    {| TwitterFeed.influencers := restarted;
       TwitterFeed.cached := TwitterFeed.cached s' |}
  = (s', {| TwitterFeed.influencersCount := n; TwitterFeed.keywordsCount := 11 |})
  /\ TwitterFeed.cached s' = Some (TwitterFeed.influencers s')
  /\ In username (TwitterFeed.influencers s')
  /\ fst (TwitterFeed.initialize s') = s'.
Proof.
  unfold TwitterFeed.addInfluencer.
  destruct (existsb (String.eqb username) (TwitterFeed.influencers s));
    [discriminate|].
  intros [= <- <-]. simpl. repeat split.
  apply in_or_app. right. left. reflexivity.
Qed.

Lemma initialize_restores_witness :
  TwitterFeed.addInfluencer (fst (TwitterFeed.initialize newModule)) "saylor"
  = ({| TwitterFeed.influencers := TwitterFeed.defaultInfluencers ++ ["saylor"];
        TwitterFeed.cached := Some (TwitterFeed.defaultInfluencers ++ ["saylor"]) |},
     TwitterFeed.NowMonitored 11)
  /\ TwitterFeed.initialize
       {| TwitterFeed.influencers := [];
          TwitterFeed.cached := Some (TwitterFeed.defaultInfluencers ++ ["saylor"]) |}
     = ({| TwitterFeed.influencers := TwitterFeed.defaultInfluencers ++ ["saylor"];
           TwitterFeed.cached := Some (TwitterFeed.defaultInfluencers ++ ["saylor"]) |},
        {| TwitterFeed.influencersCount := 11; TwitterFeed.keywordsCount := 11 |}).
Proof.
  assert (H : TwitterFeed.addInfluencer (fst (TwitterFeed.initialize newModule))
                "saylor"
              = ({| TwitterFeed.influencers :=
                      TwitterFeed.defaultInfluencers ++ ["saylor"];
                    TwitterFeed.cached :=
                      Some (TwitterFeed.defaultInfluencers ++ ["saylor"]) |},
                 TwitterFeed.NowMonitored 11)) by reflexivity.
  split; [exact H|].
  apply (initialize_restores _ _ "saylor" 11 [] H).
Defined.

(** ** TWITTER_MONITOR: the fetched tweets *)

Section Feed.

Import TwitterFeed.

Lemma store_rows (tweets : list FetchedTweet) :
  forall (table table' : list Row) (u : unit),
  store table tweets = (table', inr u) ->
  table' = table ++ map rowOf tweets.
Proof.
  induction tweets as [|tweet rest IH]; intros table table' u; simpl.
  - intros [= <- _]. rewrite app_nil_r. reflexivity.
  - unfold createRow.
    destruct (negb (existsb _ _)); [discriminate|].
    destruct (existsb _ table); [discriminate|].
    intros H. rewrite (IH _ _ _ H), <- app_assoc. reflexivity.
Qed.

Lemma simulated_authors (simulateTweets : nat -> string -> list FetchedTweet)
    (polled : list string) :
  (forall n u tweet,
     In tweet (simulateTweets n u) ->
     TwitterMonitorModule.username (body tweet) = u) ->
  forall n,
  Forall (fun tweet => In (TwitterMonitorModule.username (body tweet)) polled)
    (simulated simulateTweets n polled).
Proof.
  intros Hsim. induction polled as [|u rest IH]; intros n; simpl.
  - constructor.
  - apply Forall_app. split.
    + apply Forall_forall. intros tweet Hin. left.
      symmetry. apply (Hsim n u tweet Hin).
    + eapply Forall_impl; [|apply IH]. intros tweet H. right. exact H.
Qed.

Lemma firstn_snoc (l : list string) (u : string) :
  5 <= List.length l -> firstn 5 (l ++ [u]) = firstn 5 l.
Proof.
  intros H. rewrite firstn_app.
  replace (5 - List.length l) with 0 by lia.
  simpl. apply app_nil_r.
Qed.

End Feed.

(** X14: [fetchRecentTweets] polls the first five monitored accounts and
    no other.  Without a bearer token it throws and stores nothing.  When
    it succeeds, the tweets returned are those simulated for the first
    five accounts, each written by one of these five, and the table has
    grown by one row per tweet, in order.  Adding an account to a module
    that already monitors five or more changes nothing of what is
    fetched. *)
Theorem fetchRecentTweets_first_five (token : option string)
    (simulateTweets : nat -> string -> list TwitterFeed.FetchedTweet)
    (s : TwitterFeed.State) (table : list TwitterFeed.Row) :
  (forall n u tweet,
     In tweet (simulateTweets n u) ->
     TwitterMonitorModule.username (TwitterFeed.body tweet) = u) ->
  (token = None \/ token = Some "" ->
   TwitterFeed.fetchRecentTweets token simulateTweets s table
   = (table,
      inl (JsError "Failed to fetch tweets: Twitter API token not configured")))
  /\ (forall table' tweets,
        TwitterFeed.fetchRecentTweets token simulateTweets s table
        = (table', inr tweets) ->
        tweets
        = TwitterFeed.simulated simulateTweets 0
            (firstn 5 (TwitterFeed.influencers s))
        /\ Forall (fun tweet =>
                     In (TwitterMonitorModule.username (TwitterFeed.body tweet))
                       (firstn 5 (TwitterFeed.influencers s))) tweets
        /\ table' = table ++ map TwitterFeed.rowOf tweets)
  /\ (5 <= List.length (TwitterFeed.influencers s) ->
      forall username,
        TwitterFeed.fetchRecentTweets token simulateTweets
          (fst (TwitterFeed.addInfluencer s username)) table
        = TwitterFeed.fetchRecentTweets token simulateTweets s table).
Proof.
  intros Hsim. split; [|split].
  - intros [-> | ->]; reflexivity.
  - intros table' tweets. unfold TwitterFeed.fetchRecentTweets.
    destruct token as [[|c tok]|]; try discriminate.
    destruct (TwitterFeed.store table _) as [table1 [e|[]]] eqn:S; simpl;
      [discriminate|].
    intros [= <- <-]. split; [reflexivity|]. split.
    + apply simulated_authors, Hsim.
    + apply (store_rows _ _ _ _ S).
  - intros Hlen username. unfold TwitterFeed.addInfluencer.
    destruct (existsb (String.eqb username) (TwitterFeed.influencers s));
      [reflexivity|].
    unfold TwitterFeed.fetchRecentTweets. simpl TwitterFeed.influencers.
    rewrite (firstn_snoc _ _ Hlen). reflexivity.
Qed.

Lemma fetchRecentTweets_first_five_witness :
  (forall n u tweet,
     In tweet (tweetBy n u) ->
     TwitterMonitorModule.username (TwitterFeed.body tweet) = u)
  /\ TwitterFeed.fetchRecentTweets (Some "token") tweetBy
       (fst (TwitterFeed.addInfluencer (fst (TwitterFeed.initialize newModule))
               "saylor")) []
     = TwitterFeed.fetchRecentTweets (Some "token") tweetBy
         (fst (TwitterFeed.initialize newModule)) [].
Proof.
  assert (H : forall n u tweet,
            In tweet (tweetBy n u) ->
            TwitterMonitorModule.username (TwitterFeed.body tweet) = u).
  { intros n u tweet [<- | []]. reflexivity. }
  split; [exact H|].
  apply (fetchRecentTweets_first_five (Some "token") tweetBy
           (fst (TwitterFeed.initialize newModule)) [] H).
  simpl. lia.
Defined.

(** ** The sentiment route *)

Section SentimentRoute.

Import AiPredict.

Lemma uniq_into_NoDup (names : list string) :
  forall seen, NoDup seen -> NoDup (uniq_into seen names).
Proof.
  induction names as [|name rest IH]; intros seen H; simpl; [exact H|].
  destruct (existsb (String.eqb name) seen) eqn:E; [apply IH, H|].
  apply IH. apply NoDup_app; [exact H|repeat constructor; auto|].
  intros x Hx [<- | []].
  apply existsb_eqb_In in Hx. congruence.
Qed.

Lemma uniq_into_In (names : list string) :
  forall seen x, In x (uniq_into seen names) -> In x seen \/ In x names.
Proof.
  induction names as [|name rest IH]; intros seen x; simpl; [auto|].
  destruct (existsb (String.eqb name) seen).
  - intros H. destruct (IH _ _ H); auto.
  - intros H. destruct (IH _ _ H) as [H1 | H1]; auto.
    apply in_app_or in H1. destruct H1 as [H1 | [<- | []]]; auto.
Qed.

Lemma firstn_incl (n : nat) (l : list string) (x : string) :
  In x (firstn n l) -> In x l.
Proof.
  revert n. induction l as [|y l IH]; intros [|n]; simpl; try tauto.
  intros [H | H]; [auto | right; apply (IH n H)].
Qed.

Lemma firstn_NoDup (n : nat) (l : list string) : NoDup l -> NoDup (firstn n l).
Proof.
  revert n. induction l as [|x l IH]; intros [|n] H; simpl; try constructor.
  - inversion H as [|? ? Hn Hl]; subst. intros Hin. apply Hn.
    apply (firstn_incl _ _ _ Hin).
  - inversion H; subst. apply IH. assumption.
Qed.

(** Tweets whose sentiment is one of the three labels are counted once. *)
Lemma counts_total (tweets : list TwitterMonitorModule.Tweet) :
  Forall (fun t => existsb (String.eqb (TwitterMonitorModule.sentiment t))
                     ["positive"; "negative"; "neutral"] = true) tweets ->
  countSentiment "positive" tweets + countSentiment "negative" tweets
  + countSentiment "neutral" tweets
  = List.length tweets.
Proof.
  unfold countSentiment. induction 1 as [|t tweets Ht _ IH]; simpl; [reflexivity|].
  simpl in Ht.
  destruct (String.eqb (TwitterMonitorModule.sentiment t) "positive") eqn:P.
  - apply String.eqb_eq in P. rewrite P. simpl. lia.
  - destruct (String.eqb (TwitterMonitorModule.sentiment t) "negative") eqn:N.
    + apply String.eqb_eq in N. rewrite N. simpl. lia.
    + destruct (String.eqb (TwitterMonitorModule.sentiment t) "neutral") eqn:U;
        [|discriminate Ht].
      simpl. lia.
Qed.

(** What was stored had its sentiment among the labels. *)
Lemma store_sentiments (tweets : list TwitterFeed.FetchedTweet) :
  forall (table table' : list TwitterFeed.Row) (u : unit),
  TwitterFeed.store table tweets = (table', inr u) ->
  Forall (fun t => existsb (String.eqb (TwitterMonitorModule.sentiment t))
                     ["positive"; "negative"; "neutral"] = true)
    (map TwitterFeed.body tweets).
Proof.
  induction tweets as [|tweet rest IH]; intros table table' u; simpl.
  - constructor.
  - unfold TwitterFeed.createRow.
    destruct (negb (existsb _ _)) eqn:E; [discriminate|].
    destruct (existsb _ table); [discriminate|].
    intros H. constructor; [|apply (IH _ _ _ H)].
    apply negb_false_iff in E. exact E.
Qed.

(** What a successful fetch returned: tweets of the first five accounts,
    with sentiments among the labels. *)
Lemma fetchRecentTweets_authors (token : option string)
    (simulateTweets : nat -> string -> list TwitterFeed.FetchedTweet)
    (s : TwitterFeed.State) (table table' : list TwitterFeed.Row)
    (tweets : list TwitterFeed.FetchedTweet) :
  (forall n u tweet,
     In tweet (simulateTweets n u) ->
     TwitterMonitorModule.username (TwitterFeed.body tweet) = u) ->
  TwitterFeed.fetchRecentTweets token simulateTweets s table = (table', inr tweets) ->
  Forall (fun t => In (TwitterMonitorModule.username t)
                     (firstn 5 (TwitterFeed.influencers s)))
    (map TwitterFeed.body tweets)
  /\ Forall (fun t => existsb (String.eqb (TwitterMonitorModule.sentiment t))
                        ["positive"; "negative"; "neutral"] = true)
       (map TwitterFeed.body tweets).
Proof.
  intros Hsim. unfold TwitterFeed.fetchRecentTweets.
  destruct token as [[|c tok]|]; try discriminate.
  destruct (TwitterFeed.store table _) as [table1 [e|[]]] eqn:S; simpl;
    [discriminate|].
  intros [= <- <-]. split.
  - apply Forall_map. apply simulated_authors, Hsim.
  - apply (store_sentiments _ _ _ _ S).
Qed.

(** A report is made of the tweets that mention the symbol, and there
    is at least one of them. *)
Lemma sentimentReport_Some (symbol : string)
    (tweets : list TwitterMonitorModule.Tweet) (report : SentimentReport) :
  sentimentReport symbol tweets = Some report ->
  filter (mentions symbol) tweets <> []
  /\ AiPredict.symbol report = symbol
  /\ tweetCount report = List.length (filter (mentions symbol) tweets)
  /\ positive report = countSentiment "positive" (filter (mentions symbol) tweets)
  /\ negative report = countSentiment "negative" (filter (mentions symbol) tweets)
  /\ neutral report = countSentiment "neutral" (filter (mentions symbol) tweets)
  /\ topInfluencers report
     = firstn 5 (uniq (map TwitterMonitorModule.username
                         (filter (mentions symbol) tweets))).
Proof.
  unfold sentimentReport.
  destruct (filter (mentions symbol) tweets) as [|t rest]; [discriminate|].
  intros H. assert (E : report = _) by (symmetry; injection H; exact (fun e => e)).
  rewrite E. split; [discriminate|]. repeat split.
Qed.

End SentimentRoute.

(** X15: [GET /sentiment].  Without a symbol the answer is 400 and
    nothing is initialized or fetched; without a bearer token it is 500.
    A 200 answer is about at least one tweet, so that the average never
    divides by zero; its three sentiment counts add up to the tweet
    count; and its top influencers are at most five distinct names, each
    among the first five monitored accounts. *)
Theorem sentiment_route (query token : option string)
    (simulateTweets : nat -> string -> list TwitterFeed.FetchedTweet)
    (s : TwitterFeed.State) (table : list TwitterFeed.Row) :
  (forall n u tweet,
     In tweet (simulateTweets n u) ->
     TwitterMonitorModule.username (TwitterFeed.body tweet) = u) ->
  (query = None \/ query = Some "" ->
   AiPredict.sentiment query token simulateTweets s table
   = (s, table, Status400 "Symbol parameter is required"))
  /\ (forall symbol,
        query = Some symbol -> symbol <> "" ->
        token = None \/ token = Some "" ->
        AiPredict.sentiment query token simulateTweets s table
        = (fst (TwitterFeed.initialize s), table,
           Status500 "Failed to analyze sentiment"))
  /\ (forall s' table' report,
        AiPredict.sentiment query token simulateTweets s table
        = (s', table', Status200 report) ->
        query = Some (AiPredict.symbol report)
        /\ 1 <= AiPredict.tweetCount report
        /\ AiPredict.positive report + AiPredict.negative report
           + AiPredict.neutral report
           = AiPredict.tweetCount report
        /\ NoDup (AiPredict.topInfluencers report)
        /\ List.length (AiPredict.topInfluencers report) <= 5
        /\ Forall (fun name =>
                     In name (firstn 5 (TwitterFeed.influencers
                                          (fst (TwitterFeed.initialize s)))))
             (AiPredict.topInfluencers report)).
Proof.
  intros Hsim. split; [|split].
  - intros [-> | ->]; reflexivity.
  - intros symbol -> Hne Htok. unfold AiPredict.sentiment.
    destruct symbol as [|c symbol]; [congruence|].
    destruct Htok as [-> | ->]; reflexivity.
  - intros s' table' report. unfold AiPredict.sentiment.
    destruct query as [[|c symbol]|]; try discriminate.
    destruct (TwitterFeed.fetchRecentTweets token simulateTweets
                (fst (TwitterFeed.initialize s)) table)
      as [table1 [e|tweets]] eqn:F; [discriminate|].
    destruct (fetchRecentTweets_authors token simulateTweets
                (fst (TwitterFeed.initialize s)) table table1 tweets Hsim F)
      as [Hauth Hsent].
    destruct (AiPredict.sentimentReport (String c symbol)
                (map TwitterFeed.body tweets)) as [report1|] eqn:R;
      [|discriminate].
    intros [= <- <- <-].
    destruct (sentimentReport_Some _ _ _ R)
      as (Hne & -> & -> & -> & -> & -> & ->).
    set (symbolTweets := filter (mentions (String c symbol))
                           (map TwitterFeed.body tweets)) in *.
    assert (Hsub : forall x, In x symbolTweets ->
                             In x (map TwitterFeed.body tweets)).
    { intros x Hx. apply filter_In in Hx. tauto. }
    split; [reflexivity|]. split.
    { destruct symbolTweets; [congruence | simpl; lia]. }
    split.
    + apply counts_total.
      apply Forall_forall. intros x Hx.
      rewrite Forall_forall in Hsent. apply Hsent, Hsub, Hx.
    + split; [apply firstn_NoDup, uniq_into_NoDup; constructor|].
      split; [apply firstn_le_length|].
      apply Forall_forall. intros name Hname.
      apply firstn_incl, uniq_into_In in Hname.
      destruct Hname as [[] | Hname].
      apply in_map_iff in Hname. destruct Hname as (x & <- & Hx).
      rewrite Forall_forall in Hauth. apply Hauth, Hsub, Hx.
Qed.

Lemma sentiment_route_witness :
  (forall n u tweet,
     In tweet (tweetBy n u) ->
     TwitterMonitorModule.username (TwitterFeed.body tweet) = u)
  /\ exists s' table' report,
       AiPredict.sentiment (Some "BTC") (Some "token") tweetBy newModule []
       = (s', table', Status200 report)
       /\ AiPredict.tweetCount report = 5
       /\ AiPredict.positive report + AiPredict.negative report
          + AiPredict.neutral report
          = AiPredict.tweetCount report
       /\ NoDup (AiPredict.topInfluencers report).
Proof.
  assert (H : forall n u tweet,
            In tweet (tweetBy n u) ->
            TwitterMonitorModule.username (TwitterFeed.body tweet) = u).
  { intros n u tweet [<- | []]. reflexivity. }
  split; [exact H|].
  destruct (sentiment_route (Some "BTC") (Some "token") tweetBy newModule [] H)
    as (_ & _ & Hok).
  do 3 eexists. split; [vm_compute; reflexivity|].
  split; [reflexivity|].
  edestruct Hok as (_ & _ & Hcount & Hdistinct & _); [vm_compute; reflexivity|].
  split; [exact Hcount | exact Hdistinct].
Defined.


(** ** The largest element of an array and its index *)

Section Arrays.

Local Open Scope float_scope.

Lemma Math_max_nan (x y : number) :
  is_nan x = true \/ is_nan y = true -> is_nan (Math_max x y) = true.
Proof.
  unfold Math_max. intros [-> | ->]; rewrite ?orb_true_r; reflexivity.
Qed.

(** The maximum of two numbers is one of them and is below neither. *)
Lemma Math_max_spec (x y : number) :
  is_nan x = false -> is_nan y = false ->
  (Math_max x y = x \/ Math_max x y = y)
  /\ (x <=? Math_max x y) = true /\ (y <=? Math_max x y) = true.
Proof.
  intros Hx Hy. unfold Math_max. rewrite Hx, Hy. simpl.
  destruct (x <? y) eqn:L.
  - auto using ltb_leb, leb_refl.
  - destruct (y <? x) eqn:G.
    + auto using ltb_leb, leb_refl.
    + pose proof (not_ltb_leb _ _ Hx Hy G).
      pose proof (not_ltb_leb _ _ Hy Hx L).
      destruct (classify x); auto using leb_refl.
Qed.

Lemma Math_max_of_nan (a : list number) :
  forall acc, is_nan acc = true -> is_nan (fold_left Math_max a acc) = true.
Proof.
  induction a as [|x a IH]; intros acc H; simpl; [exact H|].
  apply IH, Math_max_nan. auto.
Qed.

Lemma fold_Math_max (a : list number) :
  forall acc,
  is_nan acc = false ->
  Forall (fun x => is_nan x = false) a ->
  is_nan (fold_left Math_max a acc) = false
  /\ (acc <=? fold_left Math_max a acc) = true
  /\ Forall (fun x => (x <=? fold_left Math_max a acc) = true) a
  /\ (fold_left Math_max a acc = acc \/ In (fold_left Math_max a acc) a).
Proof.
  induction a as [|x a IH]; intros acc Hacc Ha; simpl.
  - auto using leb_refl.
  - inversion Ha as [|? ? Hx Ha']; subst.
    destruct (Math_max_spec acc x Hacc Hx) as (Hm & Hl & Hr).
    assert (Hn : is_nan (Math_max acc x) = false)
      by (destruct Hm as [-> | ->]; assumption).
    destruct (IH _ Hn Ha') as (H1 & H2 & H3 & H4).
    split; [exact H1|]. split; [apply (leb_trans _ _ _ Hl H2)|].
    split; [constructor; [apply (leb_trans _ _ _ Hr H2)|exact H3]|].
    destruct H4 as [H4 | H4]; [|auto].
    rewrite H4. destruct Hm as [-> | ->]; auto.
Qed.

Lemma indexOf_nan (a : list number) (x : number) :
  is_nan x = true -> indexOf a x = None.
Proof.
  intros H. induction a as [|y a IH]; simpl; [reflexivity|].
  destruct (y =? x) eqn:E.
  - apply eqb_not_nan in E. destruct E. congruence.
  - rewrite IH. reflexivity.
Qed.

Lemma indexOf_Some (a : list number) (x : number) :
  forall i, indexOf a x = Some i ->
  (exists y, nth_error a i = Some y /\ (y =? x) = true)
  /\ (forall j y, (j < i)%nat -> nth_error a j = Some y -> (y =? x) = false).
Proof.
  induction a as [|z a IH]; simpl; intros i; [discriminate|].
  destruct (z =? x) eqn:E.
  - intros [= <-]. split; [exists z; auto|]. intros j y Hj. lia.
  - destruct (indexOf a x) as [k|]; [|discriminate].
    intros [= <-]. destruct (IH k eq_refl) as (Hk & Hbefore).
    split; [exact Hk|]. intros [|j] y Hj; simpl.
    + intros [= <-]. exact E.
    + apply Hbefore. lia.
Qed.

Lemma indexOf_found (a : list number) (x y : number) :
  In y a -> (y =? x) = true -> exists i, indexOf a x = Some i.
Proof.
  induction a as [|z a IH]; simpl; [tauto|].
  intros Hin E. destruct (z =? x) eqn:Ez; [eauto|].
  destruct Hin as [-> | Hin]; [congruence|].
  destruct (IH Hin E) as [i ->]. simpl. eauto.
Qed.

(** [a.indexOf(Math.max(...a))] on an array without [NaN] that is not
    empty: the index of the first of the largest elements. *)
Lemma argmax (a : list number) :
  a <> [] ->
  Forall (fun x => is_nan x = false) a ->
  exists i x,
    indexOf a (Math_max_of a) = Some i
    /\ nth_error a i = Some x
    /\ (forall y, In y a -> (y <=? x) = true)
    /\ (forall j y, (j < i)%nat -> nth_error a j = Some y -> (y <? x) = true).
Proof.
  intros Hne Ha. unfold Math_max_of.
  destruct (fold_Math_max a neg_infinity eq_refl Ha) as (Hn & _ & Hall & Hin).
  set (M := fold_left Math_max a neg_infinity) in *.
  rewrite Forall_forall in Hall.
  assert (Hex : exists y, In y a /\ (y =? M) = true).
  { destruct Hin as [E | Hin].
    - destruct a as [|y a]; [congruence|]. exists y. split; [left; reflexivity|].
      apply leb_antisym; [apply Hall; left; reflexivity|].
      rewrite E. apply neg_infinity_leb.
      inversion Ha; assumption.
    - exists M. auto using eqb_refl. }
  destruct Hex as (y & Hy & Ey).
  destruct (indexOf_found a M y Hy Ey) as [i Hi].
  destruct (indexOf_Some a M i Hi) as ((x & Hx & Ex) & Hbefore).
  exists i, x. repeat split; auto.
  - intros z Hz. apply (leb_eqb_r _ _ _ (Hall z Hz) Ex).
  - intros j z Hj Hz.
    apply (ltb_eqb_r _ M); [|exact Ex].
    apply leb_neq_ltb; [apply Hall, (nth_error_In _ _ Hz)|eauto].
Qed.

(** With a [NaN] in the array, the maximum is [NaN] and [indexOf] finds
    nothing. *)
Lemma argmax_nan (a : list number) :
  Exists (fun x => is_nan x = true) a ->
  indexOf a (Math_max_of a) = None.
Proof.
  intros H. apply indexOf_nan. unfold Math_max_of.
  generalize neg_infinity.
  induction H as [x a Hx | x a _ IH]; intros acc; simpl.
  - apply Math_max_of_nan, Math_max_nan. auto.
  - apply IH.
Qed.

Lemma nan_or_not (a : list number) :
  Forall (fun x => is_nan x = false) a \/ Exists (fun x => is_nan x = true) a.
Proof.
  induction a as [|x a [IH | IH]]; auto.
  destruct (is_nan x) eqn:E; auto.
Qed.

(** Whenever [a.indexOf(Math.max(...a))] is an index, no element is
    [NaN], the element at the index is not below any other, and those
    before it are strictly below. *)
Lemma argmax_Some (a : list number) (i : nat) :
  indexOf a (Math_max_of a) = Some i ->
  Forall (fun x => is_nan x = false) a
  /\ exists x,
       nth_error a i = Some x
       /\ (forall y, In y a -> (y <=? x) = true)
       /\ (forall j y, (j < i)%nat -> nth_error a j = Some y -> (y <? x) = true).
Proof.
  intros H. destruct (nan_or_not a) as [Ha | Ha].
  - split; [exact Ha|].
    assert (Hne : a <> []) by (intros ->; discriminate).
    destruct (argmax a Hne Ha) as (k & x & Hk & Hx).
    rewrite Hk in H. injection H as <-. eauto.
  - rewrite (argmax_nan a Ha) in H. discriminate.
Qed.

(** It is no index exactly when the array is empty or holds a [NaN]. *)
Lemma argmax_None (a : list number) :
  indexOf a (Math_max_of a) = None <->
  a = [] \/ Exists (fun x => is_nan x = true) a.
Proof.
  split.
  - intros H. destruct a as [|x a]; [auto|]. right.
    destruct (nan_or_not (x :: a)) as [Ha | Ha]; [|exact Ha].
    destruct (argmax (x :: a)) as (k & y & Hk & _);
      [discriminate|exact Ha|congruence].
  - intros [-> | Ha]; [reflexivity|apply argmax_nan, Ha].
Qed.

End Arrays.
(** ** DEEPSEEK_AI: the patterns *)

Section Patterns.

Local Open Scope float_scope.

Lemma is_nan_eq (x : float) : is_nan x = true -> x = nan.
Proof.
  intros H. apply Prim2SF_inj. apply is_nan_spec in H. rewrite H.
  reflexivity.
Qed.

(** [x - x] is a zero, or [NaN]. *)
Lemma sub_diag (x : float) :
  Prim2SF (x - x) = S754_nan \/ exists s, Prim2SF (x - x) = S754_zero s.
Proof.
  rewrite FloatAxioms.sub_spec.
  destruct (Prim2SF x) as [[]|[]| |s m e]; simpl; eauto.
  rewrite Z.sub_diag. simpl. eauto.
Qed.

(** [0 / 0] and [NaN / NaN] *)
Lemma div_diag_nan (d : float) :
  Prim2SF d = S754_nan \/ (exists s, Prim2SF d = S754_zero s) ->
  d / d = nan.
Proof.
  intros H. apply is_nan_eq, is_nan_spec. rewrite FloatAxioms.div_spec.
  destruct H as [-> | [s ->]]; reflexivity.
Qed.

Lemma sub_nan_l (x y : float) : is_nan x = true -> is_nan (x - y) = true.
Proof.
  rewrite !is_nan_spec, FloatAxioms.sub_spec. intros ->. reflexivity.
Qed.

Lemma div_nan_l (x y : float) : is_nan x = true -> is_nan (x / y) = true.
Proof.
  rewrite !is_nan_spec, FloatAxioms.div_spec. intros ->. reflexivity.
Qed.

Lemma infinity_not_ltb (x : float) : (infinity <? x) = false.
Proof.
  rewrite FloatAxioms.ltb_spec. unfold SFltb.
  replace (Prim2SF infinity) with (S754_infinity false)
    by (vm_compute; reflexivity).
  destruct (Prim2SF x) as [[]|[]| |[] m e]; reflexivity.
Qed.

Lemma not_ltb_neg_infinity (x : float) : (x <? neg_infinity) = false.
Proof.
  rewrite FloatAxioms.ltb_spec. unfold SFltb.
  replace (Prim2SF neg_infinity) with (S754_infinity true)
    by (vm_compute; reflexivity).
  destruct (Prim2SF x) as [[]|[]| |[] m e]; reflexivity.
Qed.

Lemma ltb_irrefl (x : float) : (x <? x) = false.
Proof.
  destruct (x <? x) eqn:E; [|reflexivity].
  pose proof (ltb_asym _ _ E). congruence.
Qed.

Lemma Math_min_diag (x : number) : is_nan x = false -> Math_min x x = x.
Proof.
  intros H. unfold Math_min. rewrite H, ltb_irrefl. simpl.
  destruct (classify x); reflexivity.
Qed.

Lemma Math_max_diag (x : number) : is_nan x = false -> Math_max x x = x.
Proof.
  intros H. unfold Math_max. rewrite H, ltb_irrefl. simpl.
  destruct (classify x); reflexivity.
Qed.

Lemma Math_min_infinity (x : number) :
  is_nan x = false -> Math_min infinity x = x.
Proof.
  intros H. unfold Math_min. rewrite H, infinity_not_ltb.
  change (is_nan infinity) with false. simpl.
  destruct (x <? infinity); reflexivity.
Qed.

Lemma Math_max_neg_infinity (x : number) :
  is_nan x = false -> Math_max neg_infinity x = x.
Proof.
  intros H. unfold Math_max. rewrite H, not_ltb_neg_infinity.
  change (is_nan neg_infinity) with false. simpl.
  destruct (neg_infinity <? x) eqn:L; [reflexivity|].
  change (classify neg_infinity) with NInf. cbv iota.
  symmetry. apply Prim2SF_inj.
  apply is_nan_false in H. revert L.
  rewrite FloatAxioms.ltb_spec. unfold SFltb.
  replace (Prim2SF neg_infinity) with (S754_infinity true)
    by (vm_compute; reflexivity).
  destruct (Prim2SF x) as [[]|[]| |[] m e]; simpl; congruence.
Qed.

Lemma fold_Math_min_repeat (x : number) (n : nat) :
  is_nan x = false -> fold_left Math_min (repeat x n) x = x.
Proof.
  intros H. induction n as [|n IH]; simpl; [reflexivity|].
  rewrite (Math_min_diag x H). exact IH.
Qed.

Lemma fold_Math_max_repeat (x : number) (n : nat) :
  is_nan x = false -> fold_left Math_max (repeat x n) x = x.
Proof.
  intros H. induction n as [|n IH]; simpl; [reflexivity|].
  rewrite (Math_max_diag x H). exact IH.
Qed.

(** The smallest and the largest price of a market that does not move. *)
Lemma Math_min_of_repeat (x : number) (n : nat) :
  is_nan x = false -> Math_min_of (repeat x (S n)) = x.
Proof.
  intros H. unfold Math_min_of. simpl. rewrite (Math_min_infinity x H).
  apply fold_Math_min_repeat, H.
Qed.

Lemma Math_max_of_repeat (x : number) (n : nat) :
  is_nan x = false -> Math_max_of (repeat x (S n)) = x.
Proof.
  intros H. unfold Math_max_of. simpl. rewrite (Math_max_neg_infinity x H).
  apply fold_Math_max_repeat, H.
Qed.

Lemma map_repeat {A B : Type} (f : A -> B) (x : A) (n : nat) :
  map f (repeat x n) = repeat (f x) n.
Proof. induction n; simpl; congruence. Qed.

(** A value among equal values is normalized to [NaN]. *)
Lemma flat_ratio (price : number) (n : nat) :
  ((price - Math_min_of (repeat price n))
   / (Math_max_of (repeat price n) - Math_min_of (repeat price n)))%float
  = nan.
Proof.
  destruct (is_nan price) eqn:N.
  - apply is_nan_eq, div_nan_l, sub_nan_l, N.
  - destruct n as [|n].
    + change (Math_min_of (repeat price 0)) with infinity.
      change (Math_max_of (repeat price 0)) with neg_infinity.
      apply is_nan_eq, is_nan_spec.
      rewrite FloatAxioms.div_spec, !FloatAxioms.sub_spec.
      replace (Prim2SF infinity) with (S754_infinity false)
        by (vm_compute; reflexivity).
      replace (Prim2SF neg_infinity) with (S754_infinity true)
        by (vm_compute; reflexivity).
      destruct (Prim2SF price) as [[]|[]| |[] m e]; reflexivity.
    + rewrite (Math_min_of_repeat _ _ N), (Math_max_of_repeat _ _ N).
      apply div_diag_nan, sub_diag.
Qed.

Lemma normalize_repeat (price : number) (n : nat) :
  DeepseekAI.normalize (repeat price n) = repeat nan n.
Proof.
  unfold DeepseekAI.normalize. rewrite map_repeat. f_equal.
  apply flat_ratio.
Qed.

Lemma firstn_app_full {A : Type} (n : nat) (l more : list A) :
  (n <= List.length l)%nat -> firstn n (l ++ more) = firstn n l.
Proof.
  intros H. rewrite firstn_app.
  replace (n - List.length l)%nat with 0%nat by lia.
  simpl. apply app_nil_r.
Qed.

Lemma oldest_app (limit : nat) (market more : list MarketData.t)
    (symbol : string) :
  (limit <= List.length (MarketData.of_symbol symbol market))%nat ->
  MarketData.oldest limit (market ++ more) symbol
  = MarketData.oldest limit market symbol.
Proof.
  intros H. unfold MarketData.oldest, MarketData.of_symbol in *.
  rewrite filter_app. apply firstn_app_full, H.
Qed.

Lemma oldest_length (limit : nat) (market : list MarketData.t) (symbol : string) :
  List.length (MarketData.oldest limit market symbol)
  = Nat.min limit (List.length (MarketData.of_symbol symbol market)).
Proof. apply length_firstn. Qed.

(** A signal whose labels are those of the model is refused for its
    confidence only. *)
Lemma create_refused_confidence (st st' : Store) (a : Attributes) (e : Error)
    (act : Action) (src : Source) (sta : Status) :
  Action_of_string (a_action a) = Some act ->
  Source_of_string (a_source a) = Some src ->
  match a_status a with
  | Some l => Status_of_string l
  | None => Some pending
  end = Some sta ->
  create st a = (st', inl e) ->
  e = ValidationError "confidence"
  /\ validate_confidence (a_confidence a) = false.
Proof.
  unfold create. intros -> -> ->.
  destruct (validate_confidence (a_confidence a)); [discriminate|].
  intros [= _ <-]. auto.
Qed.

End Patterns.

(** X16: what [analyzePatterns] leaves behind.  With fewer than 60 rows
    of the symbol it answers that the data is insufficient.  With 60 rows
    the library is handed one row with the normalized prices; when the
    library throws, [analyzePatterns] throws "Pattern analysis failed: ..."
    with the message of the library.  When the library gives a prediction,
    a confidence that is not above 70 (or is [NaN]) is answered as too
    low, a confidence above 100 is refused by the model and thrown, and
    otherwise exactly one signal is added: pending, from DEEPSEEK_AI, under
    a new key, for one day, with the action that was read and the
    confidence that was read, with two decimals.  In every case but the
    last the table of signals is as before, and the module is initialized
    afterwards in every case.  With a library that throws on the row, as
    [tf.tensor3d] does on an array nested two levels deep, no signal is
    ever added: the answer is that the data is insufficient, or an
    error. *)
Theorem analyzePatterns_gate (now : Z)
    (patternModel : list (list number) -> Error + list number)
    (s s' : DeepseekAI.State) (market : list MarketData.t) (st st' : Store)
    (symbol : string) (result : Error + DeepseekAI.PatternAnalysis) :
  DeepseekAI.analyzePatterns now patternModel s market st symbol
  = (s', st', result) ->
  DeepseekAI.isInitialized s' = true
  /\ match result with
     | inr DeepseekAI.Insufficient =>
         st' = st
         /\ (List.length (MarketData.of_symbol symbol market) < 60)%nat
     | inl e =>
         st' = st
         /\ (60 <= List.length (MarketData.of_symbol symbol market))%nat
         /\ match patternModel (patternInput market symbol) with
            | inl thrown =>
                e = JsError ("Pattern analysis failed: " ++ message thrown)%string
            | inr patternData =>
                (100 <? DeepseekAI.confidence (DeepseekAI.interpret patternData))%float
                = true
                /\ e = JsError "Pattern analysis failed: Validation error: confidence"
            end
     | inr (DeepseekAI.TooLow name c) =>
         st' = st
         /\ (60 <= List.length (MarketData.of_symbol symbol market))%nat
         /\ exists patternData,
              patternModel (patternInput market symbol) = inr patternData
              /\ name = DeepseekAI.patternName (DeepseekAI.interpret patternData)
              /\ c = DeepseekAI.confidence (DeepseekAI.interpret patternData)
              /\ (70 <? c)%float = false
     | inr (DeepseekAI.Detected name c a i) =>
         (60 <= List.length (MarketData.of_symbol symbol market))%nat
         /\ exists patternData,
              patternModel (patternInput market symbol) = inr patternData
              /\ name = DeepseekAI.patternName (DeepseekAI.interpret patternData)
              /\ c = DeepseekAI.confidence (DeepseekAI.interpret patternData)
              /\ a = DeepseekAI.action (DeepseekAI.interpret patternData)
              /\ (70 <? c)%float = true /\ (c <=? 100)%float = true
              /\ exists signal,
                   st' = st ++ [signal]
                   /\ id signal = i /\ i = fresh st
                   /\ TradingSignal.symbol signal = symbol
                   /\ action signal = a
                   /\ confidence signal = DECIMAL_5_2 c
                   /\ source signal = DEEPSEEK_AI
                   /\ status signal = pending
                   /\ timeframe signal = Some "1d"
                   /\ expiresAt signal = Some (now + 86400000)%Z
     end
  /\ ((forall values, exists thrown, patternModel values = inl thrown) ->
      st' = st
      /\ (result = inr DeepseekAI.Insufficient \/ exists e, result = inl e)).
Proof.
  unfold DeepseekAI.analyzePatterns, patternInput.
  pose proof (oldest_length 60 market symbol) as Hlen.
  set (historicalData := MarketData.oldest 60 market symbol) in *.
  assert (Hinit : DeepseekAI.isInitialized
                    (if DeepseekAI.isInitialized s then s
                     else DeepseekAI.initialize now s) = true).
  { destruct (DeepseekAI.isInitialized s) eqn:E; [exact E|reflexivity]. }
  destruct (List.length historicalData <? 60)%nat eqn:L.
  - intros [= <- <- <-]. apply Nat.ltb_lt in L. split; [exact Hinit|].
    split; [|auto].
    split; [reflexivity|clearbody historicalData; lia].
  - apply Nat.ltb_ge in L.
    assert (H60 : (60 <= List.length (MarketData.of_symbol symbol market))%nat)
      by (clearbody historicalData; lia).
    destruct (patternModel [DeepseekAI.normalize (map MarketData.price historicalData)])
      as [thrown|patternData] eqn:P.
    { unfold rethrow. intros [= <- <- <-]. split; [exact Hinit|].
      split; [|eauto]. auto. }
    set (r := DeepseekAI.interpret patternData).
    intros H. split; [|split].
    + revert H. destruct (70 <? DeepseekAI.confidence r)%float;
        [destruct (create st _) as [st1 [e|signal]]|]; unfold rethrow;
        intros [= <- <- <-]; exact Hinit.
    + revert H. destruct (70 <? DeepseekAI.confidence r)%float eqn:G.
      * destruct (create st _) as [st1 [e|signal]] eqn:C; unfold rethrow;
          intros [= <- <- <-].
        -- split; [apply (create_rejected _ _ _ _ C)|]. split; [exact H60|].
           pose proof C as V.
           eapply (create_refused_confidence _ _ _ _ (DeepseekAI.action r)
                     DEEPSEEK_AI pending) in V;
             [|apply Action_of_to_string|reflexivity|reflexivity].
           destruct V as [-> V].
           split; [|reflexivity].
           change (validate_confidence (DeepseekAI.confidence r) = false) in V.
           destruct (ltb_not_nan _ _ G) as [_ Hc].
           destruct (100 <? DeepseekAI.confidence r)%float eqn:W; [reflexivity|].
           rewrite (proj2 (validate_confidence_spec _)) in V; [discriminate|].
           right. split.
           ++ apply (leb_trans _ 70); [reflexivity|apply ltb_leb, G].
           ++ apply not_ltb_leb; auto.
        -- pose proof (create_accepted_valid _ _ _ _ C) as Hg.
           destruct (create_accepted _ _ _ _ C)
             as (E1 & E2 & E3 & E4 & E5 & E6 & E7 & _ & E8).
           destruct (create_accepted_fields _ _ _ _ C) as (F1 & F2 & _ & _ & F3).
           cbn [DeepseekAI.patternAttributes a_symbol a_action a_source a_status
                a_confidence a_expiresAt a_timeframe] in E3, E4, E5, E6, E7, F1, F3, Hg.
           rewrite Action_of_to_string in E4.
           injection E4 as E4. injection E5 as E5. injection E6 as E6.
           destruct (ltb_not_nan _ _ G) as [_ Hc].
           apply validate_confidence_spec in Hg.
           destruct Hg as [Hg | [_ Hg]]; [congruence|].
           split; [exact H60|]. exists patternData.
           split; [reflexivity|]. do 3 (split; [reflexivity|]).
           split; [exact G|]. split; [exact Hg|].
           exists signal. repeat split; auto.
      * intros [= <- <- <-]. split; [reflexivity|]. split; [exact H60|].
        exists patternData. auto.
    + intros Hlib. destruct (Hlib [DeepseekAI.normalize
                                     (map MarketData.price historicalData)])
        as (thrown & Ht). congruence.
Qed.

Lemma analyzePatterns_gate_witness :
  exists s',
    DeepseekAI.analyzePatterns 0 tensor3d_refuses newDeepseek (steadyMarket 60)
      threeOpinions "BTC"
    = (s', threeOpinions,
       inl (JsError "Pattern analysis failed: tensor3d() requires values to be number[][][] or flat/TypedArray"))
    /\ DeepseekAI.isInitialized s' = true.
Proof.
  destruct (DeepseekAI.analyzePatterns 0 tensor3d_refuses newDeepseek
              (steadyMarket 60) threeOpinions "BTC") as [[s' st'] result] eqn:E.
  pose proof (analyzePatterns_gate _ _ _ _ _ _ _ _ _ E) as [H _].
  vm_compute in E. injection E as <- <- <-.
  eexists. split; [reflexivity|exact H].
Defined.

(** X17: [analyzePatterns] reads the 60 oldest rows of the symbol and no
    other: once 60 rows are recorded, whatever the market data that
    follows, the library is handed the same row of prices and the outcome
    is the same. *)
Theorem analyzePatterns_oldest_sixty (now : Z)
    (patternModel : list (list number) -> Error + list number)
    (s : DeepseekAI.State)
    (market more : list MarketData.t) (st : Store) (symbol : string) :
  (60 <= List.length (MarketData.of_symbol symbol market))%nat ->
  patternInput (market ++ more) symbol = patternInput market symbol
  /\ DeepseekAI.analyzePatterns now patternModel s (market ++ more) st symbol
     = DeepseekAI.analyzePatterns now patternModel s market st symbol.
Proof.
  intros H. unfold DeepseekAI.analyzePatterns, patternInput.
  rewrite (oldest_app 60 market more symbol H). split; reflexivity.
Qed.

Lemma analyzePatterns_oldest_sixty_witness :
  (60 <= List.length (MarketData.of_symbol "BTC" (steadyMarket 60)))%nat
  /\ DeepseekAI.analyzePatterns 0 tensor3d_refuses newDeepseek
       (steadyMarket 60
        ++ [MarketData.mk 61 "BTC" 250 None None None None None "CYBER_METRICS"])
       [] "BTC"
     = DeepseekAI.analyzePatterns 0 tensor3d_refuses newDeepseek (steadyMarket 60)
         [] "BTC".
Proof.
  assert (H : (60 <= List.length (MarketData.of_symbol "BTC" (steadyMarket 60)))%nat)
    by (vm_compute; lia).
  split; [exact H|].
  apply (analyzePatterns_oldest_sixty 0 tensor3d_refuses newDeepseek
           (steadyMarket 60) _ [] "BTC" H).
Defined.

(** X18: a market that did not move is normalized to [NaN].  When the 60
    oldest prices of the symbol are one and the same, the smallest and the
    largest price are equal, every normalized price is [0 / 0], and what
    is handed to [tf.tensor3d] is one row of 60 times [NaN], whatever the
    price was. *)
Theorem analyzePatterns_flat_market (now : Z)
    (patternModel : list (list number) -> Error + list number)
    (s : DeepseekAI.State)
    (market : list MarketData.t) (st : Store) (symbol : string)
    (price : number) :
  map MarketData.price (MarketData.oldest 60 market symbol) = repeat price 60 ->
  DeepseekAI.normalize (map MarketData.price (MarketData.oldest 60 market symbol))
  = repeat nan 60
  /\ patternInput market symbol = [repeat nan 60]
  /\ DeepseekAI.analyzePatterns now patternModel s market st symbol
     = DeepseekAI.analyzePatterns now (fun _ => patternModel [repeat nan 60])
         s market st symbol.
Proof.
  intros H.
  assert (E : DeepseekAI.normalize
                (map MarketData.price (MarketData.oldest 60 market symbol))
              = repeat nan 60)
    by (rewrite H; apply normalize_repeat).
  split; [exact E|]. split; [unfold patternInput; rewrite E; reflexivity|].
  unfold DeepseekAI.analyzePatterns. rewrite E. reflexivity.
Qed.

Lemma analyzePatterns_flat_market_witness :
  map MarketData.price (MarketData.oldest 60 (steadyMarket 60) "BTC")
  = repeat 100%float 60
  /\ patternInput (steadyMarket 60) "BTC" = [repeat nan 60].
Proof.
  assert (H : map MarketData.price (MarketData.oldest 60 (steadyMarket 60) "BTC")
              = repeat 100%float 60)
    by (vm_compute; reflexivity).
  split; [exact H|].
  apply (analyzePatterns_flat_market 0 tensor3d_refuses newDeepseek
           (steadyMarket 60) [] "BTC" 100 H).
Defined.

(** X19: what [analyzePatterns] reads off a prediction.  When the index
    of the largest probability is defined, no probability is [NaN]; the
    probability at the index is not below any other and is above those
    before it; the confidence is 100 times that probability; and the
    action follows the pattern at the index: buy for a double bottom, an
    inverse head and shoulders or a cup and handle, sell for a double top,
    a head and shoulders or a wedge, hold for every other pattern and for
    an index beyond the ten names. *)
Theorem interpret_reading (patternData : list number) (i : nat) :
  DeepseekAI.patternIndex (DeepseekAI.interpret patternData) = Some i ->
  Forall (fun x => is_nan x = false) patternData
  /\ DeepseekAI.patternName (DeepseekAI.interpret patternData)
     = nth_error DeepseekAI.patternNames i
  /\ DeepseekAI.action (DeepseekAI.interpret patternData)
     = (if existsb (Nat.eqb i) [1; 3; 7]%nat then buy
        else if existsb (Nat.eqb i) [0; 2; 8]%nat then sell
        else hold)
  /\ exists x,
       nth_error patternData i = Some x
       /\ DeepseekAI.confidence (DeepseekAI.interpret patternData)
          = (x * 100)%float
       /\ (forall y, In y patternData -> (y <=? x)%float = true)
       /\ (forall j y, (j < i)%nat -> nth_error patternData j = Some y ->
                       (y <? x)%float = true).
Proof.
  unfold DeepseekAI.interpret. cbn [DeepseekAI.patternIndex
    DeepseekAI.patternName DeepseekAI.action DeepseekAI.confidence].
  intros H. rewrite H.
  destruct (argmax_Some _ _ H) as (Ha & x & Hx & Hmax & Hfirst).
  split; [exact Ha|]. split; [reflexivity|]. split.
  - do 10 (destruct i as [|i]; [reflexivity|]).
    cbn [at_index]. unfold DeepseekAI.patternNames.
    cbn [nth_error]. destruct i; reflexivity.
  - exists x. cbn [at_index]. rewrite Hx. auto.
Qed.

Lemma interpret_reading_witness :
  DeepseekAI.patternIndex (DeepseekAI.interpret (doubleBottom [])) = Some 1%nat
  /\ DeepseekAI.action (DeepseekAI.interpret (doubleBottom [])) = buy.
Proof.
  assert (H : DeepseekAI.patternIndex (DeepseekAI.interpret (doubleBottom []))
              = Some 1%nat) by (vm_compute; reflexivity).
  split; [exact H|].
  destruct (interpret_reading _ _ H) as (_ & _ & E & _). exact E.
Defined.

(** X20: a prediction has no largest element exactly when it is empty or
    has a [NaN] in it.  Then the index read off it is -1, the pattern
    name is undefined, the confidence is [NaN] and the action is hold, and
    the test [confidence > 70] fails. *)
Theorem interpret_no_reading (patternData : list number) :
  (patternData = [] \/ Exists (fun x => is_nan x = true) patternData
   <-> DeepseekAI.patternIndex (DeepseekAI.interpret patternData) = None)
  /\ (DeepseekAI.patternIndex (DeepseekAI.interpret patternData) = None ->
      DeepseekAI.interpret patternData
      = {| DeepseekAI.patternIndex := None;
           DeepseekAI.patternName := None;
           DeepseekAI.confidence := nan;
           DeepseekAI.action := hold |}
      /\ (70 <? DeepseekAI.confidence (DeepseekAI.interpret patternData))%float
         = false).
Proof.
  unfold DeepseekAI.interpret. cbn [DeepseekAI.patternIndex DeepseekAI.confidence].
  split.
  - symmetry. apply argmax_None.
  - intros ->. split; reflexivity.
Qed.

Lemma interpret_no_reading_witness :
  DeepseekAI.patternIndex (DeepseekAI.interpret (repeat nan 60)) = None
  /\ DeepseekAI.interpret (repeat nan 60)
     = {| DeepseekAI.patternIndex := None;
          DeepseekAI.patternName := None;
          DeepseekAI.confidence := nan;
          DeepseekAI.action := hold |}.
Proof.
  assert (H : DeepseekAI.patternIndex (DeepseekAI.interpret (repeat nan 60)) = None)
    by (vm_compute; reflexivity).
  split; [exact H|].
  destruct (interpret_no_reading (repeat nan 60)) as [_ R].
  apply (R H).
Defined.

(** ** CYBER_METRICS: the analysis *)

Section CyberAnalysis.

Lemma prepareFeatures_length (historicalData : list MarketData.t) :
  List.length (CyberMetricsMarket.prepareFeatures historicalData)
  = 5 * List.length historicalData.
Proof.
  unfold CyberMetricsMarket.prepareFeatures.
  induction historicalData as [|data rest IH]; simpl; [reflexivity|].
  rewrite IH. lia.
Qed.

Lemma latest_length (limit : nat) (market : list MarketData.t) (symbol : string) :
  List.length (MarketData.latest limit market symbol)
  = Nat.min limit (List.length (MarketData.of_symbol symbol market)).
Proof.
  unfold MarketData.latest. rewrite length_firstn, length_rev. reflexivity.
Qed.

(** With a network that takes 20 features and no other number,
    [analyzeMarket] generates nothing: it tells that the data is
    insufficient, with fewer than 10 rows of the symbol in the table, or
    it throws. *)
Lemma analyzeMarket_shape_cases (now : Z) (initModel : Error + unit)
    (answer : Error + CyberMetricsMarket.Ticker)
    (predict : list (option number) -> Error + list number)
    (w w' : CyberMetricsMarket.World) (symbol : string)
    (result : Error + CyberMetricsMarket.Analysis) :
  (forall features,
     List.length features <> 20%nat -> exists e, predict features = inl e) ->
  CyberMetricsMarket.analyzeMarket now initModel answer predict w symbol
  = (w', result) ->
  CyberMetricsMarket.signals w' = CyberMetricsMarket.signals w
  /\ ((result = inr CyberMetricsMarket.Insufficient
       /\ (List.length (MarketData.of_symbol symbol (CyberMetricsMarket.market w'))
           < 10)%nat)
      \/ exists e, result = inl e).
Proof.
  intros Hshape. unfold CyberMetricsMarket.analyzeMarket.
  destruct (if CyberMetricsMarket.isModelLoaded w then inr tt else _)
    as [e|[]]; [intros [= <- <-]; simpl; eauto|].
  destruct (CyberMetricsMarket.fetchMarketData answer _ symbol)
    as [market' [e|marketData]]; [intros [= <- <-]; simpl; eauto|].
  pose proof (latest_length 20 market' symbol) as Hlen.
  destruct (List.length (MarketData.latest 20 market' symbol) <? 10)%nat eqn:L.
  - apply Nat.ltb_lt in L. intros [= <- <-].
    cbn [CyberMetricsMarket.signals CyberMetricsMarket.market].
    split; [reflexivity|]. left. split; [reflexivity|lia].
  - apply Nat.ltb_ge in L.
    destruct (Hshape (CyberMetricsMarket.prepareFeatures
                        (MarketData.latest 20 market' symbol))) as [e ->].
    { rewrite prepareFeatures_length. lia. }
    intros [= <- <-]; simpl; eauto.
Qed.

End CyberAnalysis.

(** X21: the features of CYBER_METRICS never fit the network that
    [initModel] builds.  [analyzeMarket] goes on to the network only with
    10 to 20 rows, of 5 features each: 50 to 100 numbers, never the 20 of
    the input shape.  With a network that refuses every other number of
    features, [analyzeMarket] answers that the data is insufficient or
    throws; it generates no signal and leaves the table of signals as it
    was. *)
Theorem cyber_analyzeMarket_shape (now : Z) (initModel : Error + unit)
    (answer : Error + CyberMetricsMarket.Ticker)
    (predict : list (option number) -> Error + list number)
    (w w' : CyberMetricsMarket.World) (symbol : string)
    (result : Error + CyberMetricsMarket.Analysis) :
  (forall features,
     List.length features <> 20%nat -> exists e, predict features = inl e) ->
  CyberMetricsMarket.analyzeMarket now initModel answer predict w symbol
  = (w', result) ->
  CyberMetricsMarket.signals w' = CyberMetricsMarket.signals w
  /\ (result = inr CyberMetricsMarket.Insufficient \/ exists e, result = inl e).
Proof.
  intros Hshape H.
  destruct (analyzeMarket_shape_cases _ _ _ _ _ _ _ _ Hshape H)
    as [Hs [[-> _] | He]]; auto.
Qed.

Lemma cyber_analyzeMarket_shape_witness :
  (forall features,
     List.length features <> 20%nat ->
     exists e, twentyFeatures features = inl e)
  /\ exists w' e,
       CyberMetricsMarket.analyzeMarket 0 (inr tt) (inr quietTicker)
         twentyFeatures (newCyberMetrics (steadyMarket 9)) "BTC"
       = (w', inl e)
       /\ CyberMetricsMarket.signals w' = [].
Proof.
  assert (H : forall features,
            List.length features <> 20%nat ->
            exists e, twentyFeatures features = inl e).
  { intros features Hn. unfold twentyFeatures.
    destruct (List.length features =? 20)%nat eqn:E; [|eauto].
    apply Nat.eqb_eq in E. contradiction. }
  split; [exact H|].
  destruct (CyberMetricsMarket.analyzeMarket 0 (inr tt) (inr quietTicker)
              twentyFeatures (newCyberMetrics (steadyMarket 9)) "BTC")
    as [w' result] eqn:E.
  destruct (cyber_analyzeMarket_shape _ _ _ _ _ _ _ _ H E) as [Hs Hr].
  vm_compute in E. injection E as <- <-.
  do 2 eexists. split; reflexivity.
Defined.

(** X22: the signal that [analyzeMarket] of CYBER_METRICS generates.  The
    market data just fetched was recorded, and with it the symbol has at
    least 10 rows; no score of the prediction is [NaN]; the action is the
    first of buy, sell and hold whose score is the largest, and the
    confidence is 100 times that score, with two decimals, within 0 and
    100; the signal is the one row added to the table, pending, for four
    hours. *)
Theorem cyber_analyzeMarket_signal (now : Z) (initModel : Error + unit)
    (answer : Error + CyberMetricsMarket.Ticker)
    (predict : list (option number) -> Error + list number)
    (w w' : CyberMetricsMarket.World) (symbol : string) (tradingSignal : t) :
  CyberMetricsMarket.analyzeMarket now initModel answer predict w symbol
  = (w', inr (CyberMetricsMarket.Generated tradingSignal)) ->
  exists ticker marketData predictionData i x,
    answer = inr ticker
    /\ CyberMetricsMarket.isModelLoaded w' = true
    /\ CyberMetricsMarket.market w' = CyberMetricsMarket.market w ++ [marketData]
    /\ MarketData.symbol marketData = symbol
    /\ (10 <= List.length
                (MarketData.of_symbol symbol (CyberMetricsMarket.market w')))%nat
    /\ predict (CyberMetricsMarket.prepareFeatures
                  (MarketData.latest 20 (CyberMetricsMarket.market w') symbol))
       = inr predictionData
    /\ Forall (fun y => is_nan y = false) predictionData
    /\ nth_error predictionData i = Some x
    /\ (forall y, In y predictionData -> (y <=? x)%float = true)
    /\ (forall j y, (j < i)%nat -> nth_error predictionData j = Some y ->
                    (y <? x)%float = true)
    /\ nth_error [buy; sell; hold] i = Some (action tradingSignal)
    /\ (0 <=? x * 100)%float = true
    /\ (x * 100 <=? 100)%float = true
    /\ confidence tradingSignal = DECIMAL_5_2 (x * 100)
    /\ (0 <=? confidence tradingSignal)%float = true
    /\ (confidence tradingSignal <=? 100)%float = true
    /\ CyberMetricsMarket.signals w'
       = CyberMetricsMarket.signals w ++ [tradingSignal]
    /\ TradingSignal.symbol tradingSignal = symbol
    /\ source tradingSignal = CYBER_METRICS
    /\ status tradingSignal = pending
    /\ timeframe tradingSignal = Some "4h"
    /\ expiresAt tradingSignal = Some (now + 14400000)%Z.
Proof.
  unfold CyberMetricsMarket.analyzeMarket.
  destruct (if CyberMetricsMarket.isModelLoaded w then inr tt else _)
    as [e|[]]; [discriminate|].
  unfold CyberMetricsMarket.fetchMarketData.
  destruct answer as [e|ticker]; [discriminate|].
  unfold rethrow at 2.
  set (marketData := MarketData.mk _ _ _ _ _ _ _ _ _).
  set (market' := CyberMetricsMarket.market w ++ [marketData]).
  pose proof (latest_length 20 market' symbol) as Hlen.
  destruct (List.length (MarketData.latest 20 market' symbol) <? 10)%nat eqn:L;
    [discriminate|].
  apply Nat.ltb_ge in L.
  destruct (predict _) as [e|predictionData] eqn:P; [discriminate|].
  destruct (indexOf predictionData (Math_max_of predictionData)) as [i|] eqn:I;
    [|discriminate].
  destruct (argmax_Some _ _ I) as (Hnan & x & Hx & Hmax & Hfirst).
  cbn [at_index]. rewrite Hx. cbn [times].
  destruct (nth_error CyberMetricsMarket.actions i) as [label|] eqn:A;
    [|discriminate].
  destruct (create _ _) as [st' [e|signal]] eqn:C; [discriminate|].
  unfold rethrow. intros [= <- <-].
  pose proof (create_accepted_valid _ _ _ _ C) as Hg.
  destruct (create_accepted _ _ _ _ C)
    as (E1 & _ & E3 & E4 & E5 & E6 & E7 & _ & E8).
  destruct (create_accepted_fields _ _ _ _ C) as (F1 & _ & _ & _ & F5).
  cbn [CyberMetricsMarket.signalAttributes a_symbol a_action a_source a_status
       a_confidence a_expiresAt a_timeframe]
    in E3, E4, E5, E6, E7, F1, F5, Hg.
  injection E5 as E5. injection E6 as E6.
  assert (Hx100 : is_nan (x * 100)%float = false).
  { apply mul_100_not_nan. rewrite Forall_forall in Hnan.
    apply Hnan. apply (nth_error_In _ _ Hx). }
  apply validate_confidence_spec in Hg.
  destruct Hg as [Hg | [Hg0 Hg1]]; [congruence|].
  destruct (DECIMAL_5_2_range _ Hg1) as (_ & R0 & R1).
  exists ticker, marketData, predictionData, i, x.
  cbn [CyberMetricsMarket.isModelLoaded CyberMetricsMarket.market
       CyberMetricsMarket.signals].
  assert (HA : nth_error [buy; sell; hold] i = Some (action signal)).
  { unfold CyberMetricsMarket.actions in A.
    do 3 (destruct i as [|i];
          [injection A as <-; injection E4 as <-; reflexivity|]).
    destruct i; discriminate. }
  rewrite E7.
  repeat split; auto.
  clearbody market'. lia.
Qed.

Lemma cyber_analyzeMarket_signal_witness :
  exists w' tradingSignal,
    CyberMetricsMarket.analyzeMarket 0 (inr tt) (inr quietTicker) bearish
      (newCyberMetrics (steadyMarket 9)) "BTC"
    = (w', inr (CyberMetricsMarket.Generated tradingSignal))
    /\ action tradingSignal = sell
    /\ (confidence tradingSignal <=? 100)%float = true.
Proof.
  destruct (CyberMetricsMarket.analyzeMarket 0 (inr tt) (inr quietTicker)
              bearish (newCyberMetrics (steadyMarket 9)) "BTC")
    as [w' result] eqn:E.
  assert (R : exists tradingSignal,
            result = inr (CyberMetricsMarket.Generated tradingSignal)
            /\ action tradingSignal = sell).
  { vm_compute in E. injection E as _ <-. eexists. split; reflexivity. }
  destruct R as (tradingSignal & -> & Hsell).
  destruct (cyber_analyzeMarket_signal _ _ _ _ _ _ _ _ E)
    as (ticker & marketData & predictionData & i & x & H).
  exists w', tradingSignal. split; [reflexivity|]. split; [exact Hsell|].
  tauto.
Defined.
(** ** The execution log *)

Section Listing.

Lemma update_In (st : Store) (i : Id) (changes : t -> t) (s : t) :
  (forall x, id (changes x) = id x) ->
  In s (update st i changes) -> id s = i ->
  exists x, In x st /\ id x = i /\ s = changes x.
Proof.
  intros Hid Hin Hs. unfold update in Hin. apply in_map_iff in Hin.
  destruct Hin as (x & E & Hx).
  destruct (Nat.eqb (id x) i) eqn:N.
  - apply Nat.eqb_eq in N. eauto.
  - apply Nat.eqb_neq in N. congruence.
Qed.

Lemma In_firstn {A : Type} (n : nat) (l : list A) (x : A) :
  In x (firstn n l) -> In x l.
Proof.
  revert n. induction l as [|y l IH]; intros [|n]; simpl; try tauto.
  intros [H | H]; [auto | right; apply (IH n H)].
Qed.

(** What the pending list shows is pending. *)
Lemma selected_pending (s : t) :
  ExecLog.selected "pending" s = true -> TradingSignal.status s = pending.
Proof.
  unfold ExecLog.selected. destruct (TradingSignal.status s); simpl;
    congruence.
Qed.

(** Without a status in the query, the pending signals are listed. *)
Lemma signals_route_default (st : Store) :
  ExecLog.signals_route None st
  = Status200
      {| ExecLog.signals :=
           firstn 50 (rev (filter (ExecLog.selected "pending") st));
         ExecLog.count :=
           List.length (firstn 50 (rev (filter (ExecLog.selected "pending") st)));
         ExecLog.status := "pending" |}.
Proof. reflexivity. Qed.

Lemma Status200_eq {A : Type} (x y : A) : Status200 x = Status200 y -> x = y.
Proof. intros H. injection H. auto. Qed.

End Listing.

(** X23: the list of signals of the execution log.  Without a status it
    lists the pending signals.  It answers 200 exactly when the status is
    ['all'] or a status of the model, and then with at most 50 signals of
    the table, each of the status asked for, the newest first, and with
    their number; when no more than 50 signals have that status, all of
    them are listed.  For any other status, and for no other, it answers
    500. *)
Theorem signals_route_listing (query : option string) (st : Store) :
  let status := match query with Some s => s | None => "pending" end in
  match ExecLog.signals_route query st with
  | Status200 body =>
      (status = "all"
       \/ In status ["pending"; "executed"; "expired"; "cancelled"])
      /\ ExecLog.status body = status
      /\ ExecLog.count body = List.length (ExecLog.signals body)
      /\ (ExecLog.count body <= 50)%nat
      /\ (forall s, In s (ExecLog.signals body) ->
                    In s st
                    /\ (status = "all"
                        \/ Status_to_string (TradingSignal.status s) = status))
      /\ ((List.length (filter (ExecLog.selected status) st) <= 50)%nat ->
          ExecLog.signals body = rev (filter (ExecLog.selected status) st))
  | Status500 _ =>
      status <> "all"
      /\ ~ In status ["pending"; "executed"; "expired"; "cancelled"]
      /\ Status_of_string status = None
  | _ => False
  end
  /\ ((exists body, ExecLog.signals_route query st = Status200 body)
      <-> status = "all"
          \/ In status ["pending"; "executed"; "expired"; "cancelled"])
  /\ ((exists m, ExecLog.signals_route query st = Status500 m)
      <-> ~ (status = "all"
             \/ In status ["pending"; "executed"; "expired"; "cancelled"])).
Proof.
  intros status. unfold ExecLog.signals_route. fold status.
  assert (D : String.eqb status "all"
              || existsb (String.eqb status)
                   ["pending"; "executed"; "expired"; "cancelled"] = true
              <-> status = "all"
                  \/ In status ["pending"; "executed"; "expired"; "cancelled"]).
  { rewrite orb_true_iff, String.eqb_eq, existsb_exists. split.
    - intros [H | (x & Hx & E)]; [auto|].
      apply String.eqb_eq in E. subst x. auto.
    - intros [H | H]; [auto|]. right. exists status.
      split; [exact H|apply String.eqb_refl]. }
  destruct (String.eqb status "all"
            || existsb (String.eqb status)
                 ["pending"; "executed"; "expired"; "cancelled"]) eqn:V.
  - pose proof (proj1 D eq_refl) as Hlabel.
    split; [|split].
    + cbn [ExecLog.status ExecLog.count ExecLog.signals].
      split; [exact Hlabel|].
      split; [reflexivity|]. split; [reflexivity|].
      split; [apply firstn_le_length|]. split.
      * intros s Hs. apply In_firstn in Hs. apply in_rev in Hs.
        apply filter_In in Hs. destruct Hs as [Hs Hsel]. split; [exact Hs|].
        unfold ExecLog.selected in Hsel. apply orb_prop in Hsel.
        destruct Hsel as [E | E]; apply String.eqb_eq in E; auto.
      * intros Hlen. apply firstn_all2. rewrite length_rev. exact Hlen.
    + split; [intros _; exact Hlabel|]. intros _. eexists. reflexivity.
    + split; [intros (m & H); discriminate H|]. intros H. contradiction.
  - assert (Hno : ~ (status = "all"
                     \/ In status ["pending"; "executed"; "expired"; "cancelled"])).
    { intros H. apply D in H. discriminate H. }
    split; [|split].
    + apply orb_false_elim in V. destruct V as [V1 V2].
      split; [apply String.eqb_neq, V1|]. split; [tauto|].
      simpl in V2. repeat (apply orb_false_elim in V2; destruct V2 as [? V2]).
      unfold Status_of_string, enum_of_string. simpl.
      repeat match goal with H : String.eqb _ _ = false |- _ => rewrite H; clear H end.
      reflexivity.
    + split; [intros (body & H); discriminate H|]. intros H. contradiction.
    + split; [intros _; exact Hno|]. intros _. eexists. reflexivity.
Qed.

(** X24: a signal that was dispatched leaves the pending list.  After
    [executeTrade] of the Grok Engine or of CYBER_METRICS has answered for
    a signal, no signal of that key is on the list of pending signals, and
    the table has as many rows as before. *)
Theorem dispatched_not_pending (now : Z) (st : Store) (signalId : Id) :
  (forall st' r,
     GrokEngine.executeTrade now st signalId = (st', inr r) ->
     (forall body,
        ExecLog.signals_route None st' = Status200 body ->
        forall s, In s (ExecLog.signals body) -> id s <> signalId)
     /\ List.length st' = List.length st)
  /\ (forall st' r,
        CyberMetrics.executeTrade now st signalId = (st', inr r) ->
        (forall body,
           ExecLog.signals_route None st' = Status200 body ->
           forall s, In s (ExecLog.signals body) -> id s <> signalId)
        /\ List.length st' = List.length st).
Proof.
  assert (K : forall changes : t -> t,
            (forall x, id (changes x) = id x) ->
            (forall x, TradingSignal.status (changes x) <> pending) ->
            forall body,
            ExecLog.signals_route None (update st signalId changes)
            = Status200 body ->
            forall s, In s (ExecLog.signals body) -> id s <> signalId).
  { intros changes Hid Hsta body. rewrite signals_route_default.
    intros E s Hs. apply Status200_eq in E. subst body.
    cbn [ExecLog.signals] in Hs.
    apply In_firstn in Hs. apply in_rev in Hs. apply filter_In in Hs.
    destruct Hs as [Hs Hsel]. apply selected_pending in Hsel.
    intros E. destruct (update_In _ _ _ _ Hid Hs E) as (x & _ & _ & ->).
    apply (Hsta x Hsel). }
  split.
  - intros st' r. unfold GrokEngine.executeTrade.
    destruct (findByPk st signalId) as [signal|] eqn:F; [|discriminate].
    rewrite (findByPk_id _ _ _ F).
    destruct (negb (Source_eqb (source signal) GROK_ENGINE)); [discriminate|].
    destruct (negb (Status_eqb (status signal) pending)); [discriminate|].
    destruct (confidence signal <? 75)%float; simpl; intros [= <- <-];
      (split; [apply K; [reflexivity|discriminate]
              |unfold update; apply length_map]).
  - intros st' r. unfold CyberMetrics.executeTrade.
    destruct (findByPk st signalId) as [signal|] eqn:F; [|discriminate].
    rewrite (findByPk_id _ _ _ F).
    destruct (negb (Status_eqb (status signal) pending)); [discriminate|].
    simpl; intros [= <- <-].
    split; [apply K; [reflexivity|discriminate]
           |unfold update; apply length_map].
Qed.
(** ** GROK_ENGINE with its sources *)

Section Sources.

Lemma analyzePatterns_insufficient (now : Z)
    (patternModel : list (list number) -> Error + list number)
    (s : DeepseekAI.State)
    (market : list MarketData.t) (st : Store) (symbol : string) :
  (List.length (MarketData.of_symbol symbol market) < 60)%nat ->
  snd (fst (DeepseekAI.analyzePatterns now patternModel s market st symbol)) = st
  /\ snd (DeepseekAI.analyzePatterns now patternModel s market st symbol)
     = inr DeepseekAI.Insufficient.
Proof.
  intros H. unfold DeepseekAI.analyzePatterns.
  pose proof (oldest_length 60 market symbol) as Hlen.
  destruct (List.length (MarketData.oldest 60 market symbol) <? 60)%nat eqn:L;
    [auto|].
  apply Nat.ltb_ge in L. lia.
Qed.

(** The signals that [analyzeTweets] answers are signals of the
    TWITTER_MONITOR module. *)
Lemma analyzeTweets_sentimentSignals (now : Z) (token : option string)
    (simulateTweets : nat -> string -> list TwitterFeed.FetchedTweet)
    (s : TwitterFeed.State) (table table' : list TwitterFeed.Row)
    (st st' : Store) (twitterSignals : list t) :
  GrokSources.analyzeTweets now token simulateTweets s table st
  = (table', st', inr twitterSignals) ->
  Forall sentimentSignal twitterSignals.
Proof.
  unfold GrokSources.analyzeTweets.
  destruct (TwitterFeed.fetchRecentTweets token simulateTweets s table)
    as [table1 [e|tweets]]; [discriminate|].
  unfold TwitterMonitorModule.analyzeTweets.
  destruct (TwitterMonitorModule.groupBySymbol (map TwitterFeed.body tweets))
    as [thrown|symbolTweets]; [discriminate|].
  destruct (generate_created now
              (TwitterMonitorModule.Object_entries symbolTweets)
              st []) as (created & _ & Hc & Hr).
  destruct (TwitterMonitorModule.generate now st _ []) as [st1 [e|signals]];
    simpl; [discriminate|].
  intros [= _ _ <-]. rewrite (Hr signals eq_refl). exact Hc.
Qed.

End Sources.

(** X25: with a network that takes the 20 features of its input shape
    and no other number, the Grok Engine never fuses more than the
    Twitter signal.  Whenever its [analyzeMarket] answers, CYBER_METRICS
    had found the data insufficient, the symbol has fewer than 10 rows of
    market data, so that DEEPSEEK_AI, which needs 60, found it
    insufficient too; the answer is that of the fusion without a
    CYBER_METRICS signal and without a pattern signal, and a decision
    rests on one source signal. *)
Theorem grok_sources_shape (o : GrokSources.Outside) (w w' : GrokSources.World)
    (symbol : string) (result : GrokEngine.Analysis) :
  (forall features,
     List.length features <> 20%nat ->
     exists e, GrokSources.predict o features = inl e) ->
  GrokSources.analyzeMarket o w symbol = (w', inr result) ->
  (List.length (MarketData.of_symbol symbol (GrokSources.market w')) < 10)%nat
  /\ (exists st twitterSignals,
        Forall sentimentSignal twitterSignals
        /\ GrokEngine.analyzeMarket (GrokSources.clock o 3) st symbol None
             twitterSignals None
           = (GrokSources.signals w', inr result))
  /\ match result with
     | GrokEngine.Decision _ _ _ sourceSignals => sourceSignals = 1%nat
     | GrokEngine.NoValidSignals => True
     end.
Proof.
  intros Hshape. unfold GrokSources.analyzeMarket.
  destruct (CyberMetricsMarket.analyzeMarket _ _ _ _ _ symbol) as [c r1] eqn:C.
  destruct (analyzeMarket_shape_cases _ _ _ _ _ _ _ _ Hshape C)
    as [Hs [[-> Hrows] | [e ->]]]; [|discriminate].
  cbn [GrokSources.isModelLoaded GrokSources.market GrokSources.twitter
       GrokSources.tweets GrokSources.deepseek GrokSources.signals].
  destruct (GrokSources.analyzeTweets _ _ _ _ _ _) as [[table' st2] r2] eqn:T.
  destruct r2 as [e|twitterSignals]; [discriminate|].
  pose proof (analyzeTweets_sentimentSignals _ _ _ _ _ _ _ _ _ T) as Htw.
  assert (H60 : (List.length (MarketData.of_symbol symbol
                                (CyberMetricsMarket.market c)) < 60)%nat) by lia.
  destruct (analyzePatterns_insufficient (GrokSources.clock o 2)
              (GrokSources.patternModel o) (GrokSources.deepseek w)
              (CyberMetricsMarket.market c) st2 symbol H60) as [P1 P2].
  destruct (DeepseekAI.analyzePatterns _ _ _ _ _ symbol) as [[d st3] r3].
  cbn [fst snd] in P1, P2. subst st3 r3.
  destruct (GrokEngine.analyzeMarket _ st2 symbol None twitterSignals None)
    as [st4 r4] eqn:G.
  intros [= <- ->]. cbn [GrokSources.market GrokSources.signals].
  split; [exact Hrows|]. split; [eauto|].
  revert G. unfold GrokEngine.analyzeMarket, GrokEngine.collectSignals.
  cbn [GrokEngine.to_list app]. rewrite app_nil_r.
  destruct (find _ twitterSignals) as [twitterSignal|];
    cbn [GrokEngine.to_list]; [|intros [= _ <-]; exact I].
  destruct (create st2 _) as [st5 [e|grokSignal]]; unfold rethrow;
    [discriminate|].
  intros [= _ <-]. reflexivity.
Qed.

Lemma grok_sources_shape_witness :
  (forall features,
     List.length features <> 20%nat ->
     exists e, GrokSources.predict shapedOutside features = inl e)
  /\ exists w' action confidence signalId,
       GrokSources.analyzeMarket shapedOutside fans "BTC"
       = (w', inr (GrokEngine.Decision action confidence signalId 1)).
Proof.
  assert (H : forall features,
            List.length features <> 20%nat ->
            exists e, GrokSources.predict shapedOutside features = inl e).
  { intros features Hn. unfold shapedOutside, GrokSources.predict, twentyFeatures.
    destruct (List.length features =? 20)%nat eqn:E; [|eauto].
    apply Nat.eqb_eq in E. contradiction. }
  split; [exact H|].
  destruct (GrokSources.analyzeMarket shapedOutside fans "BTC")
    as [w' r] eqn:E.
  assert (R : exists action confidence signalId n,
            r = inr (GrokEngine.Decision action confidence signalId n)).
  { vm_compute in E. injection E as _ <-. do 4 eexists. reflexivity. }
  destruct R as (action & confidence & signalId & n & ->).
  destruct (grok_sources_shape _ _ _ _ _ H E) as (_ & _ & ->).
  eauto.
Defined.
Section Appends.

Lemma create_pending (st st' : Store) (a : Attributes) (r : Error + t) :
  create st a = (st', r) ->
  a_status a = Some "pending" ->
  exists added, st' = st ++ added /\ Forall is_pending added.
Proof.
  intros C Ha. destruct r as [e|s].
  - exists []. rewrite app_nil_r. split; [apply (create_rejected _ _ _ _ C)|].
    constructor.
  - destruct (create_accepted _ _ _ _ C) as (E1 & _ & _ & _ & _ & E6 & _).
    rewrite Ha in E6. injection E6 as E6.
    exists [s]. split; [exact E1|]. repeat constructor. symmetry. exact E6.
Qed.

Lemma cyber_analyzeMarket_appends (now : Z) (initModel : Error + unit)
    (answer : Error + CyberMetricsMarket.Ticker)
    (predict : list (option number) -> Error + list number)
    (w w' : CyberMetricsMarket.World) (symbol : string)
    (r : Error + CyberMetricsMarket.Analysis) :
  CyberMetricsMarket.analyzeMarket now initModel answer predict w symbol
  = (w', r) ->
  (exists added,
     CyberMetricsMarket.signals w' = CyberMetricsMarket.signals w ++ added
     /\ Forall is_pending added)
  /\ (exists rows,
        CyberMetricsMarket.market w' = CyberMetricsMarket.market w ++ rows
        /\ (List.length rows <= 1)%nat)
  /\ (forall e, r = inl e ->
                exists m, e = JsError ("Market analysis failed: " ++ m)%string).
Proof.
  unfold CyberMetricsMarket.analyzeMarket.
  assert (N : exists added : Store,
            CyberMetricsMarket.signals w = CyberMetricsMarket.signals w ++ added
            /\ Forall is_pending added)
    by (exists []; rewrite app_nil_r; split; [reflexivity|constructor]).
  assert (M0 : exists rows : list MarketData.t,
             CyberMetricsMarket.market w = CyberMetricsMarket.market w ++ rows
             /\ (List.length rows <= 1)%nat)
    by (exists []; rewrite app_nil_r; split; [reflexivity|simpl; lia]).
  destruct (if CyberMetricsMarket.isModelLoaded w then inr tt else _)
    as [e|[]].
  { intros [= <- <-]. simpl. repeat split; auto.
    intros e' [= <-]. eauto. }
  unfold CyberMetricsMarket.fetchMarketData.
  destruct answer as [e|ticker].
  { intros [= <- <-]. simpl. repeat split; auto.
    intros e' [= <-]. eauto. }
  unfold rethrow at 2.
  set (marketData := MarketData.mk _ _ _ _ _ _ _ _ _).
  assert (M1 : exists rows : list MarketData.t,
             CyberMetricsMarket.market w ++ [marketData]
             = CyberMetricsMarket.market w ++ rows
             /\ (List.length rows <= 1)%nat)
    by (exists [marketData]; split; [reflexivity|simpl; lia]).
  destruct (List.length _ <? 10)%nat.
  { intros [= <- <-]. simpl. repeat split; auto. discriminate. }
  destruct (predict _) as [e|predictionData].
  { intros [= <- <-]. simpl. repeat split; auto.
    intros e' [= <-]. eauto. }
  destruct (at_index CyberMetricsMarket.actions _) as [label|].
  2:{ intros [= <- <-]. simpl. repeat split; auto.
      intros e' [= <-]. eauto. }
  destruct (create _ _) as [st' r0] eqn:C.
  destruct (create_pending _ _ _ _ C eq_refl) as (added & Hadd & Hpen).
  destruct r0 as [e|signal]; intros [= <- <-]; simpl; repeat split; eauto.
  - intros e' [= <-]. eauto.
  - discriminate.
Qed.

Lemma analyzeTweets_appends (now : Z) (token : option string)
    (simulateTweets : nat -> string -> list TwitterFeed.FetchedTweet)
    (s : TwitterFeed.State) (table table' : list TwitterFeed.Row)
    (st st' : Store) (r : Error + list t) :
  GrokSources.analyzeTweets now token simulateTweets s table st
  = (table', st', r) ->
  exists added, st' = st ++ added /\ Forall is_pending added.
Proof.
  unfold GrokSources.analyzeTweets.
  destruct (TwitterFeed.fetchRecentTweets token simulateTweets s table)
    as [table1 [e|tweets]].
  - intros [= _ <- _]. exists []. rewrite app_nil_r.
    split; [reflexivity|constructor].
  - unfold TwitterMonitorModule.analyzeTweets.
    destruct (TwitterMonitorModule.groupBySymbol (map TwitterFeed.body tweets))
      as [thrown|symbolTweets].
    { intros [= _ <- _]. exists []. rewrite app_nil_r.
      split; [reflexivity|constructor]. }
    destruct (generate_created now
                (TwitterMonitorModule.Object_entries symbolTweets)
                st []) as (created & Hst & Hc & _).
    destruct (TwitterMonitorModule.generate now st _ []) as [st1 r1].
    cbn [fst] in Hst. subst st1.
    assert (E : fst (rethrow "Tweet analysis failed" (st ++ created, r1))
                = st ++ created) by (destruct r1; reflexivity).
    destruct (rethrow _ _) as [st2 r2]. cbn [fst] in E. subst st2.
    intros [= _ <- _]. exists created. split; [reflexivity|].
    apply Forall_impl with (2 := Hc). intros x Hx. apply Hx.
Qed.

Lemma analyzePatterns_appends (now : Z)
    (patternModel : list (list number) -> Error + list number)
    (s s' : DeepseekAI.State)
    (market : list MarketData.t) (st st' : Store) (symbol : string)
    (r : Error + DeepseekAI.PatternAnalysis) :
  DeepseekAI.analyzePatterns now patternModel s market st symbol = (s', st', r) ->
  exists added, st' = st ++ added /\ Forall is_pending added.
Proof.
  unfold DeepseekAI.analyzePatterns.
  assert (N : exists added : Store, st = st ++ added /\ Forall is_pending added)
    by (exists []; rewrite app_nil_r; split; [reflexivity|constructor]).
  destruct (List.length _ <? 60)%nat; [intros [= _ <- _]; exact N|].
  destruct (patternModel _) as [thrown|patternData];
    [unfold rethrow; intros [= _ <- _]; exact N|].
  cbv zeta.
  destruct (70 <? _)%float; [|intros [= _ <- _]; exact N].
  destruct (create st _) as [st1 r1] eqn:C.
  destruct (create_pending _ _ _ _ C eq_refl) as (added & Hadd & Hpen).
  destruct r1 as [e|signal]; unfold rethrow; intros [= _ <- _]; eauto.
Qed.

Lemma grok_analyzeMarket_appends (now : Z) (st st' : Store) (symbol : string)
    (cyber : option t) (twitter : list t) (pattern : option Id)
    (r : Error + GrokEngine.Analysis) :
  GrokEngine.analyzeMarket now st symbol cyber twitter pattern = (st', r) ->
  (exists added, st' = st ++ added /\ Forall is_pending added)
  /\ (forall e, r = inl e ->
                exists m, e = JsError ("Market analysis failed: " ++ m)%string).
Proof.
  unfold GrokEngine.analyzeMarket.
  destruct (GrokEngine.collectSignals st symbol cyber twitter pattern)
    as [|first rest].
  - intros [= <- <-]. split; [|discriminate].
    exists []. rewrite app_nil_r. split; [reflexivity|constructor].
  - destruct (create st _) as [st1 r1] eqn:C.
    destruct (create_pending _ _ _ _ C eq_refl) as (added & Hadd & Hpen).
    destruct r1 as [e|signal]; unfold rethrow; intros [= <- <-].
    + split; [eauto|]. intros e' [= <-]. exists (message e). reflexivity.
    + split; [eauto|]. discriminate.
Qed.

Lemma appends_trans (st added more : Store) :
  Forall is_pending added -> Forall is_pending more ->
  exists all, (st ++ added) ++ more = st ++ all /\ Forall is_pending all.
Proof.
  intros H1 H2. exists (added ++ more). rewrite app_assoc.
  split; [reflexivity|apply Forall_app; auto].
Qed.

End Appends.

(** X26: [analyzeMarket] of the Grok Engine only adds.  Whatever its
    sources answer and whether it throws or not, the signals that were in
    the table are still there, unchanged and in their order, followed by
    those that CYBER_METRICS, TWITTER_MONITOR, DEEPSEEK_AI and the engine
    itself have added, each of them pending; at most one row of market
    data is added; and an error is thrown as "Market analysis failed:
    ...". *)
Theorem grok_sources_append_only (o : GrokSources.Outside)
    (w : GrokSources.World) (symbol : string) :
  (exists added,
     GrokSources.signals (fst (GrokSources.analyzeMarket o w symbol))
     = GrokSources.signals w ++ added
     /\ Forall (fun s => status s = pending) added)
  /\ (exists rows,
        GrokSources.market (fst (GrokSources.analyzeMarket o w symbol))
        = GrokSources.market w ++ rows
        /\ (List.length rows <= 1)%nat)
  /\ (forall e,
        snd (GrokSources.analyzeMarket o w symbol) = inl e ->
        exists m, e = JsError ("Market analysis failed: " ++ m)%string).
Proof.
  unfold GrokSources.analyzeMarket, GrokSources.failed.
  destruct (CyberMetricsMarket.analyzeMarket _ _ _ _ _ symbol) as [c r1] eqn:C.
  destruct (cyber_analyzeMarket_appends _ _ _ _ _ _ _ _ C)
    as ((a1 & S1 & P1) & M1 & _).
  cbn [CyberMetricsMarket.signals CyberMetricsMarket.market] in S1, M1.
  cbn [GrokSources.isModelLoaded GrokSources.market GrokSources.twitter
       GrokSources.tweets GrokSources.deepseek GrokSources.signals].
  destruct r1 as [e|cyberMetricsSignal].
  { cbn [fst snd GrokSources.signals GrokSources.market].
    split; [eauto|]. split; [exact M1|]. intros e' [= <-].
    eexists. reflexivity. }
  destruct (GrokSources.analyzeTweets _ _ _ _ _ _) as [[table' st2] r2] eqn:T.
  destruct (analyzeTweets_appends _ _ _ _ _ _ _ _ _ T) as (a2 & S2 & P2).
  rewrite S1 in S2.
  destruct (appends_trans (GrokSources.signals w) _ _ P1 P2) as (a12 & E12 & P12).
  rewrite E12 in S2.
  destruct r2 as [e|twitterSignals].
  { cbn [fst snd GrokSources.signals GrokSources.market].
    split; [eauto|]. split; [exact M1|]. intros e' [= <-].
    eexists. reflexivity. }
  destruct (DeepseekAI.analyzePatterns _ _ _ _ _ symbol) as [[d st3] r3] eqn:D.
  destruct (analyzePatterns_appends _ _ _ _ _ _ _ _ _ D) as (a3 & S3 & P3).
  rewrite S2 in S3.
  destruct (appends_trans (GrokSources.signals w) _ _ P12 P3) as (a123 & E123 & P123).
  rewrite E123 in S3.
  destruct r3 as [e|patternAnalysis].
  { cbn [fst snd GrokSources.signals GrokSources.market].
    split; [eauto|]. split; [exact M1|]. intros e' [= <-].
    eexists. reflexivity. }
  destruct (GrokEngine.analyzeMarket _ st3 symbol _ _ _) as [st4 r4] eqn:G.
  destruct (grok_analyzeMarket_appends _ _ _ _ _ _ _ _ G)
    as ((a4 & S4 & P4) & E4).
  rewrite S3 in S4.
  destruct (appends_trans (GrokSources.signals w) _ _ P123 P4) as (a1234 & E1234 & P1234).
  rewrite E1234 in S4.
  cbn [fst snd GrokSources.signals GrokSources.market].
  split; [eauto|]. split; [exact M1|]. exact E4.
Qed.

(** X27: nothing is rolled back.  Without a bearer token the Grok Engine
    cannot analyze: CYBER_METRICS is asked first, and when it has not
    thrown, the tweets cannot be fetched and [analyzeMarket] throws
    "Market analysis failed: Tweet analysis failed: Failed to fetch
    tweets: Twitter API token not configured".  What CYBER_METRICS has
    recorded by then, the market data and its signal, stays. *)
Theorem grok_sources_no_token (o : GrokSources.Outside) (w : GrokSources.World)
    (symbol : string) :
  GrokSources.token o = None \/ GrokSources.token o = Some "" ->
  let cyber :=
    CyberMetricsMarket.analyzeMarket (GrokSources.clock o 0)
      (GrokSources.initModel o) (GrokSources.answer o) (GrokSources.predict o)
      {| CyberMetricsMarket.isModelLoaded := GrokSources.isModelLoaded w;
         CyberMetricsMarket.market := GrokSources.market w;
         CyberMetricsMarket.signals := GrokSources.signals w |}
      symbol in
  GrokSources.signals (fst (GrokSources.analyzeMarket o w symbol))
  = CyberMetricsMarket.signals (fst cyber)
  /\ GrokSources.market (fst (GrokSources.analyzeMarket o w symbol))
     = CyberMetricsMarket.market (fst cyber)
  /\ GrokSources.tweets (fst (GrokSources.analyzeMarket o w symbol))
     = GrokSources.tweets w
  /\ snd (GrokSources.analyzeMarket o w symbol)
     = inl (JsError
              ("Market analysis failed: "
               ++ match snd cyber with
                  | inl e => message e
                  | inr _ =>
                      "Tweet analysis failed: Failed to fetch tweets: Twitter API token not configured"
                  end)%string).
Proof.
  intros Htoken cyber. unfold GrokSources.analyzeMarket. fold cyber.
  destruct cyber as [c [e|cyberMetricsSignal]];
    cbn [fst snd GrokSources.signals GrokSources.market GrokSources.tweets
         GrokSources.failed GrokSources.twitter];
    [repeat split|].
  unfold GrokSources.analyzeTweets, TwitterFeed.fetchRecentTweets.
  destruct Htoken as [-> | ->];
    cbn [rethrow fst snd GrokSources.signals GrokSources.market
         GrokSources.tweets GrokSources.failed];
    repeat split.
Qed.

Lemma grok_sources_no_token_witness :
  (GrokSources.token
     {| GrokSources.clock := GrokSources.clock shapedOutside;
        GrokSources.initModel := inr tt;
        GrokSources.answer := inr quietTicker;
        GrokSources.predict := bearish;
        GrokSources.token := None;
        GrokSources.simulateTweets := tweetBy;
        GrokSources.patternModel := tensor3d_refuses |} = None
   \/ GrokSources.token
        {| GrokSources.clock := GrokSources.clock shapedOutside;
           GrokSources.initModel := inr tt;
           GrokSources.answer := inr quietTicker;
           GrokSources.predict := bearish;
           GrokSources.token := None;
           GrokSources.simulateTweets := tweetBy;
           GrokSources.patternModel := tensor3d_refuses |} = Some "")
  /\ List.length
       (GrokSources.signals
          (fst (GrokSources.analyzeMarket
                  {| GrokSources.clock := GrokSources.clock shapedOutside;
                     GrokSources.initModel := inr tt;
                     GrokSources.answer := inr quietTicker;
                     GrokSources.predict := bearish;
                     GrokSources.token := None;
                     GrokSources.simulateTweets := tweetBy;
                     GrokSources.patternModel := tensor3d_refuses |}
                  (newWorld (steadyMarket 9)) "BTC")))
     = 1%nat.
Proof.
  split; [left; reflexivity|].
  destruct (grok_sources_no_token
              {| GrokSources.clock := GrokSources.clock shapedOutside;
                 GrokSources.initModel := inr tt;
                 GrokSources.answer := inr quietTicker;
                 GrokSources.predict := bearish;
                 GrokSources.token := None;
                 GrokSources.simulateTweets := tweetBy;
                 GrokSources.patternModel := tensor3d_refuses |}
              (newWorld (steadyMarket 9)) "BTC" (or_introl eq_refl))
    as (-> & _).
  vm_compute. reflexivity.
Defined.
(** ** DEEPSEEK_AI: the price *)

Section Price.

Lemma map_const_repeat {A B : Type} (f : A -> B) (c : B) (l : list A) :
  (forall x, In x l -> f x = c) -> map f l = repeat c (List.length l).
Proof.
  induction l as [|x l IH]; intros H; simpl; [reflexivity|].
  rewrite (H x (or_introl eq_refl)), IH; [reflexivity|].
  intros y Hy. apply H. right. exact Hy.
Qed.

Lemma nth_map_seq {B : Type} (f : nat -> B) (d : B) (j width : nat) :
  (j < width)%nat -> nth j (map f (seq 0 width)) d = f j.
Proof.
  intros H. rewrite (nth_indep _ d (f 0%nat)) by (rewrite length_map, length_seq; exact H).
  rewrite map_nth, seq_nth by exact H. reflexivity.
Qed.

Lemma nth_error_combine_seq {A : Type} (row : list A) (j : nat) (x : A) :
  forall start,
  nth_error row j = Some x ->
  nth_error (combine (seq start (List.length row)) row) j = Some ((start + j)%nat, x).
Proof.
  revert j. induction row as [|y row IH]; intros [|j] start; simpl;
    try discriminate.
  - intros [= <-]. rewrite Nat.add_0_r. reflexivity.
  - intros H. rewrite (IH j (S start) H). f_equal. f_equal. lia.
Qed.

(** A column whose entries count alike is normalized to [NaN]. *)
Lemma normalizeFeatures_flat_column (features : list (list (option number)))
    (j : nat) (c : number) :
  (j < List.length (hd [] features))%nat ->
  (forall row, In row features ->
               exists x, nth_error row j = Some x /\ DeepseekAI.to_number x = c) ->
  Forall (fun row => nth_error row j = Some nan)
    (DeepseekAI.normalizeFeatures features).
Proof.
  intros Hj Hcol. unfold DeepseekAI.normalizeFeatures.
  apply Forall_map, Forall_forall. intros row Hrow.
  destruct (Hcol row Hrow) as (x & Hx & Ex).
  rewrite nth_error_map, (nth_error_combine_seq row j x 0 Hx).
  cbn [option_map fst snd Nat.add]. f_equal.
  rewrite !map_map.
  rewrite (nth_map_seq (fun y => Math_min_of (DeepseekAI.column features y)))
    by exact Hj.
  rewrite (nth_map_seq (fun y => Math_max_of (DeepseekAI.column features y)))
    by exact Hj.
  assert (E : DeepseekAI.column features j = repeat c (List.length features)).
  { unfold DeepseekAI.column. apply map_const_repeat. intros r Hr.
    destruct (Hcol r Hr) as (y & -> & Ey). exact Ey. }
  rewrite E, Ex. apply flat_ratio.
Qed.

(** The steady market records no volume. *)
Lemma steadyMarket_volume (n limit : nat) (symbol : string) (data : MarketData.t) :
  In data (MarketData.oldest limit (steadyMarket n) symbol) ->
  MarketData.volume24h data = None.
Proof.
  unfold MarketData.oldest, MarketData.of_symbol, steadyMarket.
  intros Hin. apply In_firstn in Hin. apply filter_In in Hin.
  destruct Hin as [Hin _]. apply in_map_iff in Hin.
  destruct Hin as (i & <- & _). reflexivity.
Qed.

End Price.

(** X28: [predictPrice] reads the 30 oldest rows of the symbol and no
    other, and the number of days is answered but not used.  Once 30 rows
    are recorded, the market data that follows changes nothing of the
    answer; the current price is the price of the 30th row recorded; and
    for any two numbers of days the current price, the predicted price and
    the accuracy are the same. *)
Theorem predictPrice_oldest_thirty (now : Z)
    (model : list (list number) -> list number) (s : DeepseekAI.State)
    (market more : list MarketData.t) (symbol : string) (days days' : number) :
  (30 <= List.length (MarketData.of_symbol symbol market))%nat ->
  DeepseekAI.predictPrice now model s (market ++ more) symbol days
  = DeepseekAI.predictPrice now model s market symbol days
  /\ exists currentPrice predictedPrice accuracy,
       snd (DeepseekAI.predictPrice now model s market symbol days)
       = DeepseekAI.Predicted symbol currentPrice predictedPrice days accuracy now
       /\ snd (DeepseekAI.predictPrice now model s market symbol days')
          = DeepseekAI.Predicted symbol currentPrice predictedPrice days'
              accuracy now
       /\ option_map MarketData.price
            (nth_error (MarketData.of_symbol symbol market) 29)
          = Some currentPrice.
Proof.
  intros H. unfold DeepseekAI.predictPrice.
  rewrite (oldest_app 30 market more symbol H). split; [reflexivity|].
  pose proof (oldest_length 30 market symbol) as Hlen.
  assert (L : List.length (MarketData.oldest 30 market symbol) = 30%nat) by lia.
  rewrite L. cbn [Nat.ltb Nat.leb Nat.sub snd].
  assert (N : exists data,
            nth_error (MarketData.oldest 30 market symbol) 29 = Some data
            /\ nth_error (MarketData.of_symbol symbol market) 29 = Some data).
  { destruct (nth_error (MarketData.of_symbol symbol market) 29) as [data|] eqn:E.
    - exists data. split; [|reflexivity]. unfold MarketData.oldest.
      rewrite nth_error_firstn. exact E.
    - apply nth_error_None in E. lia. }
  destruct N as (data & -> & ->). do 3 eexists. repeat split.
Qed.

Lemma predictPrice_oldest_thirty_witness :
  (30 <= List.length (MarketData.of_symbol "BTC" (steadyMarket 30)))%nat
  /\ DeepseekAI.predictPrice 0 noChange newDeepseek
       (steadyMarket 30
        ++ [MarketData.mk 31 "BTC" 250 None None None None None "CYBER_METRICS"])
       "BTC" 7
     = DeepseekAI.predictPrice 0 noChange newDeepseek (steadyMarket 30) "BTC" 7.
Proof.
  assert (H : (30 <= List.length (MarketData.of_symbol "BTC" (steadyMarket 30)))%nat)
    by (vm_compute; lia).
  split; [exact H|].
  apply (predictPrice_oldest_thirty 0 noChange newDeepseek (steadyMarket 30)
           _ "BTC" 7 7 H).
Defined.

(** X29: a feature that does not vary is normalized to [NaN].  When the
    30 oldest rows of the symbol record no volume, the volume counts as 0
    in every row, its smallest and largest value are equal, and the price
    network is given [NaN] as the second feature of every row.  The same
    holds of the price when it did not move. *)
Theorem predictPrice_flat_features (market : list MarketData.t) (symbol : string) :
  (30 <= List.length (MarketData.of_symbol symbol market))%nat ->
  let features :=
    map DeepseekAI.features_of (MarketData.oldest 30 market symbol) in
  ((forall data, In data (MarketData.oldest 30 market symbol) ->
                 MarketData.volume24h data = None) ->
   Forall (fun row => nth_error row 1 = Some nan)
     (DeepseekAI.normalizeFeatures features))
  /\ (forall price,
        (forall data, In data (MarketData.oldest 30 market symbol) ->
                      MarketData.price data = price) ->
        Forall (fun row => nth_error row 0 = Some nan)
          (DeepseekAI.normalizeFeatures features)).
Proof.
  intros H features.
  pose proof (oldest_length 30 market symbol) as Hlen.
  assert (W : forall j, (j < 5)%nat -> (j < List.length (hd [] features))%nat).
  { intros j Hj. unfold features.
    destruct (MarketData.oldest 30 market symbol) as [|data rest] eqn:E;
      [cbn [List.length] in Hlen; lia|exact Hj]. }
  split.
  - intros Hvol. apply (normalizeFeatures_flat_column features 1 0%float).
    + apply W. lia.
    + intros row Hrow. apply in_map_iff in Hrow.
      destruct Hrow as (data & <- & Hdata). exists None.
      split; [|reflexivity]. simpl. f_equal. apply Hvol, Hdata.
  - intros price Hprice.
    apply (normalizeFeatures_flat_column features 0 price).
    + apply W. lia.
    + intros row Hrow. apply in_map_iff in Hrow.
      destruct Hrow as (data & <- & Hdata). exists (Some price).
      split; [|reflexivity]. simpl. f_equal. f_equal. apply Hprice, Hdata.
Qed.

Lemma predictPrice_flat_features_witness :
  (30 <= List.length (MarketData.of_symbol "BTC" (steadyMarket 30)))%nat
  /\ (forall data, In data (MarketData.oldest 30 (steadyMarket 30) "BTC") ->
                   MarketData.volume24h data = None)
  /\ Forall (fun row => nth_error row 1 = Some nan)
       (DeepseekAI.normalizeFeatures
          (map DeepseekAI.features_of
             (MarketData.oldest 30 (steadyMarket 30) "BTC"))).
Proof.
  assert (H : (30 <= List.length (MarketData.of_symbol "BTC" (steadyMarket 30)))%nat)
    by (vm_compute; lia).
  split; [exact H|]. split; [exact (steadyMarket_volume 30 30 "BTC")|].
  pose proof (predictPrice_flat_features (steadyMarket 30) "BTC" H) as P.
  cbv zeta in P. destruct P as [P _].
  exact (P (steadyMarket_volume 30 30 "BTC")).
Defined.

(** ** A single source *)

Section SingleSource.

Local Open Scope float_scope.

(** A number above 0 and below infinity is positive and finite. *)
Lemma positive_finite (w : float) :
  (0 <? w) = true -> (w <? infinity) = true ->
  exists m e, Prim2SF w = S754_finite false m e.
Proof.
  rewrite !FloatAxioms.ltb_spec. unfold SFltb.
  replace (Prim2SF 0) with (S754_zero false) by (vm_compute; reflexivity).
  replace (Prim2SF infinity) with (S754_infinity false)
    by (vm_compute; reflexivity).
  destruct (Prim2SF w) as [[]|[]| |[] m e]; simpl; try discriminate.
  eauto.
Qed.

(** [w / w] is exactly 1. *)
Lemma div_diag_one (w : float) :
  (0 <? w) = true -> (w <? infinity) = true -> w / w = 1.
Proof.
  intros H0 Hinf. destruct (positive_finite w H0 Hinf) as (m & e & E).
  apply Prim2SF_inj. rewrite FloatAxioms.div_spec, E.
  unfold SF64div, SFdiv, SFdiv_core_binary.
  replace (Zdigits2 (Z.pos m) + e - (Zdigits2 (Z.pos m) + e))%Z with 0%Z by lia.
  replace (e - e)%Z with 0%Z by lia.
  change (0 - Z.min (fexp prec emax 0) 0)%Z with 53%Z.
  change (Z.min (fexp prec emax 0) 0) with (-53)%Z.
  cbv iota.
  rewrite Z.shiftl_mul_pow2 by lia.
  pose proof (Z.div_mul (2 ^ 53) (Z.pos m)) as Q.
  pose proof (Z.mod_mul (2 ^ 53) (Z.pos m)) as R.
  rewrite (Z.mul_comm (Z.pos m)).
  unfold Z.div, Z.modulo in Q, R.
  destruct (Z.div_eucl (2 ^ 53 * Z.pos m) (Z.pos m)) as [q r].
  rewrite Q, R by lia.
  unfold new_location.
  destruct (Z.even (Z.pos m)); vm_compute; reflexivity.
Qed.

Lemma zero_div (w : float) :
  (0 <? w) = true -> (w <? infinity) = true -> 0 / w = 0.
Proof.
  intros H0 Hinf. destruct (positive_finite w H0 Hinf) as (m & e & E).
  apply Prim2SF_inj. rewrite FloatAxioms.div_spec, E. reflexivity.
Qed.

Lemma zero_add (w : float) :
  (0 <? w) = true -> (w <? infinity) = true -> 0 + w = w.
Proof.
  intros H0 Hinf. destruct (positive_finite w H0 Hinf) as (m & e & E).
  apply Prim2SF_inj. rewrite FloatAxioms.add_spec, E. reflexivity.
Qed.

(** One signal alone carries the whole weight: the fusion takes its
    action, with confidence 100. *)
Lemma fuse_single (s : t) :
  (0 <? confidence s / 100) = true ->
  (confidence s / 100 <? infinity) = true ->
  GrokEngine.fuse [s]
  = {| GrokEngine.f_action := action s; GrokEngine.f_confidence := 100 |}.
Proof.
  intros H0 Hinf.
  unfold GrokEngine.fuse, GrokEngine.normHold, GrokEngine.normBuy,
    GrokEngine.normSell, GrokEngine.weigh.
  cbn [fold_left]. unfold GrokEngine.accumulate.
  cbn [GrokEngine.buyWeight GrokEngine.sellWeight GrokEngine.totalWeight].
  rewrite (zero_add _ H0 Hinf).
  destruct (action s);
    cbn [GrokEngine.buyWeight GrokEngine.sellWeight GrokEngine.totalWeight];
    rewrite ?(div_diag_one _ H0 Hinf), ?(zero_div _ H0 Hinf);
    reflexivity.
Qed.

Lemma findByPk_created (st : Store) (s : t) :
  id s = fresh st -> findByPk (st ++ [s]) (id s) = Some s.
Proof.
  intros E. rewrite findByPk_app, E, fresh_not_found.
  unfold findByPk. simpl. rewrite E, Nat.eqb_refl. reflexivity.
Qed.

End SingleSource.

(** X30: a decision that rests on a single source signal has confidence
    100, whatever the confidence of the source was, as long as it is
    positive and finite: the weight of the signal is divided by itself.
    The signal of the Grok Engine takes the action of the source, is
    accepted by the model, and is then executed by [executeTrade], whose
    threshold of 75 cannot cancel it. *)
Theorem single_source_passes_gate (now now' : Z) (st : Store) (symbol : string)
    (cyber : option t) (twitter : list t) (pattern : option Id) (s : t) :
  GrokEngine.collectSignals st symbol cyber twitter pattern = [s] ->
  (0 <? confidence s / 100)%float = true ->
  (confidence s / 100 <? infinity)%float = true ->
  exists grokSignal,
    GrokEngine.analyzeMarket now st symbol cyber twitter pattern
    = (st ++ [grokSignal],
       inr (GrokEngine.Decision (action s) 100 (id grokSignal) 1))
    /\ action grokSignal = action s
    /\ confidence grokSignal = 100%float
    /\ source grokSignal = GROK_ENGINE
    /\ GrokEngine.executeTrade now' (st ++ [grokSignal]) (id grokSignal)
       = (update (st ++ [grokSignal]) (id grokSignal) (set_status executed),
          inr (GrokEngine.Executed (id grokSignal) (action s) symbol
                 (price s) 100 now')).
Proof.
  intros Hc H0 Hinf. unfold GrokEngine.analyzeMarket. rewrite Hc.
  destruct (create st (GrokEngine.grokAttributes now symbol s [s]))
    as [st' [e|grokSignal]] eqn:C.
  - exfalso. revert C. unfold create, GrokEngine.grokAttributes.
    cbn [a_action a_source a_status a_confidence].
    rewrite (fuse_single s H0 Hinf). cbn [GrokEngine.f_action GrokEngine.f_confidence].
    rewrite Action_of_to_string.
    change (Source_of_string "GROK_ENGINE") with (Some GROK_ENGINE).
    change (Status_of_string "pending") with (Some pending).
    change (validate_confidence 100) with true. cbv iota. discriminate.
  - destruct (create_accepted _ _ _ _ C)
      as (E1 & E2 & E3 & E4 & E5 & E6 & E7 & _).
    destruct (create_accepted_fields _ _ _ _ C) as (_ & F2 & _).
    cbn [GrokEngine.grokAttributes a_symbol a_action a_source a_status
         a_confidence a_price] in E3, E4, E5, E6, E7, F2.
    rewrite (fuse_single s H0 Hinf) in E4, E7.
    cbn [GrokEngine.f_action GrokEngine.f_confidence] in E4, E7.
    rewrite Action_of_to_string in E4.
    injection E4 as E4. injection E5 as E5. injection E6 as E6.
    subst st'. exists grokSignal. unfold rethrow.
    rewrite (fuse_single s H0 Hinf).
    cbn [GrokEngine.f_action GrokEngine.f_confidence List.length].
    split; [reflexivity|]. split; [auto|]. split; [exact E7|].
    split; [auto|].
    rewrite (grok_dispatch now' _ _ grokSignal (findByPk_created _ _ E2))
      by auto.
    rewrite E7. change (100 <? 75)%float with false. cbv iota.
    rewrite <- E4, E3, F2. reflexivity.
Qed.

Lemma single_source_passes_gate_witness :
  GrokEngine.collectSignals [] "BTC" None [opinion 1 TWITTER_MONITOR sell 31] None
  = [opinion 1 TWITTER_MONITOR sell 31]
  /\ exists grokSignal,
       GrokEngine.analyzeMarket 0 [] "BTC" None
         [opinion 1 TWITTER_MONITOR sell 31] None
       = ([grokSignal], inr (GrokEngine.Decision sell 100 (id grokSignal) 1)).
Proof.
  assert (H : GrokEngine.collectSignals [] "BTC" None
                [opinion 1 TWITTER_MONITOR sell 31] None
              = [opinion 1 TWITTER_MONITOR sell 31]) by reflexivity.
  split; [exact H|].
  destruct (single_source_passes_gate 0 0 [] "BTC" None
              [opinion 1 TWITTER_MONITOR sell 31] None _ H eq_refl eq_refl)
    as (grokSignal & E & _).
  exists grokSignal. exact E.
Defined.
